(** * gi3d mesh: shallow embedding of [MeshBase] and its plane generator

    The development follows the Go file that declares the [Mesh] interface
    and its [MeshBase] implementation (package [gi3d]): [Reset], [Validate],
    [MakeVectors], [AddPlane], [SetPlane] and [PlaneSize].

    - Go's [int] is a 64-bit two's complement integer: it is a [Z] with the
      wrap-around written out ([Int.wrap]); [uint32] conversions are
      [uint32].
    - [float32] is IEEE 754 binary32, taken from the Standard Library's
      [SpecFloat] at precision 24 and maximal exponent 128.
    - Slices are lists; indexing out of range and growing past the largest
      [int] are run-time panics ([result]).
    - [log.Println] and the calls on the GPU buffer interfaces are events of
      a small free monad ([Prog]). *)

From Stdlib Require Import ZArith Lia Bool String Ascii.
From Stdlib Require Import Floats.SpecFloat.
From Stdlib Require Decimal Hexadecimal DecimalString HexadecimalString.
From stdpp Require Import base list.

Local Open Scope Z_scope.

(** ** Go's [int] *)

Abbreviation int := Z (only parsing).

Module Int.

Definition min_int : Z := - 2 ^ 63.
Definition max_int : Z := 2 ^ 63 - 1.

Definition wrap (z : Z) : Z := (z + 2 ^ 63) mod 2 ^ 64 - 2 ^ 63.

Definition in_range (z : Z) : Prop := min_int <= z <= max_int.

Definition add (a b : Z) : Z := wrap (a + b).
Definition sub (a b : Z) : Z := wrap (a - b).
Definition mul (a b : Z) : Z := wrap (a * b).

(** [a / b] for a constant [b] larger than 1: truncated division, which
    cannot leave the range of [int]. *)
Definition quo (a b : Z) : Z := Z.quot a b.

End Int.

(** [uint32(x)] for an [int] x. *)
Definition uint32 (z : Z) : Z := z mod 2 ^ 32.

(** Modelled from the spec: [ints.MaxInt] (package [ki/ints]) is not in the
    sources; "each clamped to a minimum of 1" makes it the larger of its two
    arguments. *)
Definition MaxInt (a b : Z) : Z := Z.max a b.

(** ** [float32] *)

Abbreviation float32 := spec_float.

Module F32.

Definition prec : Z := 24.
Definition emax : Z := 128.

(** Each operation rounds to nearest, ties to even, on its own: no
    multiplication is fused with the addition that follows it. *)
Definition add : float32 -> float32 -> float32 := SFadd prec emax.
Definition sub : float32 -> float32 -> float32 := SFsub prec emax.
Definition mul : float32 -> float32 -> float32 := SFmul prec emax.
Definition div : float32 -> float32 -> float32 := SFdiv prec emax.

(** [float32(i)] for an [int] i, and the constants of the source. *)
Definition of_int (i : Z) : float32 := binary_normalize prec emax i 0 false.

Definition zero : float32 := S754_zero false.

(** [x > y] *)
Definition gt (x y : float32) : bool := SFltb y x.

End F32.

(** ** Run-time panics *)

Inductive panic : Type :=
| IndexOutOfRange
| LenOutOfRange.

Inductive result (A : Type) : Type :=
| Ok (a : A)
| Panic (p : panic).

Arguments Ok {A} a.
Arguments Panic {A} p.

Definition rbind {A B : Type} (r : result A) (k : A -> result B) : result B :=
  match r with
  | Ok a => k a
  | Panic p => Panic p
  end.

Declare Scope result_scope.
Delimit Scope result_scope with result.
Notation "x <- r ;; k" := (rbind r (fun x => k))
  (at level 100, r at next level, right associativity) : result_scope.

(** [for i := 0; i < n; i++ { s = body(i, s) }], for a body that assigns
    neither [i] nor [n]: [i] never passes [n], so [i++] does not wrap. *)
Fixpoint for_from {S : Type} (i : Z) (count : nat)
    (body : Z -> S -> result S) (s : S) : result S :=
  match count with
  | O => Ok s
  | Datatypes.S c => rbind (body i s) (for_from (i + 1) c body)
  end.

Definition for_int {S : Type} (n : Z) (body : Z -> S -> result S) (s : S)
    : result S :=
  for_from 0 (Z.to_nat n) body s.

(** ** Slices *)

Definition len {A : Type} (a : list A) : Z := Z.of_nat (length a).

(** [a[i] = v] *)
Definition arr_set {A : Type} (a : list A) (i : Z) (v : A) : result (list A) :=
  if (0 <=? i) && (i <? len a)
  then Ok (<[Z.to_nat i := v]> a)
  else Panic IndexOutOfRange.

(** Modelled from the spec: [Extend] of [mat32.ArrayF32] and
    [mat32.ArrayU32] is not in the sources; it must "extend the destination
    arrays by exactly the number of new elements ... preserving previously
    written data": [*a = append( *a, make([]T, inc)...)], which panics on a
    negative count and when the new length is not an [int]. *)
Definition Extend {A : Type} (zero : A) (a : list A) (inc : Z)
    : result (list A) :=
  if (inc <? 0) || (Int.max_int <? len a + inc)
  then Panic LenOutOfRange
  else Ok (a ++ replicate (Z.to_nat inc) zero).

(** [a[pos] = v0; a[pos+1] = v1; ...] *)
Fixpoint arr_write {A : Type} (a : list A) (pos : Z) (v : list A)
    : result (list A) :=
  match v with
  | [] => Ok a
  | x :: v' => rbind (arr_set a pos x) (fun a' => arr_write a' (Int.add pos 1) v')
  end.

(** The array [a] with the values [v] in place of those at [pos],
    [pos+1], ...: what [arr_write] computes when it does not panic. *)
Definition splice {A : Type} (a : list A) (pos : nat) (v : list A) : list A :=
  take pos a ++ v ++ drop (pos + length v) a.

Abbreviation ArrayF32 := (list float32).
Abbreviation ArrayU32 := (list Z).

(** ** Package [mat32]: axes and vectors *)

Module mat32.

(** Modelled from the spec: [mat32.Dims] is not in the sources; the plane
    generator takes "two of the three spatial axes". *)
Inductive Dims : Type := X | Y | Z.

Definition Dims_eqb (a b : Dims) : bool :=
  match a, b with
  | X, X | Y, Y | Z, Z => true
  | _, _ => false
  end.

Record Vec2 : Type := mkVec2 { v2X : float32; v2Y : float32 }.
Record Vec3 : Type := mkVec3 { v3X : float32; v3Y : float32; v3Z : float32 }.
Record Vec4 : Type :=
  mkVec4 { v4X : float32; v4Y : float32; v4Z : float32; v4W : float32 }.

(** [mat32.Vec3{}] and [mat32.Vec2{}] *)
Definition Vec3_zero : Vec3 := mkVec3 F32.zero F32.zero F32.zero.
Definition Vec2_zero : Vec2 := mkVec2 F32.zero F32.zero.

(** Modelled from the spec: [Vec3.SetDim] is not in the sources; it assigns
    the component of the given axis. *)
Definition Vec3_SetDim (v : Vec3) (dim : Dims) (value : float32) : Vec3 :=
  match dim with
  | X => mkVec3 value (v3Y v) (v3Z v)
  | Y => mkVec3 (v3X v) value (v3Z v)
  | Z => mkVec3 (v3X v) (v3Y v) value
  end.

(** Modelled from the spec: [Vec2.Set] is not in the sources; it assigns
    both components. *)
Definition Vec2_Set (x y : float32) : Vec2 := mkVec2 x y.

(** Modelled from the spec: the [ToArray] methods of [Vec2], [Vec3] and
    [Vec4] are not in the sources; they store the components at [offset],
    [offset+1], ... of the array. *)
Definition Vec2_ToArray (v : Vec2) (array : ArrayF32) (offset : int)
    : result ArrayF32 :=
  arr_write array offset [v2X v; v2Y v].

(** Modelled from the spec: see [Vec2_ToArray]. *)
Definition Vec3_ToArray (v : Vec3) (array : ArrayF32) (offset : int)
    : result ArrayF32 :=
  arr_write array offset [v3X v; v3Y v; v3Z v].

(** Modelled from the spec: see [Vec2_ToArray]. *)
Definition Vec4_ToArray (v : Vec4) (array : ArrayF32) (offset : int)
    : result ArrayF32 :=
  arr_write array offset [v4X v; v4Y v; v4Z v; v4W v].

(** Modelled from the spec: [ArrayU32.Set(pos, v...)] is not in the
    sources; it stores the values [v] at [pos], [pos+1], ... *)
Definition ArrayU32_Set (a : ArrayU32) (pos : int) (v : list int)
    : result ArrayU32 :=
  arr_write a pos v.

End mat32.

(** ** What the file imports from the rest of the toolkit

    [gi.Color], [gi3d.BBox], [gi3d.Scene] and the interfaces of package
    [gpu] are declared outside the sources at hand. They are taken as
    parameters: the types, the two functions on colors that [SetPlane]
    calls, and the code address that [fmt] prints for the method value
    [ms.Name] (a non-nil func value). *)

Class External : Type := {
  gi_Color : Type;
  (** [clr.IsNil()] *)
  IsNil : gi_Color -> bool;
  (** [ColorToVec4f(clr)] *)
  ColorToVec4f : gi_Color -> mat32.Vec4;
  gi3d_BBox : Type;
  gpu_BufferMgr : Type;
  gpu_VectorsBuffer : Type;
  gpu_IndexesBuffer : Type;
  gpu_Vectors : Type;
  Name_fm : positive;
}.

(** Modelled from the spec: the keys of [sc.Renders.Vectors] are not in the
    sources; they are the "named vertex-attribute slots (position, normal,
    texcoord, color)". *)
Inductive InVtx : Type := InVtxPos | InVtxNorm | InVtxTex | InVtxColor.

(** Modelled from the spec: [gpu.StaticDraw] and [gpu.DynamicDraw] are not
    in the sources; a mesh is "static (uploaded once) vs dynamic". *)
Inductive gpu_Usage : Type := StaticDraw | DynamicDraw.

(** An [error] made by [fmt.Errorf] is its message. *)
Definition error : Type := string.

(** ** Formatting *)

(** [%d] of an [int] *)
Definition fmt_d (z : Z) : string :=
  DecimalString.NilZero.string_of_int (Z.to_int z).

(** [%v] of a non-nil func value: [0x] and its code address in lower-case
    hexadecimal. *)
Definition fmt_v_func (code : positive) : string :=
  ("0x" ++
   HexadecimalString.NilEmpty.string_of_uint (Pos.to_hex_uint code))%string.

(** [strings.Contains(s, sub)] *)
Fixpoint Contains (s sub : string) : bool :=
  if String.prefix sub s then true
  else match s with
       | EmptyString => false
       | String _ s' => Contains s' sub
       end.

(** Whether the character [c] occurs in [s]. *)
Fixpoint has_char (c : ascii) (s : string) : bool :=
  match s with
  | EmptyString => false
  | String a s' => Ascii.eqb a c || has_char c s'
  end.

Section Mesh.

Context `{Ext : External}.

(** [*Scene], as far as [MakeVectors] reads it: [sc.Renders.Vectors]. *)
Record Scene : Type := { Renders_Vectors : InVtx -> gpu_Vectors }.

(** ** [MeshBase] *)

Record MeshBase : Type := mkMeshBase {
  Nm : string;
  Dynamic : bool;
  Trans : bool;
  Vtx : ArrayF32;
  Norm : ArrayF32;
  Tex : ArrayF32;
  Idx : ArrayU32;
  Color : ArrayF32;
  BBox : gi3d_BBox;
  (** a [gpu.BufferMgr] interface value, [None] when nil *)
  Buff : option gpu_BufferMgr;
}.

Definition set_Vtx (ms : MeshBase) (a : ArrayF32) : MeshBase :=
  mkMeshBase (Nm ms) (Dynamic ms) (Trans ms) a (Norm ms) (Tex ms) (Idx ms)
    (Color ms) (BBox ms) (Buff ms).
Definition set_Norm (ms : MeshBase) (a : ArrayF32) : MeshBase :=
  mkMeshBase (Nm ms) (Dynamic ms) (Trans ms) (Vtx ms) a (Tex ms) (Idx ms)
    (Color ms) (BBox ms) (Buff ms).
Definition set_Tex (ms : MeshBase) (a : ArrayF32) : MeshBase :=
  mkMeshBase (Nm ms) (Dynamic ms) (Trans ms) (Vtx ms) (Norm ms) a (Idx ms)
    (Color ms) (BBox ms) (Buff ms).
Definition set_Idx (ms : MeshBase) (a : ArrayU32) : MeshBase :=
  mkMeshBase (Nm ms) (Dynamic ms) (Trans ms) (Vtx ms) (Norm ms) (Tex ms) a
    (Color ms) (BBox ms) (Buff ms).
Definition set_Color (ms : MeshBase) (a : ArrayF32) : MeshBase :=
  mkMeshBase (Nm ms) (Dynamic ms) (Trans ms) (Vtx ms) (Norm ms) (Tex ms)
    (Idx ms) a (BBox ms) (Buff ms).
Definition set_Buff (ms : MeshBase) (b : option gpu_BufferMgr) : MeshBase :=
  mkMeshBase (Nm ms) (Dynamic ms) (Trans ms) (Vtx ms) (Norm ms) (Tex ms)
    (Idx ms) (Color ms) (BBox ms) b.

(** ** Effects: the log and the GPU buffer interfaces *)

Inductive Event : Type -> Type :=
| LogPrintln (msg : string) : Event unit
| NewBufferMgr : Event gpu_BufferMgr
| AddVectorsBuffer (b : gpu_BufferMgr) (usg : gpu_Usage)
    : Event gpu_VectorsBuffer
| AddIndexesBuffer (b : gpu_BufferMgr) (usg : gpu_Usage)
    : Event gpu_IndexesBuffer
| VectorsBuffer (b : gpu_BufferMgr) : Event gpu_VectorsBuffer
| IndexesBuffer (b : gpu_BufferMgr) : Event gpu_IndexesBuffer
| NumVectors (vb : gpu_VectorsBuffer) : Event int
| DeleteAllVectors (vb : gpu_VectorsBuffer) : Event unit
| AddVectors (vb : gpu_VectorsBuffer) (v : gpu_Vectors) (interleave : bool)
    : Event unit
| VSetLen (vb : gpu_VectorsBuffer) (ln : int) : Event unit
| SetVecData (vb : gpu_VectorsBuffer) (v : gpu_Vectors) (data : ArrayF32)
    : Event unit
| ISetLen (ib : gpu_IndexesBuffer) (ln : int) : Event unit
| ISet (ib : gpu_IndexesBuffer) (idxs : ArrayU32) : Event unit.

(** A program is a finite tree of events: each event's answer comes from
    the environment. *)
Inductive Prog (R : Type) : Type :=
| Ret (r : R)
| Vis (T : Type) (e : Event T) (k : T -> Prog R).

Arguments Ret {R} r.
Arguments Vis {R T} e k.

Fixpoint bind {R S : Type} (p : Prog R) (k : R -> Prog S) : Prog S :=
  match p with
  | Ret r => k r
  | Vis e h => Vis e (fun t => bind (h t) k)
  end.

Definition trigger {T : Type} (e : Event T) : Prog T := Vis e Ret.

(** Whether an event is a call on the GPU interfaces. *)
Definition is_gpu_call {T : Type} (e : Event T) : bool :=
  match e with
  | LogPrintln _ => false
  | _ => true
  end.

(** The program makes no GPU call, whatever the environment answers. *)
Fixpoint no_gpu_call {R : Type} (p : Prog R) : Prop :=
  match p with
  | Ret _ => True
  | Vis e k => is_gpu_call e = false /\ forall t, no_gpu_call (k t)
  end.

(** Every run of the program returns [r]. *)
Fixpoint returns {R : Type} (p : Prog R) (r : R) : Prop :=
  match p with
  | Ret r' => r' = r
  | Vis e k => forall t, returns (k t) r
  end.

(** The lines logged by a program that makes no GPU call. *)
Fixpoint log_of {R : Type} (p : Prog R) : list string :=
  match p with
  | Ret _ => []
  | Vis e k =>
      match e in Event T return (T -> Prog R) -> list string with
      | LogPrintln msg => fun k => msg :: log_of (k tt)
      | _ => fun _ => []
      end k
  end.

Declare Scope prog_scope.
Delimit Scope prog_scope with prog.
Notation "x <- p ;; k" := (bind p (fun x => k))
  (at level 100, p at next level, right associativity) : prog_scope.

(** ** Queries and [Reset] *)

Definition Name (ms : MeshBase) : string := Nm ms.

Definition HasColor (ms : MeshBase) : bool := len (Color ms) >? 0.

Definition IsTransparent (ms : MeshBase) : bool :=
  if negb (HasColor ms) then false else Trans ms.

(** A nil slice is the empty list. *)
Definition Reset (ms : MeshBase) : MeshBase :=
  let ms := set_Vtx ms [] in
  let ms := set_Norm ms [] in
  let ms := set_Tex ms [] in
  let ms := set_Idx ms [] in
  let ms := set_Color ms [] in
  ms.

(** ** [Validate] *)

(** The four messages. The source passes [ms.Name], the method value, to
    the [%v] verb, not the result of calling it: what is printed is the
    func value. *)
Definition err_no_verticies : error :=
  ("gi3d.Mesh: " ++ fmt_v_func Name_fm ++ " has no verticies")%string.

Definition err_mismatch (what : string) (n vln : int) : error :=
  ("gi3d.Mesh: " ++ fmt_v_func Name_fm ++ " number of " ++ what ++ ": "
     ++ fmt_d n ++ " != Vtx: " ++ fmt_d vln)%string.

(** [log.Println(err); return err] *)
Definition log_and_return (err : error) : Prog (option error) :=
  (_ <- trigger (LogPrintln err) ;; Ret (Some err))%prog.

Definition Validate (ms : MeshBase) : Prog (option error) :=
  let vln := Int.quo (len (Vtx ms)) 3 in
  if vln =? 0 then log_and_return err_no_verticies
  else
    let nln := Int.quo (len (Norm ms)) 3 in
    if negb (nln =? vln) then log_and_return (err_mismatch "Norms" nln vln)
    else
      let tln := Int.quo (len (Tex ms)) 2 in
      if negb (tln =? vln) then log_and_return (err_mismatch "Tex" tln vln)
      else
        let cln := Int.quo (len (Color ms)) 4 in
        if cln =? 0 then Ret None
        else if negb (cln =? vln)
             then log_and_return (err_mismatch "Colors" cln vln)
             else Ret None.

(** ** [MakeVectors]

    The mesh is passed by pointer: the function returns it next to the
    error. [sc] is taken non-nil. *)
Definition MakeVectors (ms : MeshBase) (sc : Scene)
    : Prog (option error * MeshBase) :=
  (err <- Validate ms ;;
   match err with
   | Some e => Ret (Some e, ms)
   | None =>
     bufs <-
       match Buff ms with
       | None =>
           b <- trigger NewBufferMgr ;;
           let ms := set_Buff ms (Some b) in
           let usg := if Dynamic ms then DynamicDraw else StaticDraw in
           vbuf <- trigger (AddVectorsBuffer b usg) ;;
           ibuf <- trigger (AddIndexesBuffer b StaticDraw) ;;
           Ret (ms, vbuf, ibuf)
       | Some b =>
           vbuf <- trigger (VectorsBuffer b) ;;
           ibuf <- trigger (IndexesBuffer b) ;;
           Ret (ms, vbuf, ibuf)
       end ;;
     let '(ms, vbuf, ibuf) := bufs in
     let nvec := 3 in
     let hasColor := HasColor ms in
     let nvec := if hasColor then Int.add nvec 1 else nvec in
     let vtx := Renders_Vectors sc InVtxPos in
     let nrm := Renders_Vectors sc InVtxNorm in
     let tex := Renders_Vectors sc InVtxTex in
     let clr := Renders_Vectors sc InVtxColor in
     n <- trigger (NumVectors vbuf) ;;
     _ <- (if negb (n =? nvec) then
             _ <- trigger (DeleteAllVectors vbuf) ;;
             _ <- trigger (AddVectors vbuf vtx true) ;;
             _ <- trigger (AddVectors vbuf nrm true) ;;
             _ <- trigger (AddVectors vbuf tex true) ;;
             if hasColor then trigger (AddVectors vbuf clr false)
             else Ret tt
           else Ret tt) ;;
     let vln := Int.quo (len (Vtx ms)) 3 in
     _ <- trigger (VSetLen vbuf vln) ;;
     _ <- trigger (SetVecData vbuf vtx (Vtx ms)) ;;
     _ <- trigger (SetVecData vbuf nrm (Norm ms)) ;;
     _ <- trigger (SetVecData vbuf tex (Tex ms)) ;;
     _ <- (if hasColor then trigger (SetVecData vbuf clr (Color ms))
           else Ret tt) ;;
     let iln := len (Idx ms) in
     _ <- trigger (ISetLen ibuf iln) ;;
     _ <- trigger (ISet ibuf (Idx ms)) ;;
     Ret (None, ms)
   end)%prog.

(** ** [PlaneSize] *)

Definition PlaneSize (ms : MeshBase) (wsegs hsegs : int) : int * int :=
  let wsegs := MaxInt wsegs 1 in
  let hsegs := MaxInt hsegs 1 in
  let vtxSize := Int.mul (Int.add wsegs 1) (Int.add hsegs 1) in
  let idxSize := Int.mul (Int.mul wsegs hsegs) 6 in
  (vtxSize, idxSize).

(** ** [SetPlane] *)

(** The locals that the vertex loop assigns, next to the mesh. *)
Record PlaneLoop : Type := mkPlaneLoop {
  l_ms : MeshBase;
  l_vtx : mat32.Vec3;
  l_tex : mat32.Vec2;
  l_vidx : int;
  l_tidx : int;
  l_cidx : int;
}.

Section PlaneBody.

Variables (stVtxIdx : int) (setNorm setTex hasColor : bool).
Variables (waxis haxis w : mat32.Dims).
Variables (fwdir fhdir segWidth segHeight woff hoff zoff : float32).
Variables (wsegs hsegs wsegs1 : int).
Variables (norm : mat32.Vec3) (clrv : mat32.Vec4).

(** The body of the inner vertex loop. *)
Definition plane_vertex (iy ix : int) (s : PlaneLoop) : result PlaneLoop :=
  (let ms := l_ms s in
   let vtx := mat32.Vec3_SetDim (l_vtx s) waxis
     (F32.add (F32.mul (F32.mul (F32.of_int ix) segWidth) fwdir) woff) in
   let vtx := mat32.Vec3_SetDim vtx haxis
     (F32.add (F32.mul (F32.mul (F32.of_int iy) segHeight) fhdir) hoff) in
   let vtx := mat32.Vec3_SetDim vtx w zoff in
   a <- mat32.Vec3_ToArray vtx (Vtx ms) (l_vidx s) ;;
   let ms := set_Vtx ms a in
   ms <- (if setNorm
          then a <- mat32.Vec3_ToArray norm (Norm ms) (l_vidx s) ;;
               Ok (set_Norm ms a)
          else Ok ms) ;;
   t <- (if setTex
         then
           let tex := mat32.Vec2_Set
             (F32.div (F32.of_int ix) (F32.of_int wsegs))
             (F32.sub (F32.of_int 1)
                (F32.div (F32.of_int iy) (F32.of_int hsegs))) in
           a <- mat32.Vec2_ToArray tex (Tex ms) (l_tidx s) ;;
           Ok (set_Tex ms a, tex, Int.add (l_tidx s) 2)
         else Ok (ms, l_tex s, l_tidx s)) ;;
   let '(ms, tex, tidx) := t in
   c <- (if hasColor
         then a <- mat32.Vec4_ToArray clrv (Color ms) (l_cidx s) ;;
              Ok (set_Color ms a, Int.add (l_cidx s) 4)
         else Ok (ms, l_cidx s)) ;;
   let '(ms, cidx) := c in
   Ok (mkPlaneLoop ms vtx tex (Int.add (l_vidx s) 3) tidx cidx))%result.

(** The body of the inner index loop, on [ms.Idx] and [sidx]. *)
Definition plane_cell (iy ix : int) (s : ArrayU32 * int)
    : result (ArrayU32 * int) :=
  (let '(idx, sidx) := s in
   let a := Int.add ix (Int.mul wsegs1 iy) in
   let b := Int.add ix (Int.mul wsegs1 (Int.add iy 1)) in
   let c := Int.add (Int.add ix 1) (Int.mul wsegs1 (Int.add iy 1)) in
   let d := Int.add (Int.add ix 1) (Int.mul wsegs1 iy) in
   idx <- mat32.ArrayU32_Set idx sidx
            [uint32 (Int.add a stVtxIdx); uint32 (Int.add b stVtxIdx);
             uint32 (Int.add d stVtxIdx); uint32 (Int.add b stVtxIdx);
             uint32 (Int.add c stVtxIdx); uint32 (Int.add d stVtxIdx)] ;;
   Ok (idx, Int.add sidx 6))%result.

End PlaneBody.

(** The axis orthogonal to the plane, as the chain of tests leaves [w]. *)
Definition plane_w (waxis haxis : mat32.Dims) : mat32.Dims :=
  let eq := mat32.Dims_eqb in
  let w := mat32.Z in
  if (eq waxis mat32.X && eq haxis mat32.Y)
     || (eq waxis mat32.Y && eq haxis mat32.X) then mat32.Z
  else if (eq waxis mat32.X && eq haxis mat32.Z)
          || (eq waxis mat32.Z && eq haxis mat32.X) then mat32.Y
  else if (eq waxis mat32.Z && eq haxis mat32.Y)
          || (eq waxis mat32.Y && eq haxis mat32.Z) then mat32.X
  else w.

(** [norm]: the zero vector with the component of [w] set to 1 or -1. *)
Definition plane_norm (w : mat32.Dims) (zoff : float32) : mat32.Vec3 :=
  let norm := mat32.Vec3_zero in
  if F32.gt zoff (F32.of_int 0)
  then mat32.Vec3_SetDim norm w (F32.of_int 1)
  else mat32.Vec3_SetDim norm w (F32.of_int (-1)).

(** The block that grows the vertex arrays. *)
Definition plane_extend (ms : MeshBase) (stVtxIdx vtxSz : int)
    (hasColor : bool) : result MeshBase :=
  (let sz := Int.quo (len (Vtx ms)) 3 in
   if Int.add stVtxIdx vtxSz >? sz then
     let dif := Int.sub (Int.add stVtxIdx vtxSz) sz in
     a <- Extend F32.zero (Vtx ms) (Int.mul dif 3) ;;
     let ms := set_Vtx ms a in
     a <- Extend F32.zero (Norm ms) (Int.mul dif 3) ;;
     let ms := set_Norm ms a in
     a <- Extend F32.zero (Tex ms) (Int.mul dif 2) ;;
     let ms := set_Tex ms a in
     if hasColor then
       a <- Extend F32.zero (Color ms) (Int.mul dif 4) ;;
       Ok (set_Color ms a)
     else Ok ms
   else Ok ms)%result.

(** The block that writes the indexes. *)
Definition plane_indexes (ms : MeshBase) (stVtxIdx stIdxIdx idxSz : int)
    (wsegs hsegs wsegs1 : int) : result MeshBase :=
  (let lidx := len (Idx ms) in
   a <- (if Int.add stIdxIdx idxSz >? lidx
         then Extend 0 (Idx ms) (Int.sub (Int.add stIdxIdx idxSz) lidx)
         else Ok (Idx ms)) ;;
   let sidx := stIdxIdx in
   r <- for_int hsegs (fun iy s =>
          for_int wsegs (fun ix s => plane_cell stVtxIdx wsegs1 iy ix s) s)
          (a, sidx) ;;
   Ok (set_Idx ms (fst r)))%result.

Definition SetPlane (ms : MeshBase) (stVtxIdx stIdxIdx : int)
    (setNorm setTex setIdx : bool) (waxis haxis : mat32.Dims)
    (wdir hdir : int) (width height woff hoff zoff : float32)
    (wsegs hsegs : int) (clr : gi_Color) : result MeshBase :=
  (let w := plane_w waxis haxis in
   let wsegs := MaxInt wsegs 1 in
   let hsegs := MaxInt hsegs 1 in
   let norm := plane_norm w zoff in
   let wsegs1 := Int.add wsegs 1 in
   let hsegs1 := Int.add hsegs 1 in
   let segWidth := F32.div width (F32.of_int wsegs) in
   let segHeight := F32.div height (F32.of_int hsegs) in
   let fwdir := F32.of_int wdir in
   let fhdir := F32.of_int hdir in
   let woff := if wdir <? 0 then F32.add width woff else woff in
   let hoff := if hdir <? 0 then F32.add height hoff else hoff in
   let hasColor := negb (IsNil clr) in
   let '(vtxSz, idxSz) := PlaneSize ms wsegs hsegs in
   ms <- plane_extend ms stVtxIdx vtxSz hasColor ;;
   let vtx := mat32.Vec3_zero in
   let tex := mat32.Vec2_zero in
   let clrv := ColorToVec4f clr in
   let vidx := Int.mul stVtxIdx 3 in
   let tidx := Int.mul stVtxIdx 2 in
   let cidx := Int.mul stVtxIdx 4 in
   s <- for_int hsegs1 (fun iy s =>
          for_int wsegs1 (fun ix s =>
            plane_vertex setNorm setTex hasColor waxis haxis w fwdir fhdir
              segWidth segHeight woff hoff zoff wsegs hsegs norm clrv
              iy ix s) s)
          (mkPlaneLoop ms vtx tex vidx tidx cidx) ;;
   let ms := l_ms s in
   if setIdx
   then plane_indexes ms stVtxIdx stIdxIdx idxSz wsegs hsegs wsegs1
   else Ok ms)%result.

(** ** [AddPlane] *)

Definition AddPlane (ms : MeshBase) (waxis haxis : mat32.Dims)
    (wdir hdir : int) (width height woff hoff zoff : float32)
    (wsegs hsegs : int) (clr : gi_Color) : result MeshBase :=
  let stVtxIdx := Int.quo (len (Vtx ms)) 3 in
  let stIdxIdx := len (Idx ms) in
  SetPlane ms stVtxIdx stIdxIdx true true true waxis haxis wdir hdir
    width height woff hoff zoff wsegs hsegs clr.

End Mesh.

Arguments Ret {Ext R} r.
Arguments Vis {Ext R T} e k.

(** ** A concrete environment, for running the model

    A color is an optional vector of four floats, nil when absent; buffers
    are numbered handles. *)

Definition sample_IsNil (c : option mat32.Vec4) : bool :=
  match c with
  | None => true
  | Some _ => false
  end.

Definition sample_ToVec4f (c : option mat32.Vec4) : mat32.Vec4 :=
  match c with
  | Some v => v
  | None => mat32.mkVec4 F32.zero F32.zero F32.zero F32.zero
  end.

#[local] Instance SampleExt : External := {|
  gi_Color := option mat32.Vec4;
  IsNil := sample_IsNil;
  ColorToVec4f := sample_ToVec4f;
  gi3d_BBox := unit;
  gpu_BufferMgr := nat;
  gpu_VectorsBuffer := nat;
  gpu_IndexesBuffer := nat;
  gpu_Vectors := InVtx;
  Name_fm := 4927296%positive;
|}.

Definition nil_color : option mat32.Vec4 := None.
Definition red : option mat32.Vec4 :=
  Some (mat32.mkVec4 (F32.of_int 1) F32.zero F32.zero (F32.of_int 1)).

(** The mesh right after construction: every array empty, no buffer. *)
Definition empty_mesh `{External} (name : string) (bb : gi3d_BBox)
    : MeshBase :=
  mkMeshBase name false false [] [] [] [] [] bb None.

(** A mesh that was compiled into the buffer manager number 7: one
    triangle, with normals and texture coordinates. *)
Definition bound_mesh : MeshBase :=
  mkMeshBase "tri" false false
    (replicate 9 F32.zero) (replicate 9 F32.zero) (replicate 6 F32.zero)
    [0; 1; 2] [] tt (Some 7%nat).

(** Four vertexes but only three normals. *)
Definition short_norm_mesh : MeshBase :=
  mkMeshBase "quad" false false
    (replicate 12 F32.zero) (replicate 9 F32.zero) (replicate 8 F32.zero)
    [] [] tt None.

Definition sample_scene : Scene := {| Renders_Vectors := fun v => v |}.

(** The error that [Validate] returns on [short_norm_mesh]. *)
Definition short_norm_error : error :=
  "gi3d.Mesh: 0x4b2f40 number of Norms: 3 != Vtx: 4"%string.

(** Vertex positions in the order (0,0,1), (0,2,1), (2,0,1), (2,2,1). *)
Definition height_inner_order : ArrayF32 :=
  map F32.of_int [0; 0; 1;  0; 2; 1;  2; 0; 1;  2; 2; 1].

(** ** Vocabulary of the specification *)

(** The [n] values of [a] from position [p] on. *)
Definition slice {A : Type} (a : list A) (p n : nat) : list A :=
  take n (drop p a).

(** [a'] has the length of [a] and the same first [n] values. *)
Definition kept {A : Type} (n : nat) (a a' : list A) : Prop :=
  length a' = length a /\ take n a' = take n a.

(** The sizes of a plane, on the clamped segment counts. *)
Definition plane_vtx_size (wsegs hsegs : Z) : Z :=
  (Z.max wsegs 1 + 1) * (Z.max hsegs 1 + 1).

Definition plane_idx_size (wsegs hsegs : Z) : Z :=
  Z.max wsegs 1 * Z.max hsegs 1 * 6.

(** The two triangles [(a,b,d)] and [(b,c,d)] of the grid cell [(ix,iy)] of
    a plane [wsegs] cells wide, offset by [stVtxIdx], as [uint32] values. *)
Definition cell_triangles (stVtxIdx wsegs ix iy : Z) : list Z :=
  let a := ix + (wsegs + 1) * iy in
  let b := ix + (wsegs + 1) * (iy + 1) in
  let c := (ix + 1) + (wsegs + 1) * (iy + 1) in
  let d := (ix + 1) + (wsegs + 1) * iy in
  [uint32 (a + stVtxIdx); uint32 (b + stVtxIdx); uint32 (d + stVtxIdx);
   uint32 (b + stVtxIdx); uint32 (c + stVtxIdx); uint32 (d + stVtxIdx)].

(** The plane is small enough for every size computed from it to be an
    [int]. *)
Definition plane_fits (wsegs hsegs : Z) : Prop :=
  plane_vtx_size wsegs hsegs <= 2 ^ 56.

(** A float that is strictly above zero: a positive finite number or
    positive infinity. *)
Definition strictly_positive (x : float32) : bool :=
  match x with
  | S754_finite false _ _ | S754_infinity false => true
  | _ => false
  end.

(** The three floats of a vector, as [ToArray] stores them. *)
Definition Vec3_floats (v : mat32.Vec3) : list float32 :=
  [mat32.v3X v; mat32.v3Y v; mat32.v3Z v].

(** The vector with [value] along [dim] and zero elsewhere. *)
Definition axis_vector (dim : mat32.Dims) (value : float32) : mat32.Vec3 :=
  mat32.Vec3_SetDim mat32.Vec3_zero dim value.

Section Vocabulary.

Context `{Ext : External}.

(** The counts that [Validate] compares: arrays taken as 3-float, 2-float
    and 4-float vectors. *)
Definition vtx_count (ms : MeshBase) : Z := len (Vtx ms) / 3.
Definition norm_count (ms : MeshBase) : Z := len (Norm ms) / 3.
Definition tex_count (ms : MeshBase) : Z := len (Tex ms) / 2.
Definition color_count (ms : MeshBase) : Z := len (Color ms) / 4.

(** "A mesh either fully supports per-vertex color or not at all." *)
Definition color_invariant (ms : MeshBase) : Prop :=
  color_count ms = 0 \/ color_count ms = vtx_count ms.

(** The arrays are far from the largest [int]. *)
Definition moderate (ms : MeshBase) : Prop :=
  len (Vtx ms) <= 2 ^ 59 /\ len (Norm ms) <= 2 ^ 59 /\
  len (Tex ms) <= 2 ^ 59 /\ len (Color ms) <= 2 ^ 59 /\
  len (Idx ms) <= 2 ^ 59.

(** What [SetPlane] assumes of the arrays it grows with [Vtx] ("assuming
    same"): they hold at least as many vectors as [Vtx] does. *)
Definition aligned (ms : MeshBase) (hasColor : bool) : Prop :=
  vtx_count ms <= norm_count ms /\ vtx_count ms <= tex_count ms /\
  (hasColor = true -> vtx_count ms <= color_count ms).

(** Every array is empty, as at construction and after [Reset]. *)
Definition is_empty (ms : MeshBase) : Prop :=
  Vtx ms = [] /\ Norm ms = [] /\ Tex ms = [] /\ Idx ms = [] /\
  Color ms = [].

(** The arguments that [AddPlane] forwards to [SetPlane]. *)
Record PlaneArgs : Type := mkPlaneArgs {
  p_waxis : mat32.Dims;
  p_haxis : mat32.Dims;
  p_wdir : Z;
  p_hdir : Z;
  p_width : float32;
  p_height : float32;
  p_woff : float32;
  p_hoff : float32;
  p_zoff : float32;
  p_wsegs : Z;
  p_hsegs : Z;
  p_clr : gi_Color;
}.

Definition SetPlane_with (ms : MeshBase) (stVtxIdx stIdxIdx : Z)
    (setNorm setTex setIdx : bool) (p : PlaneArgs) : result MeshBase :=
  SetPlane ms stVtxIdx stIdxIdx setNorm setTex setIdx (p_waxis p)
    (p_haxis p) (p_wdir p) (p_hdir p) (p_width p) (p_height p) (p_woff p)
    (p_hoff p) (p_zoff p) (p_wsegs p) (p_hsegs p) (p_clr p).

Definition AddPlane_with (ms : MeshBase) (p : PlaneArgs) : result MeshBase :=
  AddPlane ms (p_waxis p) (p_haxis p) (p_wdir p) (p_hdir p) (p_width p)
    (p_height p) (p_woff p) (p_hoff p) (p_zoff p) (p_wsegs p) (p_hsegs p)
    (p_clr p).

(** The vertex and index counts of the plane of [p]. *)
Definition p_vtx_size (p : PlaneArgs) : Z :=
  plane_vtx_size (p_wsegs p) (p_hsegs p).
Definition p_idx_size (p : PlaneArgs) : Z :=
  plane_idx_size (p_wsegs p) (p_hsegs p).

(** Everything but the five arrays. *)
Definition same_header (ms ms' : MeshBase) : Prop :=
  Nm ms' = Nm ms /\ Dynamic ms' = Dynamic ms /\ Trans ms' = Trans ms /\
  BBox ms' = BBox ms /\ Buff ms' = Buff ms.

(** Invariant of the vertex loop of [SetPlane] after [k] vertices, from
    the mesh [ms0] at the entry of the loop. *)
Definition vertex_inv (ms0 : MeshBase) (stVtxIdx : Z)
    (setNorm setTex hasColor : bool) (norm : mat32.Vec3)
    (k : Z) (s : PlaneLoop) : Prop :=
  l_vidx s = 3 * (stVtxIdx + k) /\
  l_tidx s = 2 * stVtxIdx + (if setTex then 2 * k else 0) /\
  l_cidx s = 4 * stVtxIdx + (if hasColor then 4 * k else 0) /\
  kept (Z.to_nat (3 * stVtxIdx)) (Vtx ms0) (Vtx (l_ms s)) /\
  kept (Z.to_nat (3 * stVtxIdx)) (Norm ms0) (Norm (l_ms s)) /\
  kept (Z.to_nat (2 * stVtxIdx)) (Tex ms0) (Tex (l_ms s)) /\
  kept (Z.to_nat (4 * stVtxIdx)) (Color ms0) (Color (l_ms s)) /\
  Idx (l_ms s) = Idx ms0 /\
  same_header ms0 (l_ms s) /\
  (hasColor = false -> Color (l_ms s) = Color ms0) /\
  (setNorm = true -> forall j, 0 <= j < k ->
     slice (Norm (l_ms s)) (Z.to_nat (3 * (stVtxIdx + j))) 3
     = Vec3_floats norm).

(** Invariant of the index loop of [SetPlane] at the cell [(ix,iy)], from
    the array [idx0] at the entry of the loop; [P] is a property of every
    value of [idx0] and of every vertex id of the plane. *)
Definition index_inv (idx0 : ArrayU32) (stVtxIdx stIdxIdx wsegs : Z)
    (P : Z -> Prop) (iy ix : Z) (s : ArrayU32 * int) : Prop :=
  snd s = stIdxIdx + 6 * (ix + wsegs * iy) /\
  kept (Z.to_nat stIdxIdx) idx0 (fst s) /\
  Forall P (fst s) /\
  (forall iy' ix', 0 <= ix' < wsegs -> 0 <= iy' ->
     iy' < iy \/ (iy' = iy /\ ix' < ix) ->
     slice (fst s) (Z.to_nat (stIdxIdx + 6 * (ix' + wsegs * iy'))) 6
     = cell_triangles stVtxIdx wsegs ix' iy').

End Vocabulary.

(** The 2 by 2 plane on X and Y at [zoff = 1], one segment each way:
    uncolored, red, and the same with 3 by 2 segments. *)
Definition unit_quad : PlaneArgs :=
  mkPlaneArgs mat32.X mat32.Y 1 1 (F32.of_int 2) (F32.of_int 2)
    (F32.of_int 0) (F32.of_int 0) (F32.of_int 1) 1 1 nil_color.

Definition red_quad : PlaneArgs :=
  mkPlaneArgs mat32.X mat32.Y 1 1 (F32.of_int 2) (F32.of_int 2)
    (F32.of_int 0) (F32.of_int 0) (F32.of_int 1) 1 1 red.

Definition grid_3x2 : PlaneArgs :=
  mkPlaneArgs mat32.X mat32.Z 1 (-1) (F32.of_int 3) (F32.of_int 2)
    (F32.of_int 0) (F32.of_int 0) (F32.of_int 0) 3 2 nil_color.

Definition the_empty : MeshBase := empty_mesh "plane" tt.

(** The mesh of one red plane: one color per vertex. *)
Definition red_mesh : MeshBase :=
  match AddPlane_with the_empty red_quad with
  | Ok ms => ms
  | Panic _ => the_empty
  end.

(** ** The rest of [MeshBase] *)

Section MeshMore.

Context `{Ext : External}.

Local Notation "x <- p ;; k" := (bind p (fun x => k))
  (at level 100, p at next level, right associativity).

(** ** [SetVtxData], [SetNormData], [SetColorData]

    [ms.Buff.VectorsBuffer()] is a method call on an interface value: on
    the nil interface it is a run-time panic (nil pointer dereference),
    here the result [None]. *)
Definition SetVtxData (ms : MeshBase) (sc : Scene) : Prog (option unit) :=
  match Buff ms with
  | None => Ret None
  | Some b =>
      vbuf <- trigger (VectorsBuffer b) ;;
      let vtx := Renders_Vectors sc InVtxPos in
      _ <- trigger (SetVecData vbuf vtx (Vtx ms)) ;;
      Ret (Some tt)
  end.

Definition SetNormData (ms : MeshBase) (sc : Scene) : Prog (option unit) :=
  match Buff ms with
  | None => Ret None
  | Some b =>
      vbuf <- trigger (VectorsBuffer b) ;;
      let nrm := Renders_Vectors sc InVtxNorm in
      _ <- trigger (SetVecData vbuf nrm (Norm ms)) ;;
      Ret (Some tt)
  end.

Definition SetColorData (ms : MeshBase) (sc : Scene) : Prog (option unit) :=
  match Buff ms with
  | None => Ret None
  | Some b =>
      vbuf <- trigger (VectorsBuffer b) ;;
      let clr := Renders_Vectors sc InVtxColor in
      _ <- trigger (SetVecData vbuf clr (Color ms)) ;;
      Ret (Some tt)
  end.

(** ** Runs of a program *)

(** An event of a run, with the answer of the environment. *)
Inductive call : Type :=
| Call (T : Type) (e : Event T) (answer : T).

(** [Q] holds of the calls and of the result of every run of [p]. *)
Fixpoint every_run {R : Type} (p : Prog R) (Q : list call -> R -> Prop)
    : Prop :=
  match p with
  | Ret r => Q [] r
  | Vis e k => forall t, every_run (k t) (fun tr r => Q (Call _ e t :: tr) r)
  end.

(** The buffer managers that the calls of a run create. *)
Fixpoint created (tr : list call) : list gpu_BufferMgr :=
  match tr with
  | [] => []
  | Call _ e t :: tr' =>
      match e in Event T return T -> list gpu_BufferMgr with
      | NewBufferMgr => fun b => [b]
      | _ => fun _ => []
      end t ++ created tr'
  end.

(** The usage hints of the vectors and indexes buffers that a run adds
    ([true] marks the vectors buffer). *)
Fixpoint usages (tr : list call) : list (bool * gpu_Usage) :=
  match tr with
  | [] => []
  | Call _ e _ :: tr' =>
      match e with
      | AddVectorsBuffer _ usg => [(true, usg)]
      | AddIndexesBuffer _ usg => [(false, usg)]
      | _ => []
      end ++ usages tr'
  end.

(** The answers to [NumVectors], the number of [DeleteAllVectors] calls and
    the vectors added, with their interleave flag. *)
Fixpoint num_vectors (tr : list call) : list Z :=
  match tr with
  | [] => []
  | Call _ e t :: tr' =>
      match e in Event T return T -> list Z with
      | NumVectors _ => fun n => [n]
      | _ => fun _ => []
      end t ++ num_vectors tr'
  end.

Fixpoint deletions (tr : list call) : nat :=
  match tr with
  | [] => O
  | Call _ e _ :: tr' =>
      match e with
      | DeleteAllVectors _ => S (deletions tr')
      | _ => deletions tr'
      end
  end.

Fixpoint added (tr : list call) : list (gpu_Vectors * bool) :=
  match tr with
  | [] => []
  | Call _ e _ :: tr' =>
      match e with
      | AddVectors _ v interleave => [(v, interleave)]
      | _ => []
      end ++ added tr'
  end.

(** The lengths and the data that a run sets on the vectors buffer and on
    the indexes buffer. *)
Fixpoint vec_lens (tr : list call) : list Z :=
  match tr with
  | [] => []
  | Call _ e _ :: tr' =>
      match e with
      | VSetLen _ ln => [ln]
      | _ => []
      end ++ vec_lens tr'
  end.

Fixpoint vec_data (tr : list call) : list (gpu_Vectors * ArrayF32) :=
  match tr with
  | [] => []
  | Call _ e _ :: tr' =>
      match e with
      | SetVecData _ v data => [(v, data)]
      | _ => []
      end ++ vec_data tr'
  end.

Fixpoint idx_lens (tr : list call) : list Z :=
  match tr with
  | [] => []
  | Call _ e _ :: tr' =>
      match e with
      | ISetLen _ ln => [ln]
      | _ => []
      end ++ idx_lens tr'
  end.

Fixpoint idx_data (tr : list call) : list ArrayU32 :=
  match tr with
  | [] => []
  | Call _ e _ :: tr' =>
      match e with
      | ISet _ idxs => [idxs]
      | _ => []
      end ++ idx_data tr'
  end.

(** The lines that a run logs. *)
Fixpoint logged (tr : list call) : list string :=
  match tr with
  | [] => []
  | Call _ e _ :: tr' =>
      match e with
      | LogPrintln msg => [msg]
      | _ => []
      end ++ logged tr'
  end.

(** ** [Activate], the transfers and [Render3D] *)

(** Modelled from the spec: the methods [Activate], [TransferAll],
    [TransferVectors] and [TransferIndexes] of [gpu.BufferMgr], [Len] of
    [gpu.IndexesBuffer] and [gpu.Draw.TrianglesIndexed] are not in the
    sources; the graphics context exposes "activate,
    transfer-all/vectors/indices, draw-indexed-triangles(startOffset,
    count)". *)
Inductive DrawEvent : Type -> Type :=
| Buff_Activate (b : gpu_BufferMgr) : DrawEvent unit
| Buff_TransferAll (b : gpu_BufferMgr) : DrawEvent unit
| Buff_TransferVectors (b : gpu_BufferMgr) : DrawEvent unit
| Buff_TransferIndexes (b : gpu_BufferMgr) : DrawEvent unit
| IndexesBuffer_Len (ib : gpu_IndexesBuffer) : DrawEvent int
| Draw_TrianglesIndexed (start count : int) : DrawEvent unit.

(** A program over both kinds of events that can also stop in the
    run-time panic of a method call on the nil interface. *)
Inductive Run (R : Type) : Type :=
| Done (r : R)
| NilPanic
| Build (T : Type) (e : Event T) (k : T -> Run R)
| Draw (T : Type) (e : DrawEvent T) (k : T -> Run R).

Arguments Done {R} r.
Arguments NilPanic {R}.
Arguments Build {R T} e k.
Arguments Draw {R T} e k.

Fixpoint run_bind {R S : Type} (p : Run R) (k : R -> Run S) : Run S :=
  match p with
  | Done r => k r
  | NilPanic => NilPanic
  | Build e h => Build e (fun t => run_bind (h t) k)
  | Draw e h => Draw e (fun t => run_bind (h t) k)
  end.

(** A program of the buffer events, as a part of a run. *)
Fixpoint lift {R : Type} (p : Prog R) : Run R :=
  match p with
  | Ret r => Done r
  | Vis e h => Build e (fun t => lift (h t))
  end.

(** [ms.Buff.m()]: the method [m] of the buffer manager of the mesh. *)
Definition on_Buff {R : Type} (ms : MeshBase)
    (m : gpu_BufferMgr -> Run R) : Run R :=
  match Buff ms with
  | None => NilPanic
  | Some b => m b
  end.

(** [Activate] drops the error of [MakeVectors]. *)
Definition Activate (ms : MeshBase) (sc : Scene) : Run MeshBase :=
  run_bind
    (match Buff ms with
     | None => run_bind (lift (MakeVectors ms sc)) (fun r => Done (snd r))
     | Some _ => Done ms
     end)
    (fun ms =>
       on_Buff ms (fun b => Draw (Buff_Activate b) (fun _ => Done ms))).

Definition TransferAll (ms : MeshBase) : Run unit :=
  on_Buff ms (fun b => Draw (Buff_TransferAll b) Done).

Definition TransferVectors (ms : MeshBase) : Run unit :=
  on_Buff ms (fun b => Draw (Buff_TransferVectors b) Done).

Definition TransferIndexes (ms : MeshBase) : Run unit :=
  on_Buff ms (fun b => Draw (Buff_TransferIndexes b) Done).

Definition Render3D (ms : MeshBase) (sc : Scene) : Run MeshBase :=
  run_bind (Activate ms sc) (fun ms =>
    on_Buff ms (fun b =>
      Build (IndexesBuffer b) (fun ibuf =>
        Draw (IndexesBuffer_Len ibuf) (fun n =>
          Draw (Draw_TrianglesIndexed 0 n) (fun _ => Done ms))))).

(** A step of a run: a buffer call or a drawing call, with its answer. *)
Inductive step : Type :=
| Built (c : call)
| Drew (T : Type) (e : DrawEvent T) (answer : T).

(** [Q] holds of the steps and of the outcome of every run of [p]; the
    outcome [None] is the panic. *)
Fixpoint every_outcome {R : Type} (p : Run R)
    (Q : list step -> option R -> Prop) : Prop :=
  match p with
  | Done r => Q [] (Some r)
  | NilPanic => Q [] None
  | Build e k =>
      forall t, every_outcome (k t) (fun tr r => Q (Built (Call _ e t) :: tr) r)
  | Draw e k =>
      forall t, every_outcome (k t) (fun tr r => Q (Drew _ e t :: tr) r)
  end.

(** The buffer calls of a run. *)
Fixpoint built (tr : list step) : list call :=
  match tr with
  | [] => []
  | Built c :: tr' => c :: built tr'
  | Drew _ _ _ :: tr' => built tr'
  end.

(** The drawing calls of a run: what was drawn, and what else. *)
Fixpoint drawn (tr : list step) : list (int * int) :=
  match tr with
  | [] => []
  | Drew _ (Draw_TrianglesIndexed start count) _ :: tr' =>
      (start, count) :: drawn tr'
  | _ :: tr' => drawn tr'
  end.

Fixpoint activated (tr : list step) : list gpu_BufferMgr :=
  match tr with
  | [] => []
  | Drew _ (Buff_Activate b) _ :: tr' => b :: activated tr'
  | _ :: tr' => activated tr'
  end.

(** The answers of the indexes buffer to [Len]. *)
Fixpoint lengths_read (tr : list step) : list int :=
  match tr with
  | [] => []
  | Drew _ e t :: tr' =>
      match e in DrawEvent T return T -> list int with
      | IndexesBuffer_Len _ => fun n => [n]
      | _ => fun _ => []
      end t ++ lengths_read tr'
  | _ :: tr' => lengths_read tr'
  end.

(** ** The vertexes of a plane, in closed form *)

Definition Vec2_floats (v : mat32.Vec2) : list float32 :=
  [mat32.v2X v; mat32.v2Y v].

Definition Vec4_floats (v : mat32.Vec4) : list float32 :=
  [mat32.v4X v; mat32.v4Y v; mat32.v4Z v; mat32.v4W v].

(** The values [f ix iy] of a grid with [n] columns, row after row: the
    first [iy] rows and the first [ix] values of the next row, and the
    whole grid of [m] rows. *)
Definition grid_part {A : Type} (n iy ix : Z) (f : Z -> Z -> list A)
    : list A :=
  flat_map (fun y => flat_map (fun x => f x y) (seqZ 0 n)) (seqZ 0 iy)
  ++ flat_map (fun x => f x iy) (seqZ 0 ix).

Definition grid {A : Type} (n m : Z) (f : Z -> Z -> list A) : list A :=
  flat_map (fun y => flat_map (fun x => f x y) (seqZ 0 n)) (seqZ 0 m).

(** The position that the vertex loop of [SetPlane] computes for the
    vertex [(ix,iy)], from the zero vector, and its texture coordinates. *)
Definition vertex_at (waxis haxis w : mat32.Dims)
    (fwdir fhdir segWidth segHeight woff hoff zoff : float32)
    (ix iy : Z) : mat32.Vec3 :=
  mat32.Vec3_SetDim
    (mat32.Vec3_SetDim
       (mat32.Vec3_SetDim mat32.Vec3_zero waxis
          (F32.add (F32.mul (F32.mul (F32.of_int ix) segWidth) fwdir) woff))
       haxis
       (F32.add (F32.mul (F32.mul (F32.of_int iy) segHeight) fhdir) hoff))
    w zoff.

Definition uv_at (wsegs hsegs : Z) (ix iy : Z) : mat32.Vec2 :=
  mat32.Vec2_Set
    (F32.div (F32.of_int ix) (F32.of_int wsegs))
    (F32.sub (F32.of_int 1) (F32.div (F32.of_int iy) (F32.of_int hsegs))).

(** The same for the plane of [p]: segments of [width/wsegs] by
    [height/hsegs] on the clamped counts, from [width + woff] backwards
    when [wdir] is negative, and likewise for the height. *)
Definition plane_point (p : PlaneArgs) (ix iy : Z) : mat32.Vec3 :=
  vertex_at (p_waxis p) (p_haxis p) (plane_w (p_waxis p) (p_haxis p))
    (F32.of_int (p_wdir p)) (F32.of_int (p_hdir p))
    (F32.div (p_width p) (F32.of_int (Z.max (p_wsegs p) 1)))
    (F32.div (p_height p) (F32.of_int (Z.max (p_hsegs p) 1)))
    (if p_wdir p <? 0 then F32.add (p_width p) (p_woff p) else p_woff p)
    (if p_hdir p <? 0 then F32.add (p_height p) (p_hoff p) else p_hoff p)
    (p_zoff p) ix iy.

Definition plane_uv (p : PlaneArgs) (ix iy : Z) : mat32.Vec2 :=
  uv_at (Z.max (p_wsegs p) 1) (Z.max (p_hsegs p) 1) ix iy.

(** The four blocks of vertex data of the plane of [p] and its block of
    indexes, for vertexes numbered from [stVtxIdx]. *)
Definition plane_Vtx (p : PlaneArgs) : ArrayF32 :=
  grid (Z.max (p_wsegs p) 1 + 1) (Z.max (p_hsegs p) 1 + 1)
    (fun ix iy => Vec3_floats (plane_point p ix iy)).

Definition plane_Norm (p : PlaneArgs) : ArrayF32 :=
  grid (Z.max (p_wsegs p) 1 + 1) (Z.max (p_hsegs p) 1 + 1)
    (fun _ _ =>
       Vec3_floats
         (plane_norm (plane_w (p_waxis p) (p_haxis p)) (p_zoff p))).

Definition plane_Tex (p : PlaneArgs) : ArrayF32 :=
  grid (Z.max (p_wsegs p) 1 + 1) (Z.max (p_hsegs p) 1 + 1)
    (fun ix iy => Vec2_floats (plane_uv p ix iy)).

Definition plane_Color (p : PlaneArgs) : ArrayF32 :=
  grid (Z.max (p_wsegs p) 1 + 1) (Z.max (p_hsegs p) 1 + 1)
    (fun _ _ => Vec4_floats (ColorToVec4f (p_clr p))).

Definition plane_Idx (p : PlaneArgs) (stVtxIdx : Z) : ArrayU32 :=
  grid (Z.max (p_wsegs p) 1) (Z.max (p_hsegs p) 1)
    (cell_triangles stVtxIdx (Z.max (p_wsegs p) 1)).

(** The vertex arrays hold whole vectors, as many in each, with no color
    or one color for each vertex. *)
Definition well_formed (ms : MeshBase) : Prop :=
  len (Vtx ms) = 3 * vtx_count ms /\
  len (Norm ms) = 3 * vtx_count ms /\
  len (Tex ms) = 2 * vtx_count ms /\
  (len (Color ms) = 0 \/ len (Color ms) = 4 * vtx_count ms).

(** What [SetPlane] returns, in closed form: the vertex arrays grown by
    the vectors that [Vtx] lacks, with the blocks of the plane in place
    from the vector [stVtxIdx] on, and the indexes grown to hold the block
    of the plane from [stIdxIdx] on. *)
Definition SetPlane_closed (ms : MeshBase) (stVtxIdx stIdxIdx : Z)
    (setNorm setTex setIdx : bool) (p : PlaneArgs) : MeshBase :=
  let dif := Z.max 0 (stVtxIdx + p_vtx_size p - vtx_count ms) in
  let grow (a : ArrayF32) (c : Z) :=
    a ++ replicate (Z.to_nat (dif * c)) F32.zero in
  mkMeshBase (Nm ms) (Dynamic ms) (Trans ms)
    (splice (grow (Vtx ms) 3) (Z.to_nat (3 * stVtxIdx)) (plane_Vtx p))
    (if setNorm
     then splice (grow (Norm ms) 3) (Z.to_nat (3 * stVtxIdx)) (plane_Norm p)
     else grow (Norm ms) 3)
    (if setTex
     then splice (grow (Tex ms) 2) (Z.to_nat (2 * stVtxIdx)) (plane_Tex p)
     else grow (Tex ms) 2)
    (if setIdx
     then splice
            (Idx ms ++ replicate
               (Z.to_nat (stIdxIdx + p_idx_size p - len (Idx ms))) 0)
            (Z.to_nat stIdxIdx) (plane_Idx p stVtxIdx)
     else Idx ms)
    (if IsNil (p_clr p) then Color ms
     else splice (grow (Color ms) 4) (Z.to_nat (4 * stVtxIdx))
            (plane_Color p))
    (BBox ms) (Buff ms).

(** [AddPlane] in closed form: every block of the plane appended. *)
Definition AddPlane_closed (ms : MeshBase) (p : PlaneArgs) : MeshBase :=
  mkMeshBase (Nm ms) (Dynamic ms) (Trans ms)
    (Vtx ms ++ plane_Vtx p) (Norm ms ++ plane_Norm p)
    (Tex ms ++ plane_Tex p) (Idx ms ++ plane_Idx p (vtx_count ms))
    (if IsNil (p_clr p) then Color ms else Color ms ++ plane_Color p)
    (BBox ms) (Buff ms).

(** The component of a vector along an axis. *)
Definition component (v : mat32.Vec3) (dim : mat32.Dims) : float32 :=
  match dim with
  | mat32.X => mat32.v3X v
  | mat32.Y => mat32.v3Y v
  | mat32.Z => mat32.v3Z v
  end.

(** The coordinate of the [i]-th vertex along an axis of the plane:
    [i * (size / segs) * dir + off], from [size + off] when [dir] is
    negative, each operation rounded to [float32]. *)
Definition axis_coord (dir : Z) (size off : float32) (segs i : Z)
    : float32 :=
  F32.add
    (F32.mul (F32.mul (F32.of_int i) (F32.div size (F32.of_int (Z.max segs 1))))
       (F32.of_int dir))
    (if dir <? 0 then F32.add size off else off).

(** [a'] is [a] but for the [n] values from position [p] on. *)
Definition same_outside {A : Type} (p n : nat) (a a' : list A) : Prop :=
  length a' = length a /\ take p a' = take p a /\
  drop (p + n) a' = drop (p + n) a.

(** A call of [SetPlane] within bounds: start indexes that are not
    negative, sizes far from the largest [int], and arrays that hold at
    least as many vectors as [Vtx] does. *)
Definition plane_call (ms : MeshBase) (stVtxIdx stIdxIdx : Z)
    (p : PlaneArgs) : Prop :=
  0 <= stVtxIdx <= 2 ^ 56 /\ 0 <= stIdxIdx <= 2 ^ 59 /\
  plane_fits (p_wsegs p) (p_hsegs p) /\
  moderate ms /\ aligned ms (negb (IsNil (p_clr p))).

(** The number of the vertex [(ix,iy)] of a plane whose vertexes are
    numbered from [stVtxIdx]. *)
Definition vertex_id (p : PlaneArgs) (stVtxIdx ix iy : Z) : Z :=
  stVtxIdx + (ix + (Z.max (p_wsegs p) 1 + 1) * iy).

(** The color of a plane goes with the mesh: no color for a mesh without
    colors, a color for a mesh with one color for each vertex (as the mesh
    without vertexes has). *)
Definition color_fits (ms : MeshBase) (clr : gi_Color) : Prop :=
  len (Color ms) = (if IsNil clr then 0 else 4 * vtx_count ms).

(** The state of the vertex loop of [SetPlane] at the vertex [(ix,iy)] of
    a grid with [n] columns, from the mesh [ms1] at the entry of the loop:
    each array that the loop writes is the array of [ms1] with the values
    of the vertexes done so far in place, and the vector [vtx] is as good
    as the zero vector for the three assignments of the next iteration. *)
Definition vertex_exact (ms1 : MeshBase) (stVtxIdx : Z)
    (setNorm setTex hasColor : bool) (waxis haxis w : mat32.Dims)
    (norm : mat32.Vec3) (clrv : mat32.Vec4)
    (pos : Z -> Z -> mat32.Vec3) (uv : Z -> Z -> mat32.Vec2)
    (n iy ix : Z) (s : PlaneLoop) : Prop :=
  let k := ix + n * iy in
  l_vidx s = 3 * (stVtxIdx + k) /\
  l_tidx s = 2 * stVtxIdx + (if setTex then 2 * k else 0) /\
  l_cidx s = 4 * stVtxIdx + (if hasColor then 4 * k else 0) /\
  Vtx (l_ms s)
  = splice (Vtx ms1) (Z.to_nat (3 * stVtxIdx))
      (grid_part n iy ix (fun x y => Vec3_floats (pos x y))) /\
  Norm (l_ms s)
  = (if setNorm
     then splice (Norm ms1) (Z.to_nat (3 * stVtxIdx))
            (grid_part n iy ix (fun _ _ => Vec3_floats norm))
     else Norm ms1) /\
  Tex (l_ms s)
  = (if setTex
     then splice (Tex ms1) (Z.to_nat (2 * stVtxIdx))
            (grid_part n iy ix (fun x y => Vec2_floats (uv x y)))
     else Tex ms1) /\
  Color (l_ms s)
  = (if hasColor
     then splice (Color ms1) (Z.to_nat (4 * stVtxIdx))
            (grid_part n iy ix (fun _ _ => Vec4_floats clrv))
     else Color ms1) /\
  Idx (l_ms s) = Idx ms1 /\
  same_header ms1 (l_ms s) /\
  (forall a b c,
     mat32.Vec3_SetDim
       (mat32.Vec3_SetDim (mat32.Vec3_SetDim (l_vtx s) waxis a) haxis b) w c
     = mat32.Vec3_SetDim
         (mat32.Vec3_SetDim (mat32.Vec3_SetDim mat32.Vec3_zero waxis a)
            haxis b) w c).

(** The state of the index loop at the cell [(ix,iy)], from the array
    [idx0] at the entry of the loop. *)
Definition index_exact (idx0 : ArrayU32) (stVtxIdx stIdxIdx wsegs : Z)
    (iy ix : Z) (s : ArrayU32 * int) : Prop :=
  snd s = stIdxIdx + 6 * (ix + wsegs * iy) /\
  fst s
  = splice idx0 (Z.to_nat stIdxIdx)
      (grid_part wsegs iy ix (cell_triangles stVtxIdx wsegs)).

(** Every index of the mesh names one of its vertexes. *)
Definition index_bound (ms : MeshBase) : Prop :=
  Forall (fun v => 0 <= v < vtx_count ms) (Idx ms).

End MeshMore.

Arguments Call {Ext T} e answer.
Arguments Done {Ext R} r.
Arguments NilPanic {Ext R}.
Arguments Build {Ext R T} e k.
Arguments Draw {Ext R T} e k.
Arguments Drew {Ext T} e answer.

(** The mesh of one uncolored plane, and planes of other sizes on the
    same segments. *)
Definition plain_mesh : MeshBase :=
  match AddPlane_with the_empty unit_quad with
  | Ok ms => ms
  | Panic _ => the_empty
  end.

Definition tall_quad : PlaneArgs :=
  mkPlaneArgs mat32.X mat32.Y 1 1 (F32.of_int 2) (F32.of_int 6)
    (F32.of_int 0) (F32.of_int 0) (F32.of_int 1) 1 1 nil_color.

Definition wide_red_quad : PlaneArgs :=
  mkPlaneArgs mat32.X mat32.Y (-1) 1 (F32.of_int 4) (F32.of_int 2)
    (F32.of_int 0) (F32.of_int 0) (F32.of_int 1) 1 1 red.

(** A strip of 2^31 segments by one: it has more than 2^32 vertexes. *)
Definition wide_strip : PlaneArgs :=
  mkPlaneArgs mat32.X mat32.Y 1 1 (F32.of_int 2) (F32.of_int 2)
    (F32.of_int 0) (F32.of_int 0) (F32.of_int 1) 2147483648 1 nil_color.

(** One triangle whose [Color] holds three floats: no whole color. *)
Definition ragged_mesh : MeshBase :=
  mkMeshBase "tri" false false
    (replicate 9 F32.zero) (replicate 9 F32.zero) (replicate 6 F32.zero)
    [0; 1; 2] (replicate 3 F32.zero) tt None.

(** * Facts *)

(** ** Integers *)

Lemma wrap_small (z : Z) :
  -9223372036854775808 <= z <= 9223372036854775807 -> Int.wrap z = z.
Proof.
  intros Hz. unfold Int.wrap.
  change (2 ^ 63) with 9223372036854775808.
  change (2 ^ 64) with 18446744073709551616.
  rewrite Z.mod_small by lia. lia.
Qed.

Lemma wrap_wrap_mul (a b : Z) :
  Int.wrap (Int.wrap a * Int.wrap b) = Int.wrap (a * b).
Proof.
  unfold Int.wrap.
  change (2 ^ 63) with 9223372036854775808.
  change (2 ^ 64) with 18446744073709551616.
  set (M := 18446744073709551616). set (H := 9223372036854775808).
  f_equal.
  replace (((a + H) mod M - H) * ((b + H) mod M - H) + H)
    with (((a + H) mod M - H) * ((b + H) mod M - H) + H) by reflexivity.
  rewrite <- (Zplus_mod_idemp_l (_ * _)), <- Z.mul_mod_idemp_l,
    <- Z.mul_mod_idemp_r by (subst M; lia).
  rewrite <- (Zminus_mod_idemp_l ((a + H) mod M)),
          <- (Zminus_mod_idemp_l ((b + H) mod M)).
  rewrite !Z.mod_mod by (subst M; lia).
  rewrite (Zminus_mod_idemp_l (a + H)), (Zminus_mod_idemp_l (b + H)).
  rewrite Z.mul_mod_idemp_l, Z.mul_mod_idemp_r by (subst M; lia).
  rewrite Zplus_mod_idemp_l.
  f_equal. ring.
Qed.

Lemma wrap_range (z : Z) : Int.in_range (Int.wrap z).
Proof.
  unfold Int.in_range, Int.wrap, Int.min_int, Int.max_int.
  change (2 ^ 63) with 9223372036854775808.
  change (2 ^ 64) with 18446744073709551616.
  pose proof (Z.mod_pos_bound (z + 9223372036854775808) 18446744073709551616).
  lia.
Qed.

Lemma uint32_le (z : Z) : 0 <= z -> 0 <= uint32 z <= z.
Proof.
  intros Hz. unfold uint32. split.
  - apply Z.mod_pos_bound. lia.
  - apply Z.mod_le; lia.
Qed.

Lemma uint32_small (z : Z) : 0 <= z < 4294967296 -> uint32 z = z.
Proof. intros Hz. unfold uint32. apply Z.mod_small. change (2 ^ 32) with 4294967296. lia. Qed.

(** Rewrites the integer operations whose results are in range. *)
Ltac int_simpl :=
  unfold Int.add, Int.sub, Int.mul, Int.quo, MaxInt in *;
  repeat match goal with
         | |- context [Int.wrap ?z] => rewrite (wrap_small z) by lia
         end.

(** ** Slices *)

Lemma len_nonneg {A : Type} (a : list A) : 0 <= len a.
Proof. unfold len. lia. Qed.

Lemma len_app {A : Type} (a b : list A) : len (a ++ b) = len a + len b.
Proof. unfold len. rewrite length_app. lia. Qed.

Lemma len_replicate {A : Type} (n : Z) (x : A) :
  0 <= n -> len (replicate (Z.to_nat n) x) = n.
Proof. intros Hn. unfold len. rewrite length_replicate. lia. Qed.

Lemma arr_set_ok {A : Type} (a : list A) (i : Z) (v : A) :
  0 <= i < len a -> arr_set a i v = Ok (<[Z.to_nat i := v]> a).
Proof.
  intros Hi. unfold arr_set.
  destruct (Z.leb_spec 0 i), (Z.ltb_spec i (len a)); simpl; try lia.
  reflexivity.
Qed.

Lemma splice_length {A : Type} (a : list A) (pos : nat) (v : list A) :
  (pos + length v <= length a)%nat -> length (splice a pos v) = length a.
Proof.
  intros H. unfold splice.
  rewrite !length_app, length_take, length_drop. lia.
Qed.

Lemma splice_take {A : Type} (a : list A) (pos n : nat) (v : list A) :
  (n <= pos)%nat -> (pos <= length a)%nat ->
  take n (splice a pos v) = take n a.
Proof.
  intros Hn Hp. unfold splice.
  rewrite take_app_le by (rewrite length_take; lia).
  rewrite take_take. f_equal. lia.
Qed.

Lemma splice_lookup_lt {A : Type} (a : list A) (pos i : nat) (v : list A) :
  (i < pos)%nat -> (pos <= length a)%nat -> splice a pos v !! i = a !! i.
Proof.
  intros Hi Hp. unfold splice.
  rewrite lookup_app_l by (rewrite length_take; lia).
  apply lookup_take_lt. lia.
Qed.

Lemma splice_Forall {A : Type} (P : A -> Prop) (a : list A) (pos : nat)
    (v : list A) :
  Forall P a -> Forall P v -> Forall P (splice a pos v).
Proof.
  intros Ha Hv. unfold splice.
  apply Forall_app; split; [by apply Forall_take |].
  apply Forall_app; split; [done | by apply Forall_drop].
Qed.

Lemma arr_write_ok {A : Type} (v a : list A) (pos : Z) :
  0 <= pos -> pos + len v <= len a -> len a <= 9223372036854775807 ->
  arr_write a pos v = Ok (splice a (Z.to_nat pos) v).
Proof.
  revert a pos. induction v as [| x v IH]; intros a pos Hp Hl Hm; simpl.
  - unfold splice. simpl. by rewrite Nat.add_0_r, take_drop.
  - unfold len in *. simpl length in Hl.
    rewrite arr_set_ok by (unfold len; lia). simpl.
    int_simpl.
    rewrite IH by (rewrite ?length_insert; lia).
    f_equal. unfold splice.
    replace (Z.to_nat (pos + 1)) with (S (Z.to_nat pos)) by lia.
    rewrite (take_S_r _ _ x) by (apply list_lookup_insert_eq; lia).
    rewrite take_insert_ge by lia.
    rewrite drop_insert_lt by lia.
    rewrite <- app_assoc. simpl.
    by rewrite Nat.add_succ_r.
Qed.

Lemma Extend_ok {A : Type} (zero : A) (a : list A) (inc : Z) :
  0 <= inc -> len a + inc <= 9223372036854775807 ->
  Extend zero a inc = Ok (a ++ replicate (Z.to_nat inc) zero).
Proof.
  intros Hi Hl. unfold Extend, Int.max_int.
  change (2 ^ 63 - 1) with 9223372036854775807.
  destruct (Z.ltb_spec inc 0), (Z.ltb_spec 9223372036854775807 (len a + inc));
    simpl; try lia.
  reflexivity.
Qed.

(** ** Loops *)

(** Total correctness of a counting loop from an invariant. *)
Lemma for_from_inv {S : Type} (I : Z -> S -> Prop)
    (body : Z -> S -> result S) (count : nat) :
  forall (i : Z) (s : S),
    I i s ->
    (forall j s, i <= j < i + Z.of_nat count -> I j s ->
       exists s', body j s = Ok s' /\ I (j + 1) s') ->
    exists s', for_from i count body s = Ok s' /\ I (i + Z.of_nat count) s'.
Proof.
  induction count as [| c IH]; intros i s Hi Hstep; simpl for_from.
  - exists s. split; [done |]. by replace (i + Z.of_nat 0) with i by lia.
  - destruct (Hstep i s) as (s1 & Hb & H1); [lia | done |].
    rewrite Hb. simpl.
    destruct (IH (i + 1) s1) as (s2 & Hf & H2); [done | |].
    + intros j s' Hj HI. apply Hstep; [lia | done].
    + exists s2. split; [done |].
      by replace (i + Z.of_nat (Datatypes.S c)) with (i + 1 + Z.of_nat c) by lia.
Qed.

Lemma for_int_inv {S : Type} (I : Z -> S -> Prop)
    (body : Z -> S -> result S) (n : Z) (s : S) :
  0 <= n ->
  I 0 s ->
  (forall j s, 0 <= j < n -> I j s ->
     exists s', body j s = Ok s' /\ I (j + 1) s') ->
  exists s', for_int n body s = Ok s' /\ I n s'.
Proof.
  intros Hn H0 Hstep. unfold for_int.
  destruct (for_from_inv I body (Z.to_nat n) 0 s) as (s' & Hf & HI);
    [done | |].
  - intros j s0 Hj. apply Hstep. lia.
  - exists s'. split; [done |]. by replace n with (0 + Z.of_nat (Z.to_nat n)) at 1 by lia.
Qed.

(** What every successful iteration preserves, the loop preserves. *)
Lemma for_from_preserves {S : Type} (Q : S -> Prop)
    (body : Z -> S -> result S) (count : nat) :
  (forall j s s', body j s = Ok s' -> Q s -> Q s') ->
  forall (i : Z) (s s' : S),
    for_from i count body s = Ok s' -> Q s -> Q s'.
Proof.
  intros Hstep. induction count as [| c IH]; intros i s s' Hf HQ;
    simpl for_from in Hf.
  - by inversion Hf; subst.
  - destruct (body i s) as [s1 |] eqn:Hb; simpl in Hf; [| discriminate].
    eapply IH; [exact Hf |]. eapply Hstep; eauto.
Qed.

Lemma for_int_preserves {S : Type} (Q : S -> Prop)
    (body : Z -> S -> result S) (n : Z) (s s' : S) :
  (forall j s s', body j s = Ok s' -> Q s -> Q s') ->
  for_int n body s = Ok s' -> Q s -> Q s'.
Proof. intros Hstep. unfold for_int. by apply for_from_preserves. Qed.

(** ** Slices of spliced arrays *)

Lemma slice_splice_same {A : Type} (a : list A) (pos : nat) (v : list A) :
  (pos <= length a)%nat -> slice (splice a pos v) pos (length v) = v.
Proof.
  intros Hp. unfold slice, splice.
  rewrite drop_app_length' by (rewrite length_take; lia).
  apply take_app_length.
Qed.

Lemma slice_splice_lt {A : Type} (a : list A) (pos p n : nat) (v : list A) :
  (p + n <= pos)%nat -> (pos <= length a)%nat ->
  slice (splice a pos v) p n = slice a p n.
Proof.
  intros Hp Hl. unfold slice. apply list_eq. intros i.
  destruct (Nat.lt_ge_cases i n) as [Hi | Hi].
  - rewrite !lookup_take_lt, !lookup_drop by done.
    apply splice_lookup_lt; lia.
  - by rewrite !lookup_take_ge.
Qed.

Lemma kept_refl {A : Type} (n : nat) (a : list A) : kept n a a.
Proof. by split. Qed.

Lemma kept_splice {A : Type} (n pos : nat) (a a' v : list A) :
  kept n a a' -> (n <= pos)%nat -> (pos + length v <= length a)%nat ->
  kept n a (splice a' pos v).
Proof.
  intros [Hl Ht] Hn Hp. split.
  - rewrite splice_length; lia.
  - rewrite splice_take; [done | done | lia].
Qed.

Lemma kept_len {A : Type} (n : nat) (a a' : list A) :
  kept n a a' -> len a' = len a.
Proof. intros [Hl _]. unfold len. by rewrite Hl. Qed.

(** An array that starts at or after the end of [a] keeps all of [a]. *)
Lemma kept_prefix {A : Type} (n : nat) (a b a' : list A) :
  kept n (a ++ b) a' -> (length a <= n)%nat -> a `prefix_of` a'.
Proof.
  intros [Hl Ht] Hn.
  exists (drop (length a) a').
  rewrite <- (take_drop (length a) a') at 1. f_equal.
  replace (length a) with (Nat.min (length a) n) at 1 by lia.
  rewrite <- take_take, Ht, take_take.
  replace (Nat.min (length a) n) with (length a) by lia.
  by rewrite take_app_length.
Qed.

(** ** The index loop of [SetPlane] *)

(** Row-major order: an earlier cell has a smaller flat position. *)
Lemma row_major_lt (w ix iy ix' iy' : Z) :
  0 <= ix' < w -> 0 <= ix ->
  iy' < iy \/ (iy' = iy /\ ix' < ix) ->
  ix' + w * iy' < ix + w * iy.
Proof.
  intros Hix' Hix [Hlt | [-> Hlt]]; [| lia].
  assert (w * (iy' + 1) <= w * iy) by (apply Z.mul_le_mono_nonneg_l; lia).
  lia.
Qed.

Lemma row_major_inside (w h ix iy : Z) :
  0 <= ix < w -> 0 <= iy < h -> 0 <= w * iy /\ w * iy + w <= w * h.
Proof.
  intros Hix Hiy. split; [apply Z.mul_nonneg_nonneg; lia |].
  assert (w * (iy + 1) <= w * h) by (apply Z.mul_le_mono_nonneg_l; lia).
  lia.
Qed.

Section IndexLoop.

Variables (idx0 : ArrayU32) (stVtxIdx stIdxIdx wsegs hsegs : Z).
Variable P : Z -> Prop.

Hypothesis HstV : 0 <= stVtxIdx.
Hypothesis HstI : 0 <= stIdxIdx.
Hypothesis Hw : 1 <= wsegs.
Hypothesis Hh : 1 <= hsegs.
Hypothesis HP :
  forall z, 0 <= z < stVtxIdx + (wsegs + 1) * (hsegs + 1) -> P (uint32 z).
Hypothesis Hbig :
  stVtxIdx + (wsegs + 1) * (hsegs + 1) <= 2305843009213693952.
Hypothesis Hlen : stIdxIdx + 6 * (wsegs * hsegs) <= len idx0.
Hypothesis Hmax : len idx0 <= 9223372036854775807.

Lemma plane_cell_step (iy ix : Z) (s : ArrayU32 * int) :
  0 <= ix < wsegs -> 0 <= iy < hsegs ->
  index_inv idx0 stVtxIdx stIdxIdx wsegs P iy ix s ->
  exists s', plane_cell stVtxIdx (Int.add wsegs 1) iy ix s = Ok s' /\
             index_inv idx0 stVtxIdx stIdxIdx wsegs P iy (ix + 1) s'.
Proof.
  intros Hix Hiy. destruct s as [idx sidx].
  intros (Hs & Hk & Hall & Hcells). simpl in Hs, Hk, Hall, Hcells. subst sidx.
  destruct (row_major_inside wsegs hsegs ix iy Hix Hiy) as [H0 Hwh].
  assert (Hexp : (wsegs + 1) * (hsegs + 1)
                 = wsegs * hsegs + wsegs + hsegs + 1) by ring.
  assert (Ha : (wsegs + 1) * iy = wsegs * iy + iy) by ring.
  assert (Hb : (wsegs + 1) * (iy + 1) = wsegs * iy + wsegs + iy + 1) by ring.
  pose proof (kept_len _ _ _ Hk) as Hlk.
  unfold plane_cell, mat32.ArrayU32_Set.
  unfold Int.add, Int.mul.
  rewrite (wrap_small (wsegs + 1)) by lia.
  rewrite (wrap_small (iy + 1)) by lia.
  rewrite (wrap_small (ix + 1)) by lia.
  rewrite (wrap_small ((wsegs + 1) * iy)) by lia.
  rewrite (wrap_small ((wsegs + 1) * (iy + 1))) by lia.
  rewrite (wrap_small (ix + (wsegs + 1) * iy)) by lia.
  rewrite (wrap_small (ix + (wsegs + 1) * (iy + 1))) by lia.
  rewrite (wrap_small (ix + 1 + (wsegs + 1) * iy)) by lia.
  rewrite (wrap_small (ix + 1 + (wsegs + 1) * (iy + 1))) by lia.
  rewrite !(wrap_small (_ + stVtxIdx)) by lia.
  rewrite (wrap_small (stIdxIdx + 6 * (ix + wsegs * iy) + 6)) by lia.
  fold (cell_triangles stVtxIdx wsegs ix iy).
  rewrite arr_write_ok by (unfold len in *; simpl length; lia).
  simpl. eexists. split; [reflexivity |].
  assert (Hpos : (Z.to_nat (stIdxIdx + 6 * (ix + wsegs * iy)) + 6
                  <= length idx)%nat) by (unfold len in *; lia).
  split; [simpl; lia |]. split; [| split]; simpl.
  - apply kept_splice; [done | lia |]. destruct Hk as [Hk _]. simpl. lia.
  - apply splice_Forall; [done |].
    unfold cell_triangles.
    repeat (apply Forall_cons; split);
      [ .. | apply Forall_nil_2 ];
      apply HP; lia.
  - intros iy' ix' Hix' Hiy' Hlex.
    destruct (decide (iy' = iy /\ ix' = ix)) as [[-> ->] | Hne].
    + change 6%nat with (length (cell_triangles stVtxIdx wsegs ix iy)).
      apply slice_splice_same. lia.
    + assert (ix' + wsegs * iy' < ix + wsegs * iy)
        by (apply row_major_lt; lia).
      rewrite slice_splice_lt by lia.
      apply Hcells; [done | done | lia].
Qed.

Lemma plane_cells_ok :
  Forall P idx0 ->
  exists idx',
    for_int hsegs (fun iy s =>
      for_int wsegs (fun ix s =>
        plane_cell stVtxIdx (Int.add wsegs 1) iy ix s) s) (idx0, stIdxIdx)
    = Ok (idx', stIdxIdx + 6 * (wsegs * hsegs)) /\
    index_inv idx0 stVtxIdx stIdxIdx wsegs P hsegs 0
      (idx', stIdxIdx + 6 * (wsegs * hsegs)).
Proof.
  intros Hall.
  destruct (for_int_inv
    (fun iy s => index_inv idx0 stVtxIdx stIdxIdx wsegs P iy 0 s)
    (fun iy s => for_int wsegs (fun ix s =>
       plane_cell stVtxIdx (Int.add wsegs 1) iy ix s) s)
    hsegs (idx0, stIdxIdx)) as ([idx' sidx'] & Hrun & Hinv).
  - lia.
  - split; [simpl; lia |]. split; [apply kept_refl |]. split; [done |].
    intros iy' ix' ? ? ?. lia.
  - intros iy s Hiy Hinv.
    destruct (for_int_inv
      (fun ix s => index_inv idx0 stVtxIdx stIdxIdx wsegs P iy ix s)
      (fun ix s => plane_cell stVtxIdx (Int.add wsegs 1) iy ix s)
      wsegs s) as (s' & Hrun & (Hs & Hk & Hall' & Hcells)).
    + lia.
    + done.
    + intros ix s0 Hix. by apply plane_cell_step.
    + exists s'. split; [done |].
      split; [lia |]. split; [done |]. split; [done |].
      intros iy' ix' Hix' Hiy' Hlex. apply Hcells; [done | done | lia].
  - pose proof Hinv as (Hs & _). simpl in Hs.
    replace sidx' with (stIdxIdx + 6 * (wsegs * hsegs)) in * by lia.
    by exists idx'.
Qed.

End IndexLoop.

(** ** The vertex loop of [SetPlane] *)

Section VertexLoop.

Context `{Ext : External}.

Variables (ms0 : MeshBase) (stVtxIdx count : Z).
Variables (setNorm setTex hasColor : bool).
Variables (waxis haxis w : mat32.Dims).
Variables (fwdir fhdir segWidth segHeight woff hoff zoff : float32).
Variables (wsegs hsegs : Z).
Variables (norm : mat32.Vec3) (clrv : mat32.Vec4).

Hypothesis HstV : 0 <= stVtxIdx.
Hypothesis HVtx : 3 * (stVtxIdx + count) <= len (Vtx ms0).
Hypothesis HNorm : setNorm = true -> 3 * (stVtxIdx + count) <= len (Norm ms0).
Hypothesis HTex : setTex = true -> 2 * (stVtxIdx + count) <= len (Tex ms0).
Hypothesis HColor :
  hasColor = true -> 4 * (stVtxIdx + count) <= len (Color ms0).
Hypothesis HmaxV : len (Vtx ms0) <= 4611686018427387904.
Hypothesis HmaxN : len (Norm ms0) <= 4611686018427387904.
Hypothesis HmaxT : len (Tex ms0) <= 4611686018427387904.
Hypothesis HmaxC : len (Color ms0) <= 4611686018427387904.

Lemma plane_vertex_step (iy ix k : Z) (s : PlaneLoop) :
  0 <= k < count ->
  vertex_inv ms0 stVtxIdx setNorm setTex hasColor norm k s ->
  exists s',
    plane_vertex setNorm setTex hasColor waxis haxis w fwdir fhdir
      segWidth segHeight woff hoff zoff wsegs hsegs norm clrv iy ix s
    = Ok s' /\
    vertex_inv ms0 stVtxIdx setNorm setTex hasColor norm (k + 1) s'.
Proof.
  intros Hk. destruct s as [ms vtx tex vidx tidx cidx].
  intros (Hvi & Hti & Hci & KV & KN & KT & KC & HI & HH & HCol & HNrm).
  cbn [l_ms l_vtx l_tex l_vidx l_tidx l_cidx] in *. subst vidx tidx cidx.
  pose proof (kept_len _ _ _ KV) as LV.
  pose proof (kept_len _ _ _ KN) as LN.
  pose proof (kept_len _ _ _ KT) as LT.
  pose proof (kept_len _ _ _ KC) as LC.
  unfold plane_vertex.
  cbn [l_ms l_vtx l_tex l_vidx l_tidx l_cidx].
  unfold mat32.Vec3_ToArray, mat32.Vec2_ToArray, mat32.Vec4_ToArray.
  set (v := mat32.Vec3_SetDim _ w zoff).
  set (t := mat32.Vec2_Set _ _).
  assert (Hpos : (Z.to_nat (3 * stVtxIdx)
                  <= Z.to_nat (3 * (stVtxIdx + k)))%nat) by lia.
  rewrite arr_write_ok by (unfold len in *; simpl length; lia).
  cbn [rbind set_Vtx Vtx Norm Tex Color].
  assert (KV' : kept (Z.to_nat (3 * stVtxIdx)) (Vtx ms0)
                  (splice (Vtx ms) (Z.to_nat (3 * (stVtxIdx + k)))
                     [mat32.v3X v; mat32.v3Y v; mat32.v3Z v])).
  { apply kept_splice; [done | lia |]. unfold len in *. simpl length. lia. }
  assert (NE' : setNorm = true -> forall j, 0 <= j < k + 1 ->
            slice (splice (Norm ms) (Z.to_nat (3 * (stVtxIdx + k)))
                     (Vec3_floats norm))
              (Z.to_nat (3 * (stVtxIdx + j))) 3 = Vec3_floats norm).
  { intros E j Hj. specialize (HNorm E).
    destruct (decide (j = k)) as [-> | Hne].
    - change 3%nat with (length (Vec3_floats norm)).
      apply slice_splice_same. unfold len in *. lia.
    - rewrite slice_splice_lt by (unfold len in *; lia).
      apply HNrm; [done | lia]. }
  unfold Vec3_floats in NE'.
  destruct setNorm eqn:EN;
    [ specialize (HNorm eq_refl);
      rewrite arr_write_ok by (unfold len in *; simpl length; lia) |];
    cbn [rbind set_Vtx set_Norm Vtx Norm Tex Color];
    (destruct setTex eqn:ET;
     [ specialize (HTex eq_refl);
       rewrite arr_write_ok by (unfold len in *; simpl length; lia) |]);
    cbn [rbind set_Vtx set_Norm set_Tex Vtx Norm Tex Color];
    (destruct hasColor eqn:EC;
     [ specialize (HColor eq_refl);
       rewrite arr_write_ok by (unfold len in *; simpl length; lia) |]);
    cbn [rbind set_Vtx set_Norm set_Tex set_Color Vtx Norm Tex Color];
    (eexists; split; [reflexivity |]);
    unfold vertex_inv, same_header in *;
    destruct HH as (? & ? & ? & ? & ?);
    cbn [l_ms l_vidx l_tidx l_cidx set_Vtx set_Norm set_Tex set_Color
         Vtx Norm Tex Color Idx Nm Dynamic Trans BBox Buff];
    int_simpl;
    repeat match goal with
           | |- _ /\ _ => split
           end;
    try first
      [ lia
      | done
      | apply kept_splice; [done | lia | unfold len in *; simpl length; lia]
      | intros _; exact (NE' eq_refl) ].
Qed.

Lemma plane_vertices_ok (wsegs1 hsegs1 : Z) (s0 : PlaneLoop) :
  0 <= wsegs1 -> 0 <= hsegs1 -> count = wsegs1 * hsegs1 ->
  vertex_inv ms0 stVtxIdx setNorm setTex hasColor norm 0 s0 ->
  exists s',
    for_int hsegs1 (fun iy s =>
      for_int wsegs1 (fun ix s =>
        plane_vertex setNorm setTex hasColor waxis haxis w fwdir fhdir
          segWidth segHeight woff hoff zoff wsegs hsegs norm clrv
          iy ix s) s) s0
    = Ok s' /\
    vertex_inv ms0 stVtxIdx setNorm setTex hasColor norm count s'.
Proof.
  intros Hw1 Hh1 Hcount Hinv0.
  destruct (for_int_inv
    (fun iy s => vertex_inv ms0 stVtxIdx setNorm setTex hasColor norm
                   (wsegs1 * iy) s)
    (fun iy s => for_int wsegs1 (fun ix s =>
       plane_vertex setNorm setTex hasColor waxis haxis w fwdir fhdir
         segWidth segHeight woff hoff zoff wsegs hsegs norm clrv
         iy ix s) s)
    hsegs1 s0) as (s' & Hrun & Hinv).
  - done.
  - by rewrite Z.mul_0_r.
  - intros iy s Hiy Hs.
    destruct (for_int_inv
      (fun ix s => vertex_inv ms0 stVtxIdx setNorm setTex hasColor norm
                     (ix + wsegs1 * iy) s)
      (fun ix s =>
         plane_vertex setNorm setTex hasColor waxis haxis w fwdir fhdir
           segWidth segHeight woff hoff zoff wsegs hsegs norm clrv
           iy ix s)
      wsegs1 s) as (s1 & Hrun & Hinv).
    + done.
    + done.
    + intros ix s2 Hix Hs2.
      destruct (row_major_inside wsegs1 hsegs1 ix iy Hix Hiy).
      replace (ix + 1 + wsegs1 * iy) with (ix + wsegs1 * iy + 1) by lia.
      apply plane_vertex_step; [lia | done].
    + exists s1. split; [done |].
      by replace (wsegs1 * (iy + 1)) with (wsegs1 + wsegs1 * iy) by lia.
  - exists s'. split; [done |]. by rewrite Hcount.
Qed.

End VertexLoop.

(** ** The blocks of [SetPlane] *)

Section PlaneBlocks.

Context `{Ext : External}.

Lemma quo_count (a : list float32) (n : Z) :
  0 < n -> Int.quo (len a) n = len a / n.
Proof.
  intros Hn. unfold Int.quo. apply Z.quot_div_nonneg; [apply len_nonneg | done].
Qed.

Lemma moderate_bounds (ms : MeshBase) :
  moderate ms ->
  len (Vtx ms) <= 576460752303423488 /\
  len (Norm ms) <= 576460752303423488 /\
  len (Tex ms) <= 576460752303423488 /\
  len (Color ms) <= 576460752303423488 /\
  len (Idx ms) <= 576460752303423488.
Proof. done. Qed.

Lemma PlaneSize_clamped (ms : MeshBase) (wsegs hsegs : Z) :
  plane_vtx_size wsegs hsegs <= 288230376151711744 ->
  PlaneSize ms (MaxInt wsegs 1) (MaxInt hsegs 1)
  = (plane_vtx_size wsegs hsegs, plane_idx_size wsegs hsegs) /\
  PlaneSize ms wsegs hsegs
  = (plane_vtx_size wsegs hsegs, plane_idx_size wsegs hsegs).
Proof.
  unfold plane_vtx_size, plane_idx_size, PlaneSize, MaxInt.
  intros Hsz.
  rewrite !(Z.max_l (Z.max _ 1) 1) by lia.
  set (w := Z.max wsegs 1) in *. set (h := Z.max hsegs 1) in *.
  assert (1 <= w) by lia. assert (1 <= h) by lia.
  assert (Hexp : (w + 1) * (h + 1) = w * h + w + h + 1) by ring.
  assert (0 < w * h) by (apply Z.mul_pos_pos; lia).
  unfold Int.mul, Int.add.
  rewrite (wrap_small (w + 1)), (wrap_small (h + 1)) by lia.
  rewrite (wrap_small ((w + 1) * (h + 1))) by lia.
  rewrite (wrap_small (w * h)) by lia.
  rewrite (wrap_small (w * h * 6)) by lia.
  done.
Qed.

Lemma plane_extend_ok (ms : MeshBase) (stVtxIdx vtxSz : Z) (hasColor : bool) :
  0 <= stVtxIdx -> 0 <= vtxSz ->
  stVtxIdx + vtxSz <= 576460752303423488 ->
  moderate ms ->
  let dif := Z.max 0 (stVtxIdx + vtxSz - vtx_count ms) in
  exists ms0,
    plane_extend ms stVtxIdx vtxSz hasColor = Ok ms0 /\
    Vtx ms0 = Vtx ms ++ replicate (Z.to_nat (dif * 3)) F32.zero /\
    Norm ms0 = Norm ms ++ replicate (Z.to_nat (dif * 3)) F32.zero /\
    Tex ms0 = Tex ms ++ replicate (Z.to_nat (dif * 2)) F32.zero /\
    Color ms0
    = Color ms ++ replicate (Z.to_nat (if hasColor then dif * 4 else 0))
                    F32.zero /\
    Idx ms0 = Idx ms /\
    same_header ms ms0.
Proof.
  intros HstV Hsz Hsum Hmod dif.
  apply moderate_bounds in Hmod as (HV & HN & HT & HC & HI).
  unfold plane_extend. rewrite quo_count by lia.
  fold (vtx_count ms).
  assert (0 <= vtx_count ms <= len (Vtx ms)).
  { unfold vtx_count. pose proof (len_nonneg (Vtx ms)).
    split; [apply Z.div_pos; lia |].
    apply Z.div_le_upper_bound; lia. }
  unfold Int.add, Int.sub, Int.mul.
  rewrite (wrap_small (stVtxIdx + vtxSz)) by lia.
  rewrite Z.gtb_ltb.
  destruct (Z.ltb_spec (vtx_count ms) (stVtxIdx + vtxSz)) as [Hlt | Hge].
  - replace dif with (stVtxIdx + vtxSz - vtx_count ms) by lia.
    set (d := stVtxIdx + vtxSz - vtx_count ms) in *.
    rewrite (wrap_small d) by lia.
    rewrite (wrap_small (d * 3)), (wrap_small (d * 2)), (wrap_small (d * 4))
      by lia.
    rewrite Extend_ok by lia. cbn [rbind set_Vtx set_Norm set_Tex set_Color Vtx Norm Tex Color].
    rewrite Extend_ok by lia. cbn [rbind set_Vtx set_Norm set_Tex set_Color Vtx Norm Tex Color].
    rewrite Extend_ok by lia. cbn [rbind set_Vtx set_Norm set_Tex set_Color Vtx Norm Tex Color].
    destruct hasColor.
    + rewrite Extend_ok by lia. cbn [rbind].
      eexists. split; [reflexivity |]. by repeat split.
    + eexists. split; [reflexivity |]. cbn. rewrite app_nil_r. by repeat split.
  - replace dif with 0 by lia.
    exists ms. split; [done |]. cbn.
    destruct hasColor; cbn; rewrite !app_nil_r; by repeat split.
Qed.


Lemma plane_indexes_ok (ms : MeshBase) (stVtxIdx stIdxIdx wsegs hsegs : Z)
    (P : Z -> Prop) :
  0 <= stVtxIdx -> 0 <= stIdxIdx <= 1152921504606846976 ->
  1 <= wsegs -> 1 <= hsegs ->
  stVtxIdx + (wsegs + 1) * (hsegs + 1) <= 576460752303423488 ->
  len (Idx ms) <= 1152921504606846976 ->
  (forall z, 0 <= z < stVtxIdx + (wsegs + 1) * (hsegs + 1) -> P (uint32 z)) ->
  Forall P (Idx ms) ->
  let idx0 :=
    Idx ms ++ replicate
      (Z.to_nat (stIdxIdx + wsegs * hsegs * 6 - len (Idx ms))) 0 in
  exists idx',
    plane_indexes ms stVtxIdx stIdxIdx (wsegs * hsegs * 6) wsegs hsegs
      (Int.add wsegs 1)
    = Ok (set_Idx ms idx') /\
    index_inv idx0 stVtxIdx stIdxIdx wsegs P hsegs 0
      (idx', stIdxIdx + 6 * (wsegs * hsegs)).
Proof.
  intros HstV HstI Hw Hh Hbig Hlen HP Hall idx0.
  assert (Hexp : (wsegs + 1) * (hsegs + 1)
                 = wsegs * hsegs + wsegs + hsegs + 1) by ring.
  assert (0 < wsegs * hsegs) by (apply Z.mul_pos_pos; lia).
  pose proof (len_nonneg (Idx ms)).
  assert (HP0 : P 0) by (apply (HP 0); lia).
  destruct (plane_cells_ok idx0 stVtxIdx stIdxIdx wsegs hsegs P)
    as (idx' & Hrun & Hinv); try done; try lia.
  - subst idx0. rewrite len_app.
    destruct (Z.le_gt_cases (stIdxIdx + wsegs * hsegs * 6) (len (Idx ms))).
    + replace (Z.to_nat _) with 0%nat by lia. cbn. unfold len at 2. cbn. lia.
    + rewrite len_replicate by lia. lia.
  - subst idx0. rewrite len_app.
    destruct (Z.le_gt_cases (stIdxIdx + wsegs * hsegs * 6) (len (Idx ms))).
    + replace (Z.to_nat _) with 0%nat by lia. cbn. unfold len at 2. cbn. lia.
    + rewrite len_replicate by lia. lia.
  - subst idx0. apply Forall_app. split; [done |].
    by apply Forall_replicate.
  - exists idx'. split; [| done].
    unfold plane_indexes.
    replace (Int.add stIdxIdx (wsegs * hsegs * 6))
      with (stIdxIdx + wsegs * hsegs * 6)
      by (unfold Int.add; rewrite wrap_small; lia).
    rewrite Z.gtb_ltb.
    destruct (Z.ltb_spec (len (Idx ms)) (stIdxIdx + wsegs * hsegs * 6)).
    + unfold Int.sub. rewrite wrap_small by lia. rewrite Extend_ok by lia.
      cbn [rbind]. fold idx0. rewrite Hrun. done.
    + cbn [rbind].
      replace (Idx ms) with idx0 at 1.
      * rewrite Hrun. done.
      * subst idx0. replace (Z.to_nat _) with 0%nat by lia.
        cbn. by rewrite app_nil_r.
Qed.


Lemma count_bounds (a : list float32) (n : Z) :
  0 < n -> 0 <= len a / n /\ n * (len a / n) <= len a.
Proof.
  intros Hn. pose proof (len_nonneg a). split.
  - apply Z.div_pos; lia.
  - apply Z.mul_div_le. lia.
Qed.

(** [SetPlane] returns when the arrays are aligned, and what it returns. *)
Lemma SetPlane_ok (ms : MeshBase) (stVtxIdx stIdxIdx : Z)
    (setNorm setTex setIdx : bool) (waxis haxis : mat32.Dims)
    (wdir hdir : Z) (width height woff hoff zoff : float32)
    (wsegs hsegs : Z) (clr : gi_Color) (P : Z -> Prop) :
  0 <= stVtxIdx <= 288230376151711744 ->
  0 <= stIdxIdx <= 1152921504606846976 ->
  plane_vtx_size wsegs hsegs <= 288230376151711744 ->
  moderate ms ->
  aligned ms (negb (IsNil clr)) ->
  (forall z, 0 <= z < stVtxIdx + plane_vtx_size wsegs hsegs ->
             P (uint32 z)) ->
  Forall P (Idx ms) ->
  let w := Z.max wsegs 1 in
  let h := Z.max hsegs 1 in
  let dif := Z.max 0 (stVtxIdx + plane_vtx_size wsegs hsegs - vtx_count ms) in
  exists ms',
    SetPlane ms stVtxIdx stIdxIdx setNorm setTex setIdx waxis haxis
      wdir hdir width height woff hoff zoff wsegs hsegs clr = Ok ms' /\
    kept (Z.to_nat (3 * stVtxIdx))
      (Vtx ms ++ replicate (Z.to_nat (dif * 3)) F32.zero) (Vtx ms') /\
    kept (Z.to_nat (3 * stVtxIdx))
      (Norm ms ++ replicate (Z.to_nat (dif * 3)) F32.zero) (Norm ms') /\
    kept (Z.to_nat (2 * stVtxIdx))
      (Tex ms ++ replicate (Z.to_nat (dif * 2)) F32.zero) (Tex ms') /\
    kept (Z.to_nat (4 * stVtxIdx))
      (Color ms ++ replicate
         (Z.to_nat (if negb (IsNil clr) then dif * 4 else 0)) F32.zero)
      (Color ms') /\
    (IsNil clr = true -> Color ms' = Color ms) /\
    same_header ms ms' /\
    (setNorm = true -> forall j, 0 <= j < plane_vtx_size wsegs hsegs ->
       slice (Norm ms') (Z.to_nat (3 * (stVtxIdx + j))) 3
       = Vec3_floats (plane_norm (plane_w waxis haxis) zoff)) /\
    (if setIdx
     then index_inv
            (Idx ms ++ replicate
               (Z.to_nat (stIdxIdx + w * h * 6 - len (Idx ms))) 0)
            stVtxIdx stIdxIdx w P h 0
            (Idx ms', stIdxIdx + 6 * (w * h))
     else Idx ms' = Idx ms).
Proof.
  intros HstV HstI Hsz Hmod (HaN & HaT & HaC) HP Hall w h dif.
  destruct (PlaneSize_clamped ms wsegs hsegs Hsz) as [HPS _].
  pose proof Hmod as Hmod'.
  apply moderate_bounds in Hmod' as (HV & HN & HT & HC & HI).
  assert (Hw : 1 <= w) by (subst w; lia).
  assert (Hh : 1 <= h) by (subst h; lia).
  assert (Hcnt : plane_vtx_size wsegs hsegs = (w + 1) * (h + 1)) by done.
  assert (Hexp : (w + 1) * (h + 1) = w * h + w + h + 1) by ring.
  assert (0 < w * h) by (apply Z.mul_pos_pos; lia).
  destruct (count_bounds (Vtx ms) 3) as [? ?]; [lia |].
  destruct (count_bounds (Norm ms) 3) as [? ?]; [lia |].
  destruct (count_bounds (Tex ms) 2) as [? ?]; [lia |].
  destruct (count_bounds (Color ms) 4) as [? ?]; [lia |].
  unfold vtx_count, norm_count, tex_count, color_count in HaN, HaT, HaC.
  assert (Hdif : dif = Z.max 0 (stVtxIdx + (w + 1) * (h + 1)
                                - len (Vtx ms) / 3)) by done.
  assert (Ew1 : Int.add w 1 = w + 1)
    by (unfold Int.add; rewrite wrap_small; lia).
  assert (Eh1 : Int.add h 1 = h + 1)
    by (unfold Int.add; rewrite wrap_small; lia).
  unfold SetPlane. rewrite HPS.
  destruct (plane_extend_ok ms stVtxIdx (plane_vtx_size wsegs hsegs)
              (negb (IsNil clr)))
    as (ms0 & Hext & EV & EN & ET & EC & EI & EH); try done; try lia.
  rewrite Hext. cbn [rbind].
  fold dif in EV, EN, ET, EC.
  unfold MaxInt. fold w h.
  assert (LV0 : len (Vtx ms0) = len (Vtx ms) + dif * 3)
    by (rewrite EV, len_app, len_replicate; lia).
  assert (LN0 : len (Norm ms0) = len (Norm ms) + dif * 3)
    by (rewrite EN, len_app, len_replicate; lia).
  assert (LT0 : len (Tex ms0) = len (Tex ms) + dif * 2)
    by (rewrite ET, len_app, len_replicate; lia).
  assert (LC0 : len (Color ms0)
                = len (Color ms) + (if negb (IsNil clr) then dif * 4 else 0))
    by (rewrite EC, len_app, len_replicate; destruct (negb (IsNil clr)); lia).
  match goal with
  | |- context [rbind ?loop _] =>
      assert (Hv : exists s', loop = Ok s' /\
                vertex_inv ms0 stVtxIdx setNorm setTex (negb (IsNil clr))
                  (plane_norm (plane_w waxis haxis) zoff)
                  (plane_vtx_size wsegs hsegs) s')
  end.
  { apply plane_vertices_ok; rewrite ?Ew1, ?Eh1; try lia.
    - intros E. specialize (HaC E). rewrite E in LC0. lia.
    - destruct (negb (IsNil clr)); lia.
    - unfold vertex_inv. cbn [l_ms l_vidx l_tidx l_cidx].
      unfold Int.mul. rewrite !wrap_small by lia.
      repeat split; try done;
        destruct setTex, (negb (IsNil clr)); lia. }
  destruct Hv as ([ms1 vtx1 tex1 vidx1 tidx1 cidx1] & Hrun & Hinv).
  rewrite Hrun. cbn [rbind l_ms].
  destruct Hinv
    as (_ & _ & _ & KV & KN & KT & KC & HI1 & HH & HCol & HNrm).
  cbn [l_ms] in *.
  rewrite EV in KV. rewrite EN in KN. rewrite ET in KT. rewrite EC in KC.
  assert (HH' : same_header ms ms1).
  { unfold same_header in *.
    destruct EH as (? & ? & ? & ? & ?), HH as (? & ? & ? & ? & ?).
    repeat split; congruence. }
  assert (HCol' : IsNil clr = true -> Color ms1 = Color ms).
  { intros E. rewrite HCol, EC by (by rewrite E).
    rewrite E. cbn. by rewrite app_nil_r. }
  destruct setIdx.
  - destruct (plane_indexes_ok ms1 stVtxIdx stIdxIdx w h P)
      as (idx' & Hrun2 & Hinv2); try done; try lia.
    { rewrite HI1, EI. lia. }
    { by rewrite HI1, EI. }
    exists (set_Idx ms1 idx'). split; [exact Hrun2 |].
    rewrite HI1, EI in Hinv2. cbn [set_Idx Vtx Norm Tex Color Idx].
    split_and!; done.
  - exists ms1. split; [done |].
    split_and!; try done. by rewrite HI1.
Qed.

End PlaneBlocks.

(** ** What a call with the nil color leaves alone *)

Section NilColor.

Context `{Ext : External}.

(** Takes apart a successful chain of [rbind]s. *)
Ltac rbind_inv H :=
  repeat match type of H with
         | rbind ?r _ = Ok _ =>
             let E := fresh "E" in
             destruct r eqn:E; cbn [rbind] in H; [| discriminate H]
         | match ?x with pair _ _ => _ end = Ok _ => destruct x
         end.

Lemma plane_extend_nil_color (ms ms0 : MeshBase) (stVtxIdx vtxSz : Z) :
  plane_extend ms stVtxIdx vtxSz false = Ok ms0 -> Color ms0 = Color ms.
Proof.
  unfold plane_extend. intros H.
  destruct (_ >? _); [| by inversion H].
  rbind_inv H. by inversion H.
Qed.

Lemma plane_vertex_nil_color (setNorm setTex : bool)
    (waxis haxis w : mat32.Dims)
    (fwdir fhdir segWidth segHeight woff hoff zoff : float32)
    (wsegs hsegs : Z) (norm : mat32.Vec3) (clrv : mat32.Vec4)
    (iy ix : Z) (s s' : PlaneLoop) :
  plane_vertex setNorm setTex false waxis haxis w fwdir fhdir segWidth
    segHeight woff hoff zoff wsegs hsegs norm clrv iy ix s = Ok s' ->
  Color (l_ms s') = Color (l_ms s).
Proof.
  unfold plane_vertex. intros H.
  destruct setNorm, setTex; rbind_inv H;
    repeat match goal with
           | E : rbind _ _ = Ok _ |- _ => rbind_inv E
           | E : Ok _ = Ok _ |- _ => inversion E; clear E; subst
           end;
    done.
Qed.

Lemma plane_indexes_color (ms ms' : MeshBase)
    (stVtxIdx stIdxIdx idxSz wsegs hsegs wsegs1 : Z) :
  plane_indexes ms stVtxIdx stIdxIdx idxSz wsegs hsegs wsegs1 = Ok ms' ->
  Color ms' = Color ms.
Proof.
  unfold plane_indexes. intros H. rbind_inv H. by inversion H.
Qed.

Lemma SetPlane_nil_color (ms ms' : MeshBase) (stVtxIdx stIdxIdx : Z)
    (setNorm setTex setIdx : bool) (waxis haxis : mat32.Dims)
    (wdir hdir : Z) (width height woff hoff zoff : float32)
    (wsegs hsegs : Z) (clr : gi_Color) :
  IsNil clr = true ->
  SetPlane ms stVtxIdx stIdxIdx setNorm setTex setIdx waxis haxis
    wdir hdir width height woff hoff zoff wsegs hsegs clr = Ok ms' ->
  Color ms' = Color ms.
Proof.
  intros Hnil. unfold SetPlane. rewrite Hnil. cbn [negb].
  destruct (PlaneSize _ _ _) as [vtxSz idxSz]. intros H.
  rbind_inv H.
  apply plane_extend_nil_color in E.
  assert (Hloop : Color (l_ms a0) = Color ms).
  { eapply (for_int_preserves (fun s => Color (l_ms s) = Color ms));
      [| exact E0 | done].
    intros iy s1 s2 Hin Hs1.
    eapply (for_int_preserves (fun s => Color (l_ms s) = Color ms));
      [| exact Hin | done].
    intros ix s3 s4 Hv Hs3.
    apply plane_vertex_nil_color in Hv. congruence. }
  destruct setIdx.
  - apply plane_indexes_color in H. congruence.
  - inversion H. by subst.
Qed.

End NilColor.

(** * The claims *)

(** ** Strings *)

Lemma has_char_app (c : ascii) (a b : string) :
  has_char c (a ++ b)%string = has_char c a || has_char c b.
Proof.
  induction a as [| x a IH]; simpl; [done |].
  rewrite IH. by rewrite orb_assoc.
Qed.

Lemma hex_no_Q (u : Hexadecimal.uint) :
  has_char "Q" (HexadecimalString.NilEmpty.string_of_uint u) = false.
Proof. induction u; simpl; done. Qed.

Lemma Contains_first_char (c : ascii) (sub s : string) :
  has_char c s = false -> Contains s (String c sub) = false.
Proof.
  induction s as [| a s IH]; simpl; intros H; [done |].
  apply orb_false_iff in H as [Ha Hs].
  destruct (ascii_dec c a) as [-> | Hne].
  - by rewrite Ascii.eqb_refl in Ha.
  - by apply IH.
Qed.

Section Claims.

Context `{Ext : External}.

(** ** [Validate] and [MakeVectors] *)

Lemma Validate_cases (ms : MeshBase) :
  (Validate ms = Ret None /\
   vtx_count ms <> 0 /\ norm_count ms = vtx_count ms /\
   tex_count ms = vtx_count ms /\
   (color_count ms = 0 \/ color_count ms = vtx_count ms)) \/
  (exists err, Validate ms = log_and_return err /\
   ~ (vtx_count ms <> 0 /\ norm_count ms = vtx_count ms /\
      tex_count ms = vtx_count ms /\
      (color_count ms = 0 \/ color_count ms = vtx_count ms))).
Proof.
  unfold Validate. rewrite !quo_count by lia.
  fold (vtx_count ms) (norm_count ms) (tex_count ms) (color_count ms).
  destruct (Z.eqb_spec (vtx_count ms) 0);
    [right; eexists; split; [reflexivity | lia] |].
  destruct (Z.eqb_spec (norm_count ms) (vtx_count ms)); simpl negb; cbv iota;
    [| right; eexists; split; [reflexivity | lia]].
  destruct (Z.eqb_spec (tex_count ms) (vtx_count ms)); simpl negb; cbv iota;
    [| right; eexists; split; [reflexivity | lia]].
  destruct (Z.eqb_spec (color_count ms) 0); [left; split; [done | lia] |].
  destruct (Z.eqb_spec (color_count ms) (vtx_count ms)); simpl negb; cbv iota;
    [left; split; [done | lia] |].
  right; eexists; split; [reflexivity | lia].
Qed.

(** C1, as amended. [Validate] succeeds if and only if the vertex count is
    not zero, the normal count and the texcoord count both equal the
    vertex count, and the color count is either 0 or equal to the vertex
    count (arrays taken as 3-float, 2-float and 4-float vectors); in every
    other case it logs and returns an error. *)
Theorem Validate_succeeds_iff (ms : MeshBase) :
  (Validate ms = Ret None <->
   vtx_count ms <> 0 /\ norm_count ms = vtx_count ms /\
   tex_count ms = vtx_count ms /\
   (color_count ms = 0 \/ color_count ms = vtx_count ms)) /\
  (Validate ms <> Ret None ->
   exists err, Validate ms = log_and_return err /\
               returns (Validate ms) (Some err)).
Proof.
  destruct (Validate_cases ms) as [[Hv Hc] | (err & Hv & Hc)]; rewrite Hv.
  - split; [done |]. intros H. by destruct H.
  - split.
    + split; [intros H; discriminate H | intros H; by destruct Hc].
    + intros _. exists err. split; [done |]. intros []. done.
Qed.

(** C7. Whenever [Validate] returns an error, [MakeVectors] returns that
    same error with the mesh as it was (so [Buff] is unchanged, nil if it
    was nil), and makes no call on the GPU interfaces: its only event is
    the log line of [Validate]. *)
Theorem MakeVectors_rejects_invalid (ms : MeshBase) (sc : Scene)
    (err : error) :
  returns (Validate ms) (Some err) ->
  returns (MakeVectors ms sc) (Some err, ms) /\
  no_gpu_call (MakeVectors ms sc) /\
  log_of (MakeVectors ms sc) = log_of (Validate ms).
Proof.
  intros Hret. unfold MakeVectors.
  destruct (Validate_cases ms) as [[Hv _] | (e & Hv & _)];
    rewrite Hv in Hret |- *.
  - discriminate Hret.
  - specialize (Hret tt). simpl in Hret. inversion Hret; subst e.
    simpl. split; [by intros [] |]. split; [| done].
    split; [done | by intros []].
Qed.

(** C8, at the failing input: a mesh named ["Quad"] with no vertexes.
    [Validate] returns the "has no verticies" error, and its message,
    which holds the code address of the method value [ms.Name], does not
    contain the name of the mesh, whatever that address is. *)
Theorem Validate_message_lacks_name (bb : gi3d_BBox) :
  Nm (empty_mesh "Quad" bb) = "Quad"%string /\
  Validate (empty_mesh "Quad" bb) = log_and_return err_no_verticies /\
  err_no_verticies
  = ("gi3d.Mesh: " ++ fmt_v_func Name_fm ++ " has no verticies")%string /\
  Contains err_no_verticies "Quad" = false.
Proof.
  split; [done |]. split; [done |]. split; [done |].
  apply Contains_first_char. unfold err_no_verticies, fmt_v_func.
  rewrite !has_char_app, hex_no_Q. done.
Qed.

(** ** [Reset] *)

(** C9, as amended. [Reset] clears the five arrays to empty and leaves
    everything else as it was: in particular the [Buff] field still holds
    the buffer manager it held. *)
Theorem Reset_keeps_Buff (ms : MeshBase) :
  Buff (Reset ms) = Buff ms /\
  is_empty (Reset ms) /\
  same_header ms (Reset ms).
Proof. done. Qed.

(** ** [PlaneSize] *)

Lemma wrap_mul_small (a b : Z) :
  -9223372036854775808 <= b <= 9223372036854775807 ->
  Int.wrap (Int.wrap a * b) = Int.wrap (a * b).
Proof.
  intros Hb. rewrite <- (wrap_small b) at 1 by done. apply wrap_wrap_mul.
Qed.

(** C2. For all [wsegs, hsegs >= 0], [PlaneSize] returns
    [((w+1)*(h+1), w*h*6)] for the segment counts [w], [h] clamped to at
    least 1, in the arithmetic of [int]; when the two products are [int]s,
    these are the exact products. *)
Theorem PlaneSize_formula (ms : MeshBase) (wsegs hsegs : Z) :
  0 <= wsegs -> 0 <= hsegs ->
  let w := Z.max wsegs 1 in
  let h := Z.max hsegs 1 in
  PlaneSize ms wsegs hsegs
  = (Int.wrap ((w + 1) * (h + 1)), Int.wrap (w * h * 6)) /\
  ((w + 1) * (h + 1) <= Int.max_int -> w * h * 6 <= Int.max_int ->
   PlaneSize ms wsegs hsegs = ((w + 1) * (h + 1), w * h * 6)).
Proof.
  intros Hw Hh w h.
  assert (E : PlaneSize ms wsegs hsegs
              = (Int.wrap ((w + 1) * (h + 1)), Int.wrap (w * h * 6))).
  { unfold PlaneSize, MaxInt, Int.mul, Int.add. fold w h.
    by rewrite wrap_wrap_mul, wrap_mul_small. }
  split; [done |].
  unfold Int.max_int. change (2 ^ 63 - 1) with 9223372036854775807.
  intros H1 H2. rewrite E.
  assert (0 < w * h) by (apply Z.mul_pos_pos; lia).
  assert (0 < (w + 1) * (h + 1)) by (apply Z.mul_pos_pos; lia).
  by rewrite !wrap_small by lia.
Qed.

(** ** [SetPlane] and [AddPlane] *)

Lemma plane_fits_bound (wsegs hsegs : Z) :
  plane_fits wsegs hsegs ->
  4 <= plane_vtx_size wsegs hsegs <= 72057594037927936 /\
  6 <= plane_idx_size wsegs hsegs /\
  plane_idx_size wsegs hsegs + 6 <= 6 * plane_vtx_size wsegs hsegs.
Proof.
  unfold plane_fits, plane_vtx_size, plane_idx_size.
  change (2 ^ 56) with 72057594037927936.
  set (w := Z.max wsegs 1). set (h := Z.max hsegs 1). intros Hf.
  assert (1 <= w) by lia. assert (1 <= h) by lia.
  assert (Hexp : (w + 1) * (h + 1) = w * h + w + h + 1) by ring.
  assert (1 <= w * h) by (pose proof (Z.mul_pos_pos w h); lia).
  lia.
Qed.

Lemma empty_moderate (ms : MeshBase) : is_empty ms -> moderate ms.
Proof.
  intros (E1 & E2 & E3 & E4 & E5). unfold moderate, len.
  rewrite E1, E2, E3, E4, E5. simpl. repeat split; done.
Qed.

Lemma empty_aligned (ms : MeshBase) (hasColor : bool) :
  is_empty ms -> aligned ms hasColor.
Proof.
  intros (E1 & E2 & E3 & E4 & E5).
  unfold aligned, vtx_count, norm_count, tex_count, color_count.
  rewrite E1, E2, E3, E5. done.
Qed.

(** C3, as amended. On an empty mesh, [SetPlane] with [stVtxIdx = 0],
    [stIdxIdx = 0], [setNorm = setTex = setIdx = true], [waxis = X],
    [haxis = Y], [wdir = hdir = 1], [width = height = 2],
    [woff = hoff = 0], [zoff = 1], [wsegs = hsegs = 1] and the nil color
    produces exactly 4 vertexes whose positions are, in storage order,
    (0,0,1), (2,0,1), (0,2,1), (2,2,1) (height outer, width inner), the 6
    indexes 0,2,1, 2,3,1 of 2 triangles, and the normal (0,0,1) at every
    vertex. *)
Theorem SetPlane_unit_quad (ms : MeshBase) (clr : gi_Color) :
  is_empty ms -> IsNil clr = true ->
  exists ms',
    SetPlane ms 0 0 true true true mat32.X mat32.Y 1 1
      (F32.of_int 2) (F32.of_int 2) (F32.of_int 0) (F32.of_int 0)
      (F32.of_int 1) 1 1 clr = Ok ms' /\
    Vtx ms' = map F32.of_int [0; 0; 1;  2; 0; 1;  0; 2; 1;  2; 2; 1] /\
    Idx ms' = [0; 2; 1;  2; 3; 1] /\
    Norm ms' = map F32.of_int [0; 0; 1;  0; 0; 1;  0; 0; 1;  0; 0; 1].
Proof.
  destruct ms as [nm dy tr vt nr tx ix cl bb bf].
  intros (E1 & E2 & E3 & E4 & E5) Hnil. simpl in E1, E2, E3, E4, E5. subst.
  unfold SetPlane. rewrite Hnil.
  eexists. split; [vm_compute; reflexivity |]. done.
Qed.

(** C4. On an empty mesh, [SetPlane] with [stVtxIdx = 0], [stIdxIdx = 0]
    and [setIdx = true] returns; for the clamped segment counts [w], [h]
    it stores, for each grid cell [(ix,iy)], the two triangles [(a,b,d)]
    and [(b,c,d)] of [cell_triangles] (offset 0, converted to [uint32])
    at the six places from [6*(ix + w*iy)] on; every stored index is
    below the vertex count [(w+1)*(h+1)] of the plane; and the index
    array has length [w*h*6], a multiple of 6. As long as vertex ids fit
    [uint32], the stored values are [a], [b], [c], [d] themselves. *)
Theorem SetPlane_indexes (ms : MeshBase) (setNorm setTex : bool)
    (p : PlaneArgs) :
  is_empty ms -> plane_fits (p_wsegs p) (p_hsegs p) ->
  let w := Z.max (p_wsegs p) 1 in
  let h := Z.max (p_hsegs p) 1 in
  exists ms',
    SetPlane_with ms 0 0 setNorm setTex true p = Ok ms' /\
    len (Vtx ms') = 3 * ((w + 1) * (h + 1)) /\
    len (Idx ms') = w * h * 6 /\
    (6 | len (Idx ms')) /\
    (forall ix iy, 0 <= ix < w -> 0 <= iy < h ->
       slice (Idx ms') (Z.to_nat (6 * (ix + w * iy))) 6
       = cell_triangles 0 w ix iy) /\
    Forall (fun v => 0 <= v < (w + 1) * (h + 1)) (Idx ms') /\
    ((w + 1) * (h + 1) <= 2 ^ 32 ->
     forall ix iy, 0 <= ix < w -> 0 <= iy < h ->
       let a := ix + (w + 1) * iy in
       let b := ix + (w + 1) * (iy + 1) in
       let c := (ix + 1) + (w + 1) * (iy + 1) in
       let d := (ix + 1) + (w + 1) * iy in
       slice (Idx ms') (Z.to_nat (6 * (ix + w * iy))) 6
       = [a; b; d; b; c; d]).
Proof.
  intros Hemp Hfit w h.
  destruct (plane_fits_bound _ _ Hfit) as (Hn & Hi & _).
  pose proof Hemp as (E1 & E2 & E3 & E4 & E5).
  destruct (SetPlane_ok ms 0 0 setNorm setTex true (p_waxis p) (p_haxis p)
              (p_wdir p) (p_hdir p) (p_width p) (p_height p) (p_woff p)
              (p_hoff p) (p_zoff p) (p_wsegs p) (p_hsegs p) (p_clr p)
              (fun v => 0 <= v < (w + 1) * (h + 1)))
    as (ms' & Hrun & KV & _ & _ & _ & _ & _ & _ & Hidx);
    try lia.
  - by apply empty_moderate.
  - by apply empty_aligned.
  - intros z Hz. pose proof (uint32_le z). unfold plane_vtx_size in Hz.
    fold w h in Hz. lia.
  - rewrite E4. apply Forall_nil_2.
  - cbv zeta in Hidx. fold w h in Hidx.
    destruct Hidx as (_ & Kidx & Hall & Hcells). cbn [fst snd] in *.
    apply kept_len in KV, Kidx.
    assert (Hvc : vtx_count ms = 0) by (unfold vtx_count; by rewrite E1).
    unfold plane_vtx_size in *. fold w h in KV, Hn.
    rewrite Hvc, len_app, len_replicate, E1 in KV by lia.
    rewrite E4, len_app, len_replicate in Kidx
      by (unfold plane_idx_size in Hi; fold w h in Hi;
          change (len []) with 0; lia).
    change (len []) with 0 in KV, Kidx.
    assert (Hcell : forall ix iy, 0 <= ix < w -> 0 <= iy < h ->
              slice (Idx ms') (Z.to_nat (6 * (ix + w * iy))) 6
              = cell_triangles 0 w ix iy).
    { intros ix iy Hix Hiy.
      replace (6 * (ix + w * iy)) with (0 + 6 * (ix + w * iy)) by lia.
      apply Hcells; lia. }
    exists ms'. split; [exact Hrun |].
    split; [lia |]. split; [lia |].
    split; [exists (w * h); lia |].
    split; [done |]. split; [done |].
    change (2 ^ 32) with 4294967296.
    intros Hsmall ix iy Hix Hiy. rewrite Hcell by done.
    destruct (row_major_inside w h ix iy Hix Hiy) as [H0 Hwh].
    assert (Hexp : (w + 1) * (h + 1) = w * h + w + h + 1) by ring.
    unfold cell_triangles. cbv zeta.
    rewrite !Z.add_0_r.
    rewrite !uint32_small by lia. done.
Qed.

(** The cell [(ix,iy)] of the first plane of a mesh, as it is stored. *)
Lemma first_plane_cell (ms : MeshBase) (setNorm setTex : bool)
    (p : PlaneArgs) (ix iy : Z) :
  is_empty ms -> plane_fits (p_wsegs p) (p_hsegs p) ->
  0 <= ix < Z.max (p_wsegs p) 1 -> 0 <= iy < Z.max (p_hsegs p) 1 ->
  exists ms',
    SetPlane_with ms 0 0 setNorm setTex true p = Ok ms' /\
    slice (Idx ms') (Z.to_nat (6 * (ix + Z.max (p_wsegs p) 1 * iy))) 6
    = cell_triangles 0 (Z.max (p_wsegs p) 1) ix iy.
Proof.
  intros Hemp Hfit Hix Hiy.
  destruct (plane_fits_bound _ _ Hfit) as (Hn & Hi & _).
  pose proof Hemp as (E1 & E2 & E3 & E4 & E5).
  destruct (SetPlane_ok ms 0 0 setNorm setTex true (p_waxis p) (p_haxis p)
              (p_wdir p) (p_hdir p) (p_width p) (p_height p) (p_woff p)
              (p_hoff p) (p_zoff p) (p_wsegs p) (p_hsegs p) (p_clr p)
              (fun _ => True))
    as (ms' & Hrun & _ & _ & _ & _ & _ & _ & _ & Hidx);
    try lia.
  - by apply empty_moderate.
  - by apply empty_aligned.
  - rewrite E4. apply Forall_nil_2.
  - cbv zeta in Hidx. destruct Hidx as (_ & _ & _ & Hcells).
    cbn [fst snd] in Hcells.
    exists ms'. split; [exact Hrun |].
    replace (6 * (ix + Z.max (p_wsegs p) 1 * iy))
      with (0 + 6 * (ix + Z.max (p_wsegs p) 1 * iy)) by lia.
    apply Hcells; lia.
Qed.

Lemma gt_zero (x : float32) :
  F32.gt x (F32.of_int 0) = strictly_positive x.
Proof. destruct x as [[] | [] | | [] m e]; reflexivity. Qed.

Lemma plane_norm_axis (w : mat32.Dims) (zoff : float32) :
  plane_norm w zoff
  = axis_vector w (F32.of_int (if strictly_positive zoff then 1 else -1)).
Proof.
  unfold plane_norm, axis_vector. rewrite gt_zero.
  by destruct (strictly_positive zoff).
Qed.

Lemma plane_w_third (waxis haxis : mat32.Dims) :
  waxis <> haxis ->
  plane_w waxis haxis <> waxis /\ plane_w waxis haxis <> haxis.
Proof. destruct waxis, haxis; intros H; try done; by split. Qed.

(** C6. A [SetPlane] call with [setNorm = true], on two different axes
    and on a mesh whose arrays are aligned, returns, and every vertex it
    generates has the same normal: the vector along the axis [w] that is
    neither the width nor the height axis, with component +1 if [zoff] is
    strictly positive and -1 otherwise; a zero [zoff] is not strictly
    positive. *)
Theorem SetPlane_flat_normal (ms : MeshBase) (stVtxIdx stIdxIdx : Z)
    (setTex setIdx : bool) (p : PlaneArgs) :
  p_waxis p <> p_haxis p ->
  0 <= stVtxIdx <= 2 ^ 56 -> 0 <= stIdxIdx <= 2 ^ 59 ->
  plane_fits (p_wsegs p) (p_hsegs p) ->
  moderate ms -> aligned ms (negb (IsNil (p_clr p))) ->
  exists ms' w,
    SetPlane_with ms stVtxIdx stIdxIdx true setTex setIdx p = Ok ms' /\
    w <> p_waxis p /\ w <> p_haxis p /\
    (forall j, 0 <= j < p_vtx_size p ->
       slice (Norm ms') (Z.to_nat (3 * (stVtxIdx + j))) 3
       = Vec3_floats
           (axis_vector w
              (F32.of_int (if strictly_positive (p_zoff p)
                           then 1 else -1)))) /\
    (forall s, strictly_positive (S754_zero s) = false).
Proof.
  change (2 ^ 56) with 72057594037927936.
  change (2 ^ 59) with 576460752303423488.
  intros Hax HstV HstI Hfit Hmod Hal.
  destruct (plane_fits_bound _ _ Hfit) as (Hn & _).
  destruct (SetPlane_ok ms stVtxIdx stIdxIdx true setTex setIdx (p_waxis p)
              (p_haxis p) (p_wdir p) (p_hdir p) (p_width p) (p_height p)
              (p_woff p) (p_hoff p) (p_zoff p) (p_wsegs p) (p_hsegs p)
              (p_clr p) (fun _ => True))
    as (ms' & Hrun & _ & _ & _ & _ & _ & _ & HNrm & _);
    try done; try lia.
  - by apply Forall_true.
  - destruct (plane_w_third _ _ Hax) as [Hw Hh].
    exists ms', (plane_w (p_waxis p) (p_haxis p)).
    split; [exact Hrun |]. split; [done |]. split; [done |].
    split; [| by intros []].
    intros j Hj. rewrite <- plane_norm_axis. by apply HNrm.
Qed.

Lemma AddPlane_as_SetPlane (ms : MeshBase) (p : PlaneArgs) :
  AddPlane_with ms p
  = SetPlane_with ms (vtx_count ms) (len (Idx ms)) true true true p.
Proof.
  unfold AddPlane_with, AddPlane, SetPlane_with.
  by rewrite quo_count by lia.
Qed.

(** C10. In every [SetPlane] or [AddPlane] call with the nil color that
    returns, the [Color] array is the one held before the call. So
    [AddPlane] with the nil color, on a mesh that has one color per
    vertex, returns a mesh with the same [Color] array and more
    vertexes: its color count is below its vertex count and not zero,
    and the all-or-nothing color invariant no longer holds. *)
Theorem nil_color_keeps_Color (ms : MeshBase) (p : PlaneArgs) :
  IsNil (p_clr p) = true ->
  (forall stVtxIdx stIdxIdx setNorm setTex setIdx ms',
     SetPlane_with ms stVtxIdx stIdxIdx setNorm setTex setIdx p = Ok ms' ->
     Color ms' = Color ms) /\
  (forall ms', AddPlane_with ms p = Ok ms' -> Color ms' = Color ms) /\
  (moderate ms -> plane_fits (p_wsegs p) (p_hsegs p) ->
   norm_count ms = vtx_count ms -> tex_count ms = vtx_count ms ->
   color_count ms = vtx_count ms -> 0 < color_count ms ->
   exists ms',
     AddPlane_with ms p = Ok ms' /\
     Color ms' = Color ms /\
     vtx_count ms' = vtx_count ms + p_vtx_size p /\
     color_count ms' < vtx_count ms' /\
     ~ color_invariant ms').
Proof.
  intros Hnil. split; [| split].
  - intros stVtxIdx stIdxIdx setNorm setTex setIdx ms' Hrun.
    by eapply SetPlane_nil_color.
  - intros ms' Hrun. unfold AddPlane_with, AddPlane in Hrun.
    by eapply SetPlane_nil_color.
  - intros Hmod Hfit HN HT HC Hpos.
    destruct (plane_fits_bound _ _ Hfit) as (Hn & _).
    pose proof (moderate_bounds ms Hmod) as (HV & _ & _ & _ & HI).
    destruct (count_bounds (Vtx ms) 3) as [Hv0 Hv3]; [lia |].
    fold (vtx_count ms) in Hv0, Hv3.
    pose proof (len_nonneg (Idx ms)).
    rewrite AddPlane_as_SetPlane. unfold SetPlane_with.
    destruct (SetPlane_ok ms (vtx_count ms) (len (Idx ms)) true true true
                (p_waxis p) (p_haxis p) (p_wdir p) (p_hdir p) (p_width p)
                (p_height p) (p_woff p) (p_hoff p) (p_zoff p) (p_wsegs p)
                (p_hsegs p) (p_clr p) (fun _ => True))
      as (ms' & Hrun & KV & _ & _ & _ & HCol & _);
      try done; try lia.
    + rewrite Hnil. unfold aligned. split; [lia |]. split; [lia | done].
    + by apply Forall_true.
    + specialize (HCol Hnil).
      apply kept_len in KV.
      rewrite len_app, len_replicate in KV by lia.
      assert (Hvc : vtx_count ms' = vtx_count ms + p_vtx_size p).
      { unfold vtx_count at 1. rewrite KV.
        replace (Z.max 0 _) with (p_vtx_size p)
          by (unfold p_vtx_size; lia).
        by rewrite Z.div_add by lia. }
      assert (Hcc : color_count ms' = color_count ms)
        by (unfold color_count; by rewrite HCol).
      unfold p_vtx_size in *.
      exists ms'. split; [done |]. split; [done |]. split; [done |].
      split; [lia |]. unfold color_invariant. lia.
Qed.

(** What the first plane of an empty mesh leaves. *)
Lemma first_plane (ms : MeshBase) (setNorm setTex setIdx : bool)
    (p : PlaneArgs) :
  is_empty ms -> plane_fits (p_wsegs p) (p_hsegs p) ->
  exists ms1,
    SetPlane_with ms 0 0 setNorm setTex setIdx p = Ok ms1 /\
    len (Vtx ms1) = 3 * p_vtx_size p /\
    len (Norm ms1) = 3 * p_vtx_size p /\
    len (Tex ms1) = 2 * p_vtx_size p /\
    len (Color ms1) = (if IsNil (p_clr p) then 0 else 4 * p_vtx_size p) /\
    len (Idx ms1) = (if setIdx then p_idx_size p else 0).
Proof.
  intros Hemp Hfit.
  destruct (plane_fits_bound _ _ Hfit) as (Hn & Hi & _).
  pose proof Hemp as (E1 & E2 & E3 & E4 & E5).
  assert (Hvc : vtx_count ms = 0) by (unfold vtx_count; by rewrite E1).
  unfold SetPlane_with.
  destruct (SetPlane_ok ms 0 0 setNorm setTex setIdx (p_waxis p) (p_haxis p)
              (p_wdir p) (p_hdir p) (p_width p) (p_height p) (p_woff p)
              (p_hoff p) (p_zoff p) (p_wsegs p) (p_hsegs p) (p_clr p)
              (fun _ => True))
    as (ms1 & Hrun & KV & KN & KT & KC & _ & _ & _ & Hidx);
    try done; try lia.
  - by apply empty_moderate.
  - by apply empty_aligned.
  - by apply Forall_true.
  - apply kept_len in KV, KN, KT, KC.
    rewrite Hvc in KV, KN, KT, KC.
    unfold p_vtx_size, p_idx_size, plane_idx_size in *.
    rewrite E1, len_app, len_replicate in KV by lia.
    rewrite E2, len_app, len_replicate in KN by lia.
    rewrite E3, len_app, len_replicate in KT by lia.
    rewrite E5, len_app, len_replicate in KC
      by (destruct (IsNil (p_clr p)); cbn; lia).
    change (len []) with 0 in KV, KN, KT, KC.
    exists ms1. split; [done |].
    split; [lia |]. split; [lia |]. split; [lia |].
    split; [destruct (IsNil (p_clr p)); cbn in KC; lia |].
    destruct setIdx.
    + destruct Hidx as (_ & Kidx & _). cbn [fst] in Kidx.
      apply kept_len in Kidx.
      rewrite E4, len_app, len_replicate in Kidx
        by (change (len []) with 0; lia).
      change (len []) with 0 in Kidx. lia.
    + by rewrite Hidx, E4.
Qed.

(** C5, as amended. Two planes appended to an empty mesh, the first at
    [stVtxIdx = 0] and the second at [stVtxIdx] equal to the vertex count
    of the first and at the end of the index array ([AddPlane] computes
    these offsets itself), where the second plane has the nil color or
    the first one has a color: both calls return; each array grows by
    exactly the number of new elements; the vertex array holds
    [vtxSize1 + vtxSize2] vertexes; and every array of the mesh after the
    first call is a prefix of the array after the second. *)
Theorem append_two_planes (ms : MeshBase)
    (setNorm1 setTex1 setIdx1 setNorm2 setTex2 setIdx2 : bool)
    (p1 p2 : PlaneArgs) :
  is_empty ms ->
  plane_fits (p_wsegs p1) (p_hsegs p1) ->
  plane_fits (p_wsegs p2) (p_hsegs p2) ->
  IsNil (p_clr p2) = true \/ IsNil (p_clr p1) = false ->
  exists ms1 ms2,
    SetPlane_with ms 0 0 setNorm1 setTex1 setIdx1 p1 = Ok ms1 /\
    SetPlane_with ms1 (p_vtx_size p1) (len (Idx ms1))
      setNorm2 setTex2 setIdx2 p2 = Ok ms2 /\
    AddPlane_with ms p1 = SetPlane_with ms 0 0 true true true p1 /\
    AddPlane_with ms1 p2
    = SetPlane_with ms1 (p_vtx_size p1) (len (Idx ms1)) true true true p2 /\
    len (Vtx ms1) = 3 * p_vtx_size p1 /\
    len (Vtx ms2) = 3 * (p_vtx_size p1 + p_vtx_size p2) /\
    len (Norm ms2) = len (Norm ms1) + 3 * p_vtx_size p2 /\
    len (Tex ms2) = len (Tex ms1) + 2 * p_vtx_size p2 /\
    len (Color ms2)
    = len (Color ms1) + (if IsNil (p_clr p2) then 0 else 4 * p_vtx_size p2) /\
    len (Idx ms2) = len (Idx ms1) + (if setIdx2 then p_idx_size p2 else 0) /\
    Vtx ms1 `prefix_of` Vtx ms2 /\
    Norm ms1 `prefix_of` Norm ms2 /\
    Tex ms1 `prefix_of` Tex ms2 /\
    Color ms1 `prefix_of` Color ms2 /\
    Idx ms1 `prefix_of` Idx ms2.
Proof.
  intros Hemp Hfit1 Hfit2 Hclr.
  destruct (plane_fits_bound _ _ Hfit1) as (Hn1 & Hi1 & Hin1).
  destruct (plane_fits_bound _ _ Hfit2) as (Hn2 & Hi2 & Hin2).
  destruct (first_plane ms setNorm1 setTex1 setIdx1 p1 Hemp Hfit1)
    as (ms1 & Hrun1 & LV & LN & LT & LC & LI).
  unfold p_vtx_size, p_idx_size in *.
  set (n1 := plane_vtx_size (p_wsegs p1) (p_hsegs p1)) in *.
  set (n2 := plane_vtx_size (p_wsegs p2) (p_hsegs p2)) in *.
  assert (En1 : n1 = plane_vtx_size (p_wsegs p1) (p_hsegs p1)) by done.
  assert (En2 : n2 = plane_vtx_size (p_wsegs p2) (p_hsegs p2)) by done.
  clearbody n1 n2.
  assert (Hvc : vtx_count ms1 = n1)
    by (unfold vtx_count; rewrite LV; rewrite Z.mul_comm; apply Z.div_mul; lia).
  assert (HLC : 0 <= len (Color ms1) <= 4 * n1)
    by (destruct (IsNil (p_clr p1)); lia).
  assert (HLI : 0 <= len (Idx ms1) <= 6 * n1) by (destruct setIdx1; lia).
  destruct (SetPlane_ok ms1 n1 (len (Idx ms1)) setNorm2 setTex2 setIdx2
              (p_waxis p2) (p_haxis p2) (p_wdir p2) (p_hdir p2) (p_width p2)
              (p_height p2) (p_woff p2) (p_hoff p2) (p_zoff p2) (p_wsegs p2)
              (p_hsegs p2) (p_clr p2) (fun _ => True))
    as (ms2 & Hrun2 & KV & KN & KT & KC & _ & _ & _ & Hidx);
    rewrite <- ?En2; try done; try lia.
  - unfold moderate. change (2 ^ 59) with 576460752303423488.
    split_and!; lia.
  - unfold aligned. rewrite Hvc. unfold norm_count, tex_count, color_count.
    rewrite LN, LT, (Z.mul_comm 3), (Z.mul_comm 2), !Z.div_mul by lia.
    split; [lia |]. split; [lia |].
    destruct Hclr as [-> | E]; [done |]. rewrite E in LC.
    rewrite LC, (Z.mul_comm 4), Z.div_mul by lia. lia.
  - by apply Forall_true.
  - rewrite <- En2 in KV, KN, KT, KC. rewrite Hvc in KV, KN, KT, KC.
    replace (Z.max 0 (n1 + n2 - n1)) with n2 in KV, KN, KT, KC by lia.
    assert (PV : Vtx ms1 `prefix_of` Vtx ms2)
      by (eapply kept_prefix; [exact KV | unfold len in *; lia]).
    assert (PN : Norm ms1 `prefix_of` Norm ms2)
      by (eapply kept_prefix; [exact KN | unfold len in *; lia]).
    assert (PT : Tex ms1 `prefix_of` Tex ms2)
      by (eapply kept_prefix; [exact KT | unfold len in *; lia]).
    assert (PC : Color ms1 `prefix_of` Color ms2)
      by (eapply kept_prefix; [exact KC | unfold len in *; lia]).
    apply kept_len in KV, KN, KT, KC.
    rewrite len_app, len_replicate in KV by lia.
    rewrite len_app, len_replicate in KN by lia.
    rewrite len_app, len_replicate in KT by lia.
    rewrite len_app, len_replicate in KC
      by (destruct (IsNil (p_clr p2)); cbn; lia).
    assert (PI : Idx ms1 `prefix_of` Idx ms2 /\
                 len (Idx ms2)
                 = len (Idx ms1)
                   + (if setIdx2
                      then plane_idx_size (p_wsegs p2) (p_hsegs p2)
                      else 0)).
    { destruct setIdx2.
      - destruct Hidx as (_ & Kidx & _). cbn [fst] in Kidx. split.
        + eapply kept_prefix; [exact Kidx | unfold len; lia].
        + apply kept_len in Kidx.
          rewrite len_app, len_replicate in Kidx
            by (unfold plane_idx_size in Hi2; lia).
          unfold plane_idx_size. lia.
      - rewrite Hidx. split; [done | lia]. }
    destruct PI as [PI LI2].
    exists ms1, ms2. split; [exact Hrun1 |]. split; [exact Hrun2 |].
    split.
    { rewrite AddPlane_as_SetPlane.
      destruct Hemp as (E1 & _ & _ & E4 & _).
      unfold vtx_count. by rewrite E1, E4. }
    split; [by rewrite AddPlane_as_SetPlane, Hvc |].
    split; [lia |]. split; [lia |]. split; [lia |]. split; [lia |].
    split; [destruct (IsNil (p_clr p2)); cbn in KC; lia |].
    split; [done |]. done.
Qed.

End Claims.

(** * Concrete runs

    The claims above at concrete inputs, and the inputs at which the
    statements that had to be amended fail. *)

(** C1 as stated fails on the mesh with no vertexes: its normal and
    texcoord counts equal its vertex count and it has no color, yet
    [Validate] returns an error. *)
Lemma Validate_empty_mesh_fails :
  ~ (Validate the_empty = Ret None <->
     norm_count the_empty = vtx_count the_empty /\
     tex_count the_empty = vtx_count the_empty /\
     (color_count the_empty = 0 \/
      color_count the_empty = vtx_count the_empty)).
Proof.
  intros [_ H].
  assert (Hv : Validate the_empty = Ret None).
  { apply H. split; [reflexivity |]. split; [reflexivity |]. by left. }
  discriminate Hv.
Qed.

Lemma PlaneSize_formula_witness :
  0 <= 0 /\ 0 <= 3 /\
  (1 + 1) * (3 + 1) <= Int.max_int /\ 1 * 3 * 6 <= Int.max_int /\
  PlaneSize the_empty 0 3
  = (Int.wrap ((1 + 1) * (3 + 1)), Int.wrap (1 * 3 * 6)) /\
  PlaneSize the_empty 0 3 = ((1 + 1) * (3 + 1), 1 * 3 * 6).
Proof.
  assert (H0 : 0 <= 0) by lia.
  assert (H3 : 0 <= 3) by lia.
  assert (Hv : (1 + 1) * (3 + 1) <= Int.max_int)
    by (vm_compute; discriminate).
  assert (Hi : 1 * 3 * 6 <= Int.max_int) by (vm_compute; discriminate).
  split; [exact H0 |]. split; [exact H3 |].
  split; [exact Hv |]. split; [exact Hi |].
  destruct (PlaneSize_formula the_empty 0 3 H0 H3) as [Hwrap Hexact].
  split; [exact Hwrap | exact (Hexact Hv Hi)].
Defined.

(** C3 as stated fails: the positions are not stored in the order (0,0,1),
    (0,2,1), (2,0,1), (2,2,1). *)
Lemma unit_quad_storage_order_differs :
  ~ (exists ms',
       SetPlane the_empty 0 0 true true true mat32.X mat32.Y 1 1
         (F32.of_int 2) (F32.of_int 2) (F32.of_int 0) (F32.of_int 0)
         (F32.of_int 1) 1 1 nil_color = Ok ms' /\
       Vtx ms' = height_inner_order).
Proof.
  intros (ms' & Hrun & Hv).
  vm_compute in Hrun. inversion Hrun; subst ms'.
  vm_compute in Hv. discriminate Hv.
Qed.

Lemma SetPlane_unit_quad_witness :
  is_empty the_empty /\ IsNil nil_color = true /\
  exists ms',
    SetPlane the_empty 0 0 true true true mat32.X mat32.Y 1 1
      (F32.of_int 2) (F32.of_int 2) (F32.of_int 0) (F32.of_int 0)
      (F32.of_int 1) 1 1 nil_color = Ok ms' /\
    Vtx ms' = map F32.of_int [0; 0; 1;  2; 0; 1;  0; 2; 1;  2; 2; 1] /\
    Idx ms' = [0; 2; 1;  2; 3; 1] /\
    Norm ms' = map F32.of_int [0; 0; 1;  0; 0; 1;  0; 0; 1;  0; 0; 1].
Proof.
  split; [repeat split |]. split; [reflexivity |].
  apply (SetPlane_unit_quad the_empty nil_color); [repeat split | reflexivity].
Defined.

Lemma SetPlane_indexes_witness :
  is_empty the_empty /\ plane_fits 3 2 /\
  exists ms',
    SetPlane_with the_empty 0 0 true true true grid_3x2 = Ok ms' /\
    len (Vtx ms') = 3 * ((3 + 1) * (2 + 1)) /\
    len (Idx ms') = 3 * 2 * 6 /\
    (6 | len (Idx ms')) /\
    (forall ix iy, 0 <= ix < 3 -> 0 <= iy < 2 ->
       slice (Idx ms') (Z.to_nat (6 * (ix + 3 * iy))) 6
       = cell_triangles 0 3 ix iy) /\
    Forall (fun v => 0 <= v < (3 + 1) * (2 + 1)) (Idx ms') /\
    ((3 + 1) * (2 + 1) <= 2 ^ 32 ->
     forall ix iy, 0 <= ix < 3 -> 0 <= iy < 2 ->
       let a := ix + (3 + 1) * iy in
       let b := ix + (3 + 1) * (iy + 1) in
       let c := (ix + 1) + (3 + 1) * (iy + 1) in
       let d := (ix + 1) + (3 + 1) * iy in
       slice (Idx ms') (Z.to_nat (6 * (ix + 3 * iy))) 6 = [a; b; d; b; c; d]).
Proof.
  assert (Hfit : plane_fits 3 2) by (vm_compute; discriminate).
  split; [repeat split |]. split; [exact Hfit |].
  apply (SetPlane_indexes the_empty true true grid_3x2);
    [repeat split | exact Hfit].
Defined.

(** C4 as stated fails on a plane of more than 2^32 vertexes: the indexes
    are stored as [uint32]. On the strip of 2^31 segments by one, the call
    returns and the last cell of the row holds 2147483647, 0, 2147483648,
    0, 1, 2147483648, where [b] is 2^32 and [c] is 2^32 + 1. *)
Lemma wide_strip_indexes_wrap :
  plane_fits (p_wsegs wide_strip) (p_hsegs wide_strip) /\
  (exists ms',
     SetPlane_with the_empty 0 0 true true true wide_strip = Ok ms' /\
     slice (Idx ms') (Z.to_nat (6 * (2147483647 + 2147483648 * 0))) 6
     = [2147483647; 0; 2147483648; 0; 1; 2147483648]) /\
  ~ (forall ms',
       SetPlane_with the_empty 0 0 true true true wide_strip = Ok ms' ->
       forall ix iy, 0 <= ix < 2147483648 -> 0 <= iy < 1 ->
         let a := ix + (2147483648 + 1) * iy in
         let b := ix + (2147483648 + 1) * (iy + 1) in
         let c := (ix + 1) + (2147483648 + 1) * (iy + 1) in
         let d := (ix + 1) + (2147483648 + 1) * iy in
         slice (Idx ms') (Z.to_nat (6 * (ix + 2147483648 * iy))) 6
         = [a; b; d; b; c; d]).
Proof.
  assert (Hfit : plane_fits (p_wsegs wide_strip) (p_hsegs wide_strip))
    by (vm_compute; discriminate).
  assert (Hemp : is_empty the_empty) by (repeat split).
  assert (Hix : 0 <= 2147483647 < Z.max (p_wsegs wide_strip) 1)
    by (vm_compute; split; [discriminate | reflexivity]).
  assert (Hiy : 0 <= 0 < Z.max (p_hsegs wide_strip) 1)
    by (vm_compute; split; [discriminate | reflexivity]).
  destruct (first_plane_cell the_empty true true wide_strip 2147483647 0
              Hemp Hfit Hix Hiy) as (ms' & Hrun & Hcell).
  change (Z.max (p_wsegs wide_strip) 1) with 2147483648 in Hcell.
  change (cell_triangles 0 2147483648 2147483647 0)
    with [2147483647; 0; 2147483648; 0; 1; 2147483648] in Hcell.
  split; [exact Hfit |]. split.
  - exists ms'. split; [exact Hrun | exact Hcell].
  - intros H.
    specialize (H ms' Hrun 2147483647 0 ltac:(lia) ltac:(lia)).
    cbv zeta in H. rewrite Hcell in H. discriminate H.
Qed.

(** C5 as stated fails when a colored plane follows an uncolored one: the
    first [AddPlane] returns and the second one panics, writing the color
    of its first vertex past the end of [Color]. *)
Lemma AddPlane_color_after_none_panics :
  (exists ms1,
     AddPlane_with the_empty unit_quad = Ok ms1 /\
     AddPlane_with ms1 red_quad = Panic IndexOutOfRange) /\
  ~ (exists ms1 ms2,
       AddPlane_with the_empty unit_quad = Ok ms1 /\
       AddPlane_with ms1 red_quad = Ok ms2).
Proof.
  split.
  - eexists. split; [vm_compute; reflexivity | vm_compute; reflexivity].
  - intros (ms1 & ms2 & H1 & H2).
    vm_compute in H1. inversion H1; subst ms1.
    vm_compute in H2. discriminate H2.
Qed.

Lemma append_two_planes_witness :
  is_empty the_empty /\
  plane_fits (p_wsegs red_quad) (p_hsegs red_quad) /\
  plane_fits (p_wsegs grid_3x2) (p_hsegs grid_3x2) /\
  (IsNil (p_clr grid_3x2) = true \/ IsNil (p_clr red_quad) = false) /\
  exists ms1 ms2,
    SetPlane_with the_empty 0 0 true true true red_quad = Ok ms1 /\
    SetPlane_with ms1 (p_vtx_size red_quad) (len (Idx ms1))
      true false true grid_3x2 = Ok ms2 /\
    AddPlane_with the_empty red_quad
    = SetPlane_with the_empty 0 0 true true true red_quad /\
    AddPlane_with ms1 grid_3x2
    = SetPlane_with ms1 (p_vtx_size red_quad) (len (Idx ms1))
        true true true grid_3x2 /\
    len (Vtx ms1) = 3 * p_vtx_size red_quad /\
    len (Vtx ms2) = 3 * (p_vtx_size red_quad + p_vtx_size grid_3x2) /\
    len (Norm ms2) = len (Norm ms1) + 3 * p_vtx_size grid_3x2 /\
    len (Tex ms2) = len (Tex ms1) + 2 * p_vtx_size grid_3x2 /\
    len (Color ms2)
    = len (Color ms1)
      + (if IsNil (p_clr grid_3x2) then 0 else 4 * p_vtx_size grid_3x2) /\
    len (Idx ms2) = len (Idx ms1) + (if true then p_idx_size grid_3x2 else 0) /\
    Vtx ms1 `prefix_of` Vtx ms2 /\
    Norm ms1 `prefix_of` Norm ms2 /\
    Tex ms1 `prefix_of` Tex ms2 /\
    Color ms1 `prefix_of` Color ms2 /\
    Idx ms1 `prefix_of` Idx ms2.
Proof.
  assert (Hf1 : plane_fits (p_wsegs red_quad) (p_hsegs red_quad))
    by (vm_compute; discriminate).
  assert (Hf2 : plane_fits (p_wsegs grid_3x2) (p_hsegs grid_3x2))
    by (vm_compute; discriminate).
  split; [repeat split |]. split; [exact Hf1 |]. split; [exact Hf2 |].
  split; [left; reflexivity |].
  apply (append_two_planes the_empty true true true true false true
           red_quad grid_3x2);
    [repeat split | exact Hf1 | exact Hf2 | left; reflexivity].
Defined.

Lemma SetPlane_flat_normal_witness :
  p_waxis grid_3x2 <> p_haxis grid_3x2 /\
  0 <= 4 <= 2 ^ 56 /\ 0 <= 6 <= 2 ^ 59 /\
  plane_fits (p_wsegs grid_3x2) (p_hsegs grid_3x2) /\
  moderate red_mesh /\ aligned red_mesh (negb (IsNil (p_clr grid_3x2))) /\
  exists ms' w,
    SetPlane_with red_mesh 4 6 true true true grid_3x2 = Ok ms' /\
    w <> p_waxis grid_3x2 /\ w <> p_haxis grid_3x2 /\
    (forall j, 0 <= j < p_vtx_size grid_3x2 ->
       slice (Norm ms') (Z.to_nat (3 * (4 + j))) 3
       = Vec3_floats
           (axis_vector w
              (F32.of_int (if strictly_positive (p_zoff grid_3x2)
                           then 1 else -1)))) /\
    (forall s, strictly_positive (S754_zero s) = false).
Proof.
  assert (Hax : p_waxis grid_3x2 <> p_haxis grid_3x2) by discriminate.
  assert (Hv : 0 <= 4 <= 2 ^ 56) by (vm_compute; split; discriminate).
  assert (Hi : 0 <= 6 <= 2 ^ 59) by (vm_compute; split; discriminate).
  assert (Hf : plane_fits (p_wsegs grid_3x2) (p_hsegs grid_3x2))
    by (vm_compute; discriminate).
  assert (Hm : moderate red_mesh) by (vm_compute; repeat split; discriminate).
  assert (Ha : aligned red_mesh (negb (IsNil (p_clr grid_3x2))))
    by (vm_compute; repeat split; discriminate).
  split; [exact Hax |]. split; [exact Hv |]. split; [exact Hi |].
  split; [exact Hf |]. split; [exact Hm |]. split; [exact Ha |].
  exact (SetPlane_flat_normal red_mesh 4 6 true true grid_3x2
           Hax Hv Hi Hf Hm Ha).
Defined.

Lemma MakeVectors_rejects_invalid_witness :
  returns (Validate short_norm_mesh) (Some short_norm_error) /\
  returns (MakeVectors short_norm_mesh sample_scene)
    (Some short_norm_error, short_norm_mesh) /\
  no_gpu_call (MakeVectors short_norm_mesh sample_scene) /\
  log_of (MakeVectors short_norm_mesh sample_scene)
  = log_of (Validate short_norm_mesh).
Proof.
  assert (Hret : returns (Validate short_norm_mesh) (Some short_norm_error))
    by (intros []; reflexivity).
  split; [exact Hret |].
  exact (MakeVectors_rejects_invalid short_norm_mesh sample_scene
           short_norm_error Hret).
Defined.

(** C9 as stated fails: [Reset] on a mesh bound to a buffer manager leaves
    that buffer manager in [Buff]. *)
Lemma Reset_does_not_release_Buff :
  ~ (forall b, Buff bound_mesh = Some b -> Buff (Reset bound_mesh) <> Some b).
Proof. intros H. by apply (H 7%nat). Qed.

Lemma nil_color_keeps_Color_witness :
  IsNil (p_clr unit_quad) = true /\
  moderate red_mesh /\
  plane_fits (p_wsegs unit_quad) (p_hsegs unit_quad) /\
  norm_count red_mesh = vtx_count red_mesh /\
  tex_count red_mesh = vtx_count red_mesh /\
  color_count red_mesh = vtx_count red_mesh /\
  0 < color_count red_mesh /\
  (forall stVtxIdx stIdxIdx setNorm setTex setIdx ms',
     SetPlane_with red_mesh stVtxIdx stIdxIdx setNorm setTex setIdx unit_quad
     = Ok ms' ->
     Color ms' = Color red_mesh) /\
  (forall ms', AddPlane_with red_mesh unit_quad = Ok ms' ->
               Color ms' = Color red_mesh) /\
  exists ms',
    AddPlane_with red_mesh unit_quad = Ok ms' /\
    Color ms' = Color red_mesh /\
    vtx_count ms' = vtx_count red_mesh + p_vtx_size unit_quad /\
    color_count ms' < vtx_count ms' /\
    ~ color_invariant ms'.
Proof.
  assert (Hnil : IsNil (p_clr unit_quad) = true) by reflexivity.
  assert (Hm : moderate red_mesh) by (vm_compute; repeat split; discriminate).
  assert (Hf : plane_fits (p_wsegs unit_quad) (p_hsegs unit_quad))
    by (vm_compute; discriminate).
  assert (HN : norm_count red_mesh = vtx_count red_mesh)
    by (vm_compute; reflexivity).
  assert (HT : tex_count red_mesh = vtx_count red_mesh)
    by (vm_compute; reflexivity).
  assert (HC : color_count red_mesh = vtx_count red_mesh)
    by (vm_compute; reflexivity).
  assert (Hpos : 0 < color_count red_mesh) by (vm_compute; reflexivity).
  destruct (nil_color_keeps_Color red_mesh unit_quad Hnil)
    as (Hset & Hadd & Hmix).
  split; [exact Hnil |]. split; [exact Hm |]. split; [exact Hf |].
  split; [exact HN |]. split; [exact HT |]. split; [exact HC |].
  split; [exact Hpos |]. split; [exact Hset |]. split; [exact Hadd |].
  exact (Hmix Hm Hf HN HT HC Hpos).
Defined.

(** * More of [MeshBase] *)

Section MoreFacts.

Context `{Ext : External}.

(** ** [Validate], [Reset] and the queries *)

(** [Validate] reads the lengths of the arrays only. *)
Lemma Validate_lengths (ms ms' : MeshBase) :
  len (Vtx ms') = len (Vtx ms) -> len (Norm ms') = len (Norm ms) ->
  len (Tex ms') = len (Tex ms) -> len (Color ms') = len (Color ms) ->
  Validate ms' = Validate ms.
Proof. intros HV HN HT HC. unfold Validate. by rewrite HV, HN, HT, HC. Qed.

(** X1. A mesh that was reset cannot be compiled: [Validate] and
    [MakeVectors] return the "has no verticies" error on it, whatever the
    mesh held before, and it has no color and is not transparent, whatever
    its [Trans] flag. *)
Theorem Reset_mesh_is_rejected (ms : MeshBase) (sc : Scene) :
  Validate (Reset ms) = log_and_return err_no_verticies /\
  returns (MakeVectors (Reset ms) sc) (Some err_no_verticies, Reset ms) /\
  no_gpu_call (MakeVectors (Reset ms) sc) /\
  HasColor (Reset ms) = false /\
  IsTransparent (Reset ms) = false.
Proof.
  split; [done |]. split; [by intros [] |].
  split; [split; [done | by intros []] |]. done.
Qed.

(** ** [MakeVectors] on a valid mesh *)

(** X2. When [Validate] succeeds, every run of [MakeVectors] returns no
    error, logs nothing and changes no field of the mesh but [Buff]. A
    buffer manager that the mesh has is kept and none is created, nor any
    buffer added; a mesh without one gets the manager that the one
    [NewBufferMgr] call of the run returns, with a vectors buffer whose
    usage is [DynamicDraw] exactly when the mesh is [Dynamic] and an
    indexes buffer that is always [StaticDraw]. *)
Theorem MakeVectors_buffer_manager (ms : MeshBase) (sc : Scene) :
  Validate ms = Ret None ->
  every_run (MakeVectors ms sc) (fun tr r =>
    fst r = None /\ logged tr = [] /\
    exists b, snd r = set_Buff ms (Some b) /\
      match Buff ms with
      | Some b0 => b = b0 /\ created tr = [] /\ usages tr = []
      | None =>
          created tr = [b] /\
          usages tr = [(true, if Dynamic ms then DynamicDraw else StaticDraw);
                       (false, StaticDraw)]
      end).
Proof.
  intros Hv. unfold MakeVectors. rewrite Hv. cbn [bind].
  destruct ms as [nm dy tr0 vt nr tx ix cl bb [b0 |]]; cbn;
    intros; destruct (HasColor _); cbn;
    repeat match goal with
           | |- context [if ?c then _ else _] => destruct c; cbn
           | |- forall _, _ => intros
           end;
    (split; [done |]); (split; [done |]); eexists; (split; [reflexivity |]);
    done.
Qed.

(** X3. When [Validate] succeeds, every run of [MakeVectors] sets the
    length of the vectors buffer to the vertex count [len(Vtx)/3] and the
    length of the indexes buffer to [len(Idx)], and sends the arrays
    [Vtx], [Norm], [Tex] in this order on the position, normal and texture
    slots of the scene, then [Color] on the color slot exactly when the
    mesh has color, and [Idx]. *)
Theorem MakeVectors_uploads (ms : MeshBase) (sc : Scene) :
  Validate ms = Ret None ->
  every_run (MakeVectors ms sc) (fun tr r =>
    vec_lens tr = [vtx_count ms] /\
    vec_data tr
    = [(Renders_Vectors sc InVtxPos, Vtx ms);
       (Renders_Vectors sc InVtxNorm, Norm ms);
       (Renders_Vectors sc InVtxTex, Tex ms)]
      ++ (if HasColor ms then [(Renders_Vectors sc InVtxColor, Color ms)]
          else []) /\
    idx_lens tr = [len (Idx ms)] /\
    idx_data tr = [Idx ms]).
Proof.
  intros Hv. unfold MakeVectors. rewrite Hv. cbn [bind].
  assert (Hq : Int.quo (len (Vtx ms)) 3 = vtx_count ms)
    by (apply quo_count; lia).
  destruct ms as [nm dy tr0 vt nr tx ix cl bb [b0 |]]; cbn in *;
    intros; destruct (HasColor _); cbn;
    repeat match goal with
           | |- context [if ?c then _ else _] => destruct c; cbn
           | |- forall _, _ => intros
           end;
    rewrite ?Hq; done.
Qed.

(** X4. When [Validate] succeeds, every run of [MakeVectors] asks the
    vectors buffer for its number of vectors once. If the answer is 3 for
    a mesh without color, or 4 for a mesh with color, the vectors are left
    as they are; otherwise they are all deleted once and added again:
    position, normal and texture interleaved, then color, not interleaved,
    exactly when the mesh has color. *)
Theorem MakeVectors_rebuilds_vectors (ms : MeshBase) (sc : Scene) :
  Validate ms = Ret None ->
  every_run (MakeVectors ms sc) (fun tr r =>
    exists n, num_vectors tr = [n] /\
      if n =? (if HasColor ms then 4 else 3)
      then deletions tr = O /\ added tr = []
      else deletions tr = 1%nat /\
           added tr
           = [(Renders_Vectors sc InVtxPos, true);
              (Renders_Vectors sc InVtxNorm, true);
              (Renders_Vectors sc InVtxTex, true)]
             ++ (if HasColor ms then [(Renders_Vectors sc InVtxColor, false)]
                 else [])).
Proof.
  intros Hv. unfold MakeVectors. rewrite Hv. cbn [bind].
  destruct ms as [nm dy tr0 vt nr tx ix cl bb [b0 |]]; cbn;
    intros; destruct (HasColor _); cbn;
    change (Int.add 3 1) with 4;
    match goal with n : Z |- _ => destruct (n =? _) eqn:E end; cbn; intros;
    eexists; (split; [reflexivity |]); rewrite E; done.
Qed.

End MoreFacts.

(** * The closed form of [SetPlane] *)

(** ** Blocks of values *)

Lemma splice_app_r {A : Type} (a W v : list A) (p : nat) :
  (p + length W + length v <= length a)%nat ->
  splice (splice a p W) (p + length W) v = splice a p (W ++ v).
Proof.
  intros Hl. unfold splice.
  rewrite (app_assoc (take p a) W).
  rewrite take_app_length' by (rewrite length_app, length_take; lia).
  rewrite drop_app_ge by (rewrite length_app, length_take; lia).
  rewrite length_app, length_take, drop_drop, <- !app_assoc.
  rewrite (length_app W v).
  repeat (apply (f_equal2 app); [reflexivity |]).
  f_equal. lia.
Qed.

Lemma write_block {A : Type} (a W v : list A) (p pos : Z) :
  0 <= p -> pos = p + len W -> pos + len v <= len a ->
  len a <= 9223372036854775807 ->
  arr_write (splice a (Z.to_nat p) W) pos v
  = Ok (splice a (Z.to_nat p) (W ++ v)).
Proof.
  intros Hp -> Hl Hm. unfold len in *.
  rewrite arr_write_ok
    by (unfold len; rewrite ?splice_length; unfold len in *; lia).
  f_equal.
  replace (Z.to_nat (p + Z.of_nat (length W)))
    with (Z.to_nat p + length W)%nat by lia.
  apply splice_app_r. lia.
Qed.

Lemma splice_nil {A : Type} (a : list A) (p : nat) : splice a p [] = a.
Proof. unfold splice. simpl. by rewrite Nat.add_0_r, take_drop. Qed.

Lemma splice_splice {A : Type} (a v v' : list A) (p : nat) :
  length v' = length v -> (p + length v <= length a)%nat ->
  splice (splice a p v) p v' = splice a p v'.
Proof.
  intros Hv Hl. unfold splice.
  rewrite take_app_length' by (rewrite length_take; lia).
  rewrite (app_assoc (take p a) v).
  rewrite drop_app_length' by (rewrite length_app, length_take; lia).
  by rewrite Hv.
Qed.

Lemma length_flat_map_const {A B : Type} (f : B -> list A) (c : nat)
    (l : list B) :
  (forall x, length (f x) = c) -> length (flat_map f l) = (c * length l)%nat.
Proof.
  intros Hf. induction l as [| x l IH]; simpl; [lia |].
  rewrite length_app, Hf, IH. lia.
Qed.

Lemma seqZ_snoc (n : Z) : 0 <= n -> seqZ 0 (n + 1) = seqZ 0 n ++ [n].
Proof.
  intros Hn. rewrite seqZ_app by lia. f_equal.
Qed.

Section Grid.

Context {A : Type} (f : Z -> Z -> list A) (c : nat).
Hypothesis Hf : forall x y, length (f x y) = c.

Lemma grid_part_start (n : Z) : grid_part n 0 0 f = [].
Proof. reflexivity. Qed.

Lemma grid_part_next (n iy ix : Z) :
  0 <= ix -> grid_part n iy (ix + 1) f = grid_part n iy ix f ++ f ix iy.
Proof.
  intros Hix. unfold grid_part.
  rewrite seqZ_snoc by done. rewrite flat_map_app. simpl.
  by rewrite app_nil_r, app_assoc.
Qed.

Lemma grid_part_row (n iy : Z) :
  0 <= iy -> grid_part n iy n f = grid_part n (iy + 1) 0 f.
Proof.
  intros Hiy. unfold grid_part.
  rewrite (seqZ_snoc iy) by done. rewrite flat_map_app. simpl.
  by rewrite !app_nil_r.
Qed.

Lemma grid_part_all (n m : Z) : grid_part n m 0 f = grid n m f.
Proof. unfold grid_part, grid. simpl. by rewrite app_nil_r. Qed.

Lemma grid_part_len (n iy ix : Z) :
  0 <= n -> 0 <= iy -> 0 <= ix ->
  len (grid_part n iy ix f) = Z.of_nat c * (ix + n * iy).
Proof.
  intros Hn Hiy Hix. unfold len, grid_part.
  rewrite length_app.
  rewrite (length_flat_map_const _ (c * Z.to_nat n)).
  - rewrite (length_flat_map_const _ c) by (intros; apply Hf).
    rewrite !length_seqZ. 
    rewrite Nat2Z.inj_add, !Nat2Z.inj_mul, !Z2Nat.id by lia. ring.
  - intros y. rewrite (length_flat_map_const _ c) by (intros; apply Hf).
    by rewrite length_seqZ.
Qed.

Lemma grid_len (n m : Z) :
  0 <= n -> 0 <= m -> len (grid n m f) = Z.of_nat c * (n * m).
Proof.
  intros Hn Hm. by rewrite <- grid_part_all, grid_part_len by lia.
Qed.

End Grid.

(** ** The vertex loop, exactly *)

Lemma SetDim_absorbs (v : mat32.Vec3) (waxis haxis w : mat32.Dims)
    (a b c a' b' c' : float32) :
  mat32.Vec3_SetDim
    (mat32.Vec3_SetDim
       (mat32.Vec3_SetDim
          (mat32.Vec3_SetDim
             (mat32.Vec3_SetDim (mat32.Vec3_SetDim v waxis a') haxis b')
             w c')
          waxis a) haxis b) w c
  = mat32.Vec3_SetDim
      (mat32.Vec3_SetDim (mat32.Vec3_SetDim v waxis a) haxis b) w c.
Proof. by destruct v, waxis, haxis, w. Qed.

Section ExactVertexLoop.

Context `{Ext : External}.

Variables (ms1 : MeshBase) (stVtxIdx n m : Z).
Variables (setNorm setTex hasColor : bool).
Variables (waxis haxis w : mat32.Dims).
Variables (fwdir fhdir segWidth segHeight woff hoff zoff : float32).
Variables (wsegs hsegs : Z).
Variables (norm : mat32.Vec3) (clrv : mat32.Vec4).

Hypothesis HstV : 0 <= stVtxIdx.
Hypothesis Hn : 0 <= n.
Hypothesis Hm : 0 <= m.
Hypothesis HVtx : 3 * (stVtxIdx + n * m) <= len (Vtx ms1).
Hypothesis HNorm : setNorm = true -> 3 * (stVtxIdx + n * m) <= len (Norm ms1).
Hypothesis HTex : setTex = true -> 2 * (stVtxIdx + n * m) <= len (Tex ms1).
Hypothesis HColor :
  hasColor = true -> 4 * (stVtxIdx + n * m) <= len (Color ms1).
Hypothesis HmaxV : len (Vtx ms1) <= 4611686018427387904.
Hypothesis HmaxN : len (Norm ms1) <= 4611686018427387904.
Hypothesis HmaxT : len (Tex ms1) <= 4611686018427387904.
Hypothesis HmaxC : len (Color ms1) <= 4611686018427387904.

Lemma vertex_exact_step (iy ix : Z) (s : PlaneLoop) :
  0 <= ix < n -> 0 <= iy < m ->
  vertex_exact ms1 stVtxIdx setNorm setTex hasColor waxis haxis w norm clrv
    (vertex_at waxis haxis w fwdir fhdir segWidth segHeight woff hoff zoff)
    (uv_at wsegs hsegs) n iy ix s ->
  exists s',
    plane_vertex setNorm setTex hasColor waxis haxis w fwdir fhdir
      segWidth segHeight woff hoff zoff wsegs hsegs norm clrv iy ix s
    = Ok s' /\
    vertex_exact ms1 stVtxIdx setNorm setTex hasColor waxis haxis w norm clrv
      (vertex_at waxis haxis w fwdir fhdir segWidth segHeight woff hoff zoff)
      (uv_at wsegs hsegs) n iy (ix + 1) s'.
Proof.
  intros Hix Hiy. destruct s as [ms vtx tex vidx tidx cidx].
  intros (Hvi & Hti & Hci & EV & EN & ET & EC & HI & HH & Habs).
  cbn [l_ms l_vtx l_tex l_vidx l_tidx l_cidx] in *. subst vidx tidx cidx.
  destruct (row_major_inside n m ix iy Hix Hiy) as [H0 Hnm].
  unfold plane_vertex.
  cbn [l_ms l_vtx l_tex l_vidx l_tidx l_cidx].
  unfold mat32.Vec3_ToArray, mat32.Vec2_ToArray, mat32.Vec4_ToArray.
  rewrite Habs.
  fold (vertex_at waxis haxis w fwdir fhdir segWidth segHeight woff hoff zoff
          ix iy).
  fold (uv_at wsegs hsegs ix iy).
  set (pos := vertex_at _ _ _ _ _ _ _ _ _ _) in *.
  set (uv := uv_at _ _) in *.
  change [mat32.v3X (pos ix iy); mat32.v3Y (pos ix iy); mat32.v3Z (pos ix iy)]
    with (Vec3_floats (pos ix iy)).
  change [mat32.v3X norm; mat32.v3Y norm; mat32.v3Z norm]
    with (Vec3_floats norm).
  change [mat32.v2X (uv ix iy); mat32.v2Y (uv ix iy)]
    with (Vec2_floats (uv ix iy)).
  change [mat32.v4X clrv; mat32.v4Y clrv; mat32.v4Z clrv; mat32.v4W clrv]
    with (Vec4_floats clrv).
  assert (LV : len (grid_part n iy ix (fun x y => Vec3_floats (pos x y)))
               = 3 * (ix + n * iy))
    by (by rewrite (grid_part_len _ 3) by (done || lia)).
  assert (LN : len (grid_part n iy ix (fun _ _ : Z => Vec3_floats norm))
               = 3 * (ix + n * iy))
    by (by rewrite (grid_part_len _ 3) by (done || lia)).
  assert (LT : len (grid_part n iy ix (fun x y => Vec2_floats (uv x y)))
               = 2 * (ix + n * iy))
    by (by rewrite (grid_part_len _ 2) by (done || lia)).
  assert (LC : len (grid_part n iy ix (fun _ _ : Z => Vec4_floats clrv))
               = 4 * (ix + n * iy))
    by (by rewrite (grid_part_len _ 4) by (done || lia)).
  rewrite EV.
  rewrite write_block by (rewrite ?LV; unfold len in *; simpl length; lia).
  cbn [rbind set_Vtx Vtx Norm Tex Color].
  destruct setNorm eqn:ESN;
    [ specialize (HNorm eq_refl); rewrite EN;
      rewrite write_block by (rewrite ?LN; unfold len in *; simpl length; lia) |];
    cbn [rbind set_Vtx set_Norm Vtx Norm Tex Color];
    (destruct setTex eqn:EST;
     [ specialize (HTex eq_refl); rewrite ET;
       rewrite write_block by (rewrite ?LT; unfold len in *; simpl length; lia) |]);
    cbn [rbind set_Vtx set_Norm set_Tex Vtx Norm Tex Color];
    (destruct hasColor eqn:EHC;
     [ specialize (HColor eq_refl); rewrite EC;
       rewrite write_block by (rewrite ?LC; unfold len in *; simpl length; lia) |]);
    cbn [rbind set_Vtx set_Norm set_Tex set_Color Vtx Norm Tex Color];
    (eexists; split; [reflexivity |]);
    unfold vertex_exact, same_header in *;
    destruct HH as (? & ? & ? & ? & ?);
    cbn [l_ms l_vtx l_vidx l_tidx l_cidx set_Vtx set_Norm set_Tex set_Color
         Vtx Norm Tex Color Idx Nm Dynamic Trans BBox Buff];
    int_simpl;
    rewrite !grid_part_next by lia;
    split_and!;
    try first
      [ lia
      | done
      | intros; unfold pos, vertex_at; apply SetDim_absorbs ].
Qed.

Lemma vertex_exact_loop (s0 : PlaneLoop) :
  vertex_exact ms1 stVtxIdx setNorm setTex hasColor waxis haxis w norm clrv
    (vertex_at waxis haxis w fwdir fhdir segWidth segHeight woff hoff zoff)
    (uv_at wsegs hsegs) n 0 0 s0 ->
  exists s',
    for_int m (fun iy s =>
      for_int n (fun ix s =>
        plane_vertex setNorm setTex hasColor waxis haxis w fwdir fhdir
          segWidth segHeight woff hoff zoff wsegs hsegs norm clrv
          iy ix s) s) s0
    = Ok s' /\
    vertex_exact ms1 stVtxIdx setNorm setTex hasColor waxis haxis w norm clrv
      (vertex_at waxis haxis w fwdir fhdir segWidth segHeight woff hoff zoff)
      (uv_at wsegs hsegs) n m 0 s'.
Proof.
  intros Hinv0.
  apply (for_int_inv
    (fun iy s =>
       vertex_exact ms1 stVtxIdx setNorm setTex hasColor waxis haxis w norm
         clrv
         (vertex_at waxis haxis w fwdir fhdir segWidth segHeight woff hoff
            zoff)
         (uv_at wsegs hsegs) n iy 0 s)); [done | done |].
  intros iy s Hiy Hs.
  destruct (for_int_inv
    (fun ix s =>
       vertex_exact ms1 stVtxIdx setNorm setTex hasColor waxis haxis w norm
         clrv
         (vertex_at waxis haxis w fwdir fhdir segWidth segHeight woff hoff
            zoff)
         (uv_at wsegs hsegs) n iy ix s)
    (fun ix s =>
       plane_vertex setNorm setTex hasColor waxis haxis w fwdir fhdir
         segWidth segHeight woff hoff zoff wsegs hsegs norm clrv iy ix s)
    n s) as (s' & Hrun & Hinv); [done | done | |].
  - intros ix s1 Hix. by apply vertex_exact_step.
  - exists s'. split; [done |].
    unfold vertex_exact in *.
    rewrite !grid_part_row in Hinv by lia.
    replace (0 + n * (iy + 1)) with (n + n * iy) by lia.
    exact Hinv.
Qed.

End ExactVertexLoop.

(** ** The index loop, exactly *)

Section ExactIndexLoop.

Variables (idx0 : ArrayU32) (stVtxIdx stIdxIdx wsegs hsegs : Z).

Hypothesis HstV : 0 <= stVtxIdx.
Hypothesis HstI : 0 <= stIdxIdx.
Hypothesis Hw : 1 <= wsegs.
Hypothesis Hh : 1 <= hsegs.
Hypothesis Hbig :
  stVtxIdx + (wsegs + 1) * (hsegs + 1) <= 2305843009213693952.
Hypothesis Hlen : stIdxIdx + 6 * (wsegs * hsegs) <= len idx0.
Hypothesis Hmax : len idx0 <= 9223372036854775807.

Lemma index_exact_step (iy ix : Z) (s : ArrayU32 * int) :
  0 <= ix < wsegs -> 0 <= iy < hsegs ->
  index_exact idx0 stVtxIdx stIdxIdx wsegs iy ix s ->
  exists s', plane_cell stVtxIdx (Int.add wsegs 1) iy ix s = Ok s' /\
             index_exact idx0 stVtxIdx stIdxIdx wsegs iy (ix + 1) s'.
Proof.
  intros Hix Hiy. destruct s as [idx sidx].
  intros (Hs & Hidx). simpl in Hs, Hidx. subst sidx idx.
  destruct (row_major_inside wsegs hsegs ix iy Hix Hiy) as [H0 Hwh].
  assert (Hexp : (wsegs + 1) * (hsegs + 1)
                 = wsegs * hsegs + wsegs + hsegs + 1) by ring.
  assert (Ha : (wsegs + 1) * iy = wsegs * iy + iy) by ring.
  assert (Hb : (wsegs + 1) * (iy + 1) = wsegs * iy + wsegs + iy + 1) by ring.
  unfold plane_cell, mat32.ArrayU32_Set.
  unfold Int.add, Int.mul.
  rewrite (wrap_small (wsegs + 1)) by lia.
  rewrite (wrap_small (iy + 1)) by lia.
  rewrite (wrap_small (ix + 1)) by lia.
  rewrite (wrap_small ((wsegs + 1) * iy)) by lia.
  rewrite (wrap_small ((wsegs + 1) * (iy + 1))) by lia.
  rewrite (wrap_small (ix + (wsegs + 1) * iy)) by lia.
  rewrite (wrap_small (ix + (wsegs + 1) * (iy + 1))) by lia.
  rewrite (wrap_small (ix + 1 + (wsegs + 1) * iy)) by lia.
  rewrite (wrap_small (ix + 1 + (wsegs + 1) * (iy + 1))) by lia.
  rewrite !(wrap_small (_ + stVtxIdx)) by lia.
  rewrite (wrap_small (stIdxIdx + 6 * (ix + wsegs * iy) + 6)) by lia.
  fold (cell_triangles stVtxIdx wsegs ix iy).
  assert (LI : len (grid_part wsegs iy ix (cell_triangles stVtxIdx wsegs))
               = 6 * (ix + wsegs * iy))
    by (by rewrite (grid_part_len _ 6) by (done || lia)).
  rewrite write_block by (rewrite ?LI; unfold len in *; simpl length; lia).
  cbn [rbind]. eexists. split; [reflexivity |].
  split; cbn [fst snd]; [lia |].
  by rewrite grid_part_next by lia.
Qed.

Lemma index_exact_loop :
  for_int hsegs (fun iy s =>
    for_int wsegs (fun ix s =>
      plane_cell stVtxIdx (Int.add wsegs 1) iy ix s) s) (idx0, stIdxIdx)
  = Ok (splice idx0 (Z.to_nat stIdxIdx)
          (grid wsegs hsegs (cell_triangles stVtxIdx wsegs)),
        stIdxIdx + 6 * (wsegs * hsegs)).
Proof.
  destruct (for_int_inv
    (fun iy s => index_exact idx0 stVtxIdx stIdxIdx wsegs iy 0 s)
    (fun iy s => for_int wsegs (fun ix s =>
       plane_cell stVtxIdx (Int.add wsegs 1) iy ix s) s)
    hsegs (idx0, stIdxIdx)) as ([idx' sidx'] & Hrun & Hs & Hidx).
  - lia.
  - split; cbn [fst snd]; [lia |].
    by rewrite grid_part_start, splice_nil.
  - intros iy s Hiy Hinv.
    destruct (for_int_inv
      (fun ix s => index_exact idx0 stVtxIdx stIdxIdx wsegs iy ix s)
      (fun ix s => plane_cell stVtxIdx (Int.add wsegs 1) iy ix s)
      wsegs s) as (s' & Hrun & Hs & Hidx).
    + lia.
    + done.
    + intros ix s0 Hix. by apply index_exact_step.
    + exists s'. split; [done |].
      split; [lia |]. by rewrite <- grid_part_row by lia.
  - rewrite Hrun. cbn [fst snd] in Hs, Hidx.
    rewrite grid_part_all in Hidx. f_equal. f_equal; [done | lia].
Qed.

End ExactIndexLoop.

(** ** [SetPlane], exactly *)

Section ExactPlane.

Context `{Ext : External}.

Lemma SetPlane_exact (ms : MeshBase) (stVtxIdx stIdxIdx : Z)
    (setNorm setTex setIdx : bool) (p : PlaneArgs) :
  0 <= stVtxIdx <= 288230376151711744 ->
  0 <= stIdxIdx <= 1152921504606846976 ->
  p_vtx_size p <= 288230376151711744 ->
  moderate ms ->
  aligned ms (negb (IsNil (p_clr p))) ->
  SetPlane_with ms stVtxIdx stIdxIdx setNorm setTex setIdx p
  = Ok (SetPlane_closed ms stVtxIdx stIdxIdx setNorm setTex setIdx p).
Proof.
  destruct p as [waxis haxis wdir hdir width height woff hoff zoff
                   wsegs hsegs clr].
  unfold SetPlane_with, SetPlane_closed, p_vtx_size, p_idx_size,
    plane_Vtx, plane_Norm, plane_Tex, plane_Color, plane_Idx, plane_point,
    plane_uv.
  cbn [p_waxis p_haxis p_wdir p_hdir p_width p_height p_woff p_hoff p_zoff
       p_wsegs p_hsegs p_clr].
  intros HstV HstI Hsz Hmod (HaN & HaT & HaC).
  set (w := Z.max wsegs 1). set (h := Z.max hsegs 1).
  set (dif := Z.max 0 (stVtxIdx + plane_vtx_size wsegs hsegs - vtx_count ms)).
  destruct (PlaneSize_clamped ms wsegs hsegs Hsz) as [HPS _].
  pose proof Hmod as Hmod'.
  apply moderate_bounds in Hmod' as (HV & HN & HT & HC & HI).
  assert (Hw : 1 <= w) by (subst w; lia).
  assert (Hh : 1 <= h) by (subst h; lia).
  assert (Hcnt : plane_vtx_size wsegs hsegs = (w + 1) * (h + 1)) by done.
  assert (Hicnt : plane_idx_size wsegs hsegs = w * h * 6) by done.
  assert (Hexp : (w + 1) * (h + 1) = w * h + w + h + 1) by ring.
  assert (0 < w * h) by (apply Z.mul_pos_pos; lia).
  destruct (count_bounds (Vtx ms) 3) as [? ?]; [lia |].
  destruct (count_bounds (Norm ms) 3) as [? ?]; [lia |].
  destruct (count_bounds (Tex ms) 2) as [? ?]; [lia |].
  destruct (count_bounds (Color ms) 4) as [? ?]; [lia |].
  unfold vtx_count, norm_count, tex_count, color_count in HaN, HaT, HaC.
  assert (Hdif : dif = Z.max 0 (stVtxIdx + (w + 1) * (h + 1)
                                - len (Vtx ms) / 3)) by done.
  assert (Ew1 : Int.add w 1 = w + 1)
    by (unfold Int.add; rewrite wrap_small; lia).
  assert (Eh1 : Int.add h 1 = h + 1)
    by (unfold Int.add; rewrite wrap_small; lia).
  unfold SetPlane. rewrite HPS.
  destruct (plane_extend_ok ms stVtxIdx (plane_vtx_size wsegs hsegs)
              (negb (IsNil clr)))
    as (ms0 & Hext & EV & EN & ET & EC & EI & EH); try done; try lia.
  rewrite Hext. cbn [rbind].
  fold dif in EV, EN, ET, EC.
  unfold MaxInt. fold w h.
  assert (LV0 : len (Vtx ms0) = len (Vtx ms) + dif * 3)
    by (rewrite EV, len_app, len_replicate; lia).
  assert (LN0 : len (Norm ms0) = len (Norm ms) + dif * 3)
    by (rewrite EN, len_app, len_replicate; lia).
  assert (LT0 : len (Tex ms0) = len (Tex ms) + dif * 2)
    by (rewrite ET, len_app, len_replicate; lia).
  assert (LC0 : len (Color ms0)
                = len (Color ms) + (if negb (IsNil clr) then dif * 4 else 0))
    by (rewrite EC, len_app, len_replicate; destruct (negb (IsNil clr)); lia).
  rewrite Ew1, Eh1.
  match goal with
  | |- context [rbind (for_int _ _ ?init) _] =>
      destruct (vertex_exact_loop ms0 stVtxIdx (w + 1) (h + 1)
                  setNorm setTex (negb (IsNil clr)) waxis haxis
                  (plane_w waxis haxis) (F32.of_int wdir) (F32.of_int hdir)
                  (F32.div width (F32.of_int w))
                  (F32.div height (F32.of_int h))
                  (if wdir <? 0 then F32.add width woff else woff)
                  (if hdir <? 0 then F32.add height hoff else hoff)
                  zoff w h (plane_norm (plane_w waxis haxis) zoff)
                  (ColorToVec4f clr)) with (s0 := init)
        as ([ms1 vtx1 tex1 vidx1 tidx1 cidx1] & Hrun & Hinv)
  end; try lia.
  { intros E. specialize (HaC E). rewrite E in LC0. lia. }
  { destruct (negb (IsNil clr)); lia. }
  { unfold vertex_exact. cbn [l_ms l_vtx l_vidx l_tidx l_cidx].
    unfold Int.mul. rewrite !wrap_small by lia.
    rewrite !grid_part_start, !splice_nil.
    split_and!; try done;
      destruct setNorm, setTex, (negb (IsNil clr)); done || lia. }
  rewrite Hrun. cbn [rbind l_ms].
  destruct Hinv as (_ & _ & _ & FV & FN & FT & FC & FI & FH & _).
  cbn [l_ms] in *.
  rewrite !grid_part_all in FV, FN, FT, FC.
  rewrite EV in FV. rewrite EN in FN. rewrite ET in FT. rewrite EC in FC.
  destruct EH as (? & ? & ? & ? & ?), FH as (? & ? & ? & ? & ?).
  assert (Hms1 : ms1 = mkMeshBase (Nm ms) (Dynamic ms) (Trans ms) (Vtx ms1)
                         (Norm ms1) (Tex ms1) (Idx ms) (Color ms1) (BBox ms)
                         (Buff ms)).
  { destruct ms1. cbn in *. f_equal; congruence. }
  assert (FC' : Color ms1
                = (if IsNil clr then Color ms
                   else splice
                          (Color ms ++ replicate (Z.to_nat (dif * 4)) F32.zero)
                          (Z.to_nat (4 * stVtxIdx))
                          (grid (w + 1) (h + 1)
                             (fun _ _ => Vec4_floats (ColorToVec4f clr))))).
  { rewrite FC. destruct (IsNil clr); cbn [negb]; [| done].
    cbn. by rewrite app_nil_r. }
  destruct setIdx.
  - unfold plane_indexes.
    replace (Int.add stIdxIdx (plane_idx_size wsegs hsegs))
      with (stIdxIdx + w * h * 6)
      by (unfold Int.add; rewrite wrap_small; lia).
    rewrite FI, EI, Hicnt.
    pose proof (len_nonneg (Idx ms)).
    set (idx0 := Idx ms ++ replicate
                   (Z.to_nat (stIdxIdx + w * h * 6 - len (Idx ms))) 0).
    assert (Hgrow :
      (if stIdxIdx + w * h * 6 >? len (Idx ms)
       then Extend 0 (Idx ms)
              (Int.sub (stIdxIdx + w * h * 6) (len (Idx ms)))
       else Ok (Idx ms)) = Ok idx0).
    { rewrite Z.gtb_ltb.
      destruct (Z.ltb_spec (len (Idx ms)) (stIdxIdx + w * h * 6)).
      - unfold Int.sub. rewrite wrap_small by lia. by rewrite Extend_ok by lia.
      - subst idx0. replace (Z.to_nat _) with 0%nat by lia.
        cbn. by rewrite app_nil_r. }
    rewrite Hgrow. cbn [rbind].
    assert (Hl0 : stIdxIdx + 6 * (w * h) <= len idx0
                  /\ len idx0 <= 9223372036854775807).
    { subst idx0. rewrite len_app.
      destruct (Z.le_gt_cases (stIdxIdx + w * h * 6) (len (Idx ms))).
      - replace (Z.to_nat _) with 0%nat by lia. cbn. unfold len at 2 4. cbn.
        lia.
      - rewrite len_replicate by lia. lia. }
    pose proof (index_exact_loop idx0 stVtxIdx stIdxIdx w h) as Hloop.
    rewrite Ew1 in Hloop. rewrite Hloop by lia.
    cbn [rbind fst]. f_equal.
    rewrite Hms1 at 1. unfold set_Idx. cbn.
    rewrite FV, FN, FT, FC'. done.
  - f_equal. rewrite Hms1 at 1. cbn.
    rewrite FV, FN, FT, FC'. done.
Qed.

End ExactPlane.

(** ** Reading a grid back *)

Lemma slice_splice_in {A : Type} (a v : list A) (p q k : nat) :
  (p <= length a)%nat -> (q + k <= length v)%nat ->
  slice (splice a p v) (p + q) k = slice v q k.
Proof.
  intros Hp Hq. unfold slice, splice.
  rewrite drop_app_ge by (rewrite length_take; lia).
  rewrite length_take.
  replace (p + q - p `min` length a)%nat with q by lia.
  rewrite drop_app_le by lia.
  rewrite take_app_le by (rewrite length_drop; lia).
  done.
Qed.

Lemma drop_splice {A : Type} (a v : list A) (p : nat) :
  (p <= length a)%nat ->
  drop (p + length v) (splice a p v) = drop (p + length v) a.
Proof.
  intros Hp. unfold splice.
  rewrite drop_app_ge by (rewrite length_take; lia).
  rewrite length_take.
  replace (p + length v - p `min` length a)%nat with (length v) by lia.
  by rewrite drop_app_length.
Qed.

Lemma slice_flat_map_seqZ {A : Type} (f : Z -> list A) (c : nat) (n i : Z) :
  (forall x, length (f x) = c) -> 0 <= i < n ->
  slice (flat_map f (seqZ 0 n)) (c * Z.to_nat i) c = f i.
Proof.
  intros Hf Hi. unfold slice.
  replace n with (i + (1 + (n - i - 1))) by lia.
  rewrite seqZ_app by lia. rewrite seqZ_app by lia.
  rewrite !flat_map_app.
  rewrite drop_app_length'
    by (rewrite (length_flat_map_const _ c), length_seqZ; done).
  change (seqZ (0 + i) 1) with [0 + (0 + i)].
  simpl flat_map. rewrite app_nil_r.
  replace (0 + (0 + i)) with i by lia.
  by rewrite take_app_length'.
Qed.

Lemma slice_slice {A : Type} (a : list A) (p n q k : nat) :
  (q + k <= n)%nat -> slice (slice a p n) q k = slice a (p + q) k.
Proof.
  intros H. unfold slice.
  replace n with (q + (n - q))%nat by lia.
  rewrite <- take_drop_commute, drop_drop, take_take.
  f_equal. lia.
Qed.

Lemma slice_grid {A : Type} (f : Z -> Z -> list A) (c : nat) (n m ix iy : Z) :
  (forall x y, length (f x y) = c) -> 0 <= ix < n -> 0 <= iy < m ->
  slice (grid n m f) (c * Z.to_nat (ix + n * iy)) c = f ix iy.
Proof.
  intros Hf Hix Hiy. unfold grid.
  pose proof (slice_flat_map_seqZ
                (fun y => flat_map (fun x => f x y) (seqZ 0 n))
                (c * Z.to_nat n) m iy) as Hrow.
  rewrite <- (slice_flat_map_seqZ (fun x => f x iy) c n ix) by done.
  rewrite <- Hrow; [| | done].
  - rewrite slice_slice.
    + f_equal.
      assert (0 <= n * iy) by (apply Z.mul_nonneg_nonneg; lia).
      rewrite Z2Nat.inj_add, Z2Nat.inj_mul by lia. lia.
    + assert (Z.to_nat ix < Z.to_nat n)%nat by lia. nia.
  - intros y. rewrite (length_flat_map_const _ c) by done.
    by rewrite length_seqZ.
Qed.

(** ** What [SetPlane] writes, and where *)

Lemma splice_same_outside {A : Type} (a v : list A) (p : nat) :
  (p + length v <= length a)%nat ->
  same_outside p (length v) a (splice a p v).
Proof.
  intros Hl. split; [by apply splice_length |].
  split; [apply splice_take; lia | apply drop_splice; lia].
Qed.

Lemma same_outside_refl {A : Type} (a : list A) (p n : nat) :
  same_outside p n a a.
Proof. done. Qed.

Section PlaneData.

Context `{Ext : External}.

Lemma plane_call_bounds (ms : MeshBase) (stVtxIdx stIdxIdx : Z)
    (p : PlaneArgs) :
  plane_call ms stVtxIdx stIdxIdx p ->
  0 <= stVtxIdx <= 288230376151711744 /\
  0 <= stIdxIdx <= 1152921504606846976 /\
  p_vtx_size p <= 288230376151711744 /\
  moderate ms /\ aligned ms (negb (IsNil (p_clr p))).
Proof.
  intros (HV & HI & Hfit & Hmod & Hal). unfold plane_fits in Hfit.
  change (2 ^ 56) with 72057594037927936 in *.
  change (2 ^ 59) with 576460752303423488 in *.
  unfold p_vtx_size. split_and!; try done; lia.
Qed.

Lemma plane_call_exact (ms : MeshBase) (stVtxIdx stIdxIdx : Z)
    (setNorm setTex setIdx : bool) (p : PlaneArgs) :
  plane_call ms stVtxIdx stIdxIdx p ->
  SetPlane_with ms stVtxIdx stIdxIdx setNorm setTex setIdx p
  = Ok (SetPlane_closed ms stVtxIdx stIdxIdx setNorm setTex setIdx p).
Proof.
  intros H. apply plane_call_bounds in H as (? & ? & ? & ? & ?).
  by apply SetPlane_exact.
Qed.

(** The sizes of the grown arrays and of the blocks. *)
Lemma plane_sizes (ms : MeshBase) (stVtxIdx stIdxIdx : Z) (p : PlaneArgs) :
  plane_call ms stVtxIdx stIdxIdx p ->
  let dif := Z.max 0 (stVtxIdx + p_vtx_size p - vtx_count ms) in
  let w := Z.max (p_wsegs p) 1 in
  let h := Z.max (p_hsegs p) 1 in
  1 <= w /\ 1 <= h /\ p_vtx_size p = (w + 1) * (h + 1) /\
  p_idx_size p = w * h * 6 /\ 0 < w * h /\
  len (plane_Vtx p) = 3 * p_vtx_size p /\
  len (plane_Norm p) = 3 * p_vtx_size p /\
  len (plane_Tex p) = 2 * p_vtx_size p /\
  len (plane_Color p) = 4 * p_vtx_size p /\
  (forall st, len (plane_Idx p st) = p_idx_size p) /\
  0 <= dif /\
  3 * (stVtxIdx + p_vtx_size p) <= len (Vtx ms) + dif * 3 /\
  3 * (stVtxIdx + p_vtx_size p) <= len (Norm ms) + dif * 3 /\
  2 * (stVtxIdx + p_vtx_size p) <= len (Tex ms) + dif * 2 /\
  (IsNil (p_clr p) = false ->
   4 * (stVtxIdx + p_vtx_size p) <= len (Color ms) + dif * 4).
Proof.
  intros (HV & HI & Hfit & Hmod & HaN & HaT & HaC) dif w h.
  assert (Hw : 1 <= w) by (subst w; lia).
  assert (Hh : 1 <= h) by (subst h; lia).
  assert (0 < w * h) by (apply Z.mul_pos_pos; lia).
  assert (Hcnt : p_vtx_size p = (w + 1) * (h + 1)) by done.
  assert (0 <= (w + 1) * (h + 1)) by (apply Z.mul_nonneg_nonneg; lia).
  destruct (count_bounds (Vtx ms) 3) as [? ?]; [lia |].
  destruct (count_bounds (Norm ms) 3) as [? ?]; [lia |].
  destruct (count_bounds (Tex ms) 2) as [? ?]; [lia |].
  destruct (count_bounds (Color ms) 4) as [? ?]; [lia |].
  unfold vtx_count, norm_count, tex_count, color_count in *.
  unfold plane_Vtx, plane_Norm, plane_Tex, plane_Color, plane_Idx.
  fold w h.
  rewrite (grid_len _ 3), (grid_len _ 3), (grid_len _ 2), (grid_len _ 4)
    by (done || lia).
  split_and!; try done; try lia.
  - intros st. rewrite (grid_len _ 6) by (done || lia).
    unfold p_idx_size, plane_idx_size. fold w h. lia.
  - intros E. rewrite E in HaC. specialize (HaC eq_refl). lia.
Qed.

End PlaneData.

Lemma slice_splice_grid {A : Type} (a : list A) (f : Z -> Z -> list A)
    (c : nat) (n m st ix iy : Z) :
  (forall x y, length (f x y) = c) ->
  0 <= st -> 0 <= ix < n -> 0 <= iy < m -> Z.of_nat c * st <= len a ->
  slice (splice a (Z.to_nat (Z.of_nat c * st)) (grid n m f))
    (Z.to_nat (Z.of_nat c * (st + (ix + n * iy)))) c
  = f ix iy.
Proof.
  intros Hf Hst Hix Hiy Ha.
  destruct (row_major_inside n m ix iy Hix Hiy) as [H0 Hnm].
  assert (Hn : 0 <= n * m) by lia.
  assert (Hlen : len (grid n m f) = Z.of_nat c * (n * m))
    by (apply grid_len; [done | lia | lia]).
  replace (Z.to_nat (Z.of_nat c * (st + (ix + n * iy))))
    with (Z.to_nat (Z.of_nat c * st) + c * Z.to_nat (ix + n * iy))%nat by nia.
  rewrite slice_splice_in.
  - by apply slice_grid.
  - unfold len in Ha. lia.
  - unfold len in Hlen. nia.
Qed.

Section PlaneTheorems.

Context `{Ext : External}.

(** X5. Within bounds, [SetPlane] returns the mesh of the closed form:
    the vertex arrays grown by the vectors that [Vtx] lacks ([Color] only
    when a color is given), then the positions, and the normals, texture
    coordinates and colors asked for, of the vertexes of the plane row
    after row from the vector [stVtxIdx] on, and the two triangles of
    every cell row after row from [stIdxIdx] on. *)
Theorem SetPlane_closed_form (ms : MeshBase) (stVtxIdx stIdxIdx : Z)
    (setNorm setTex setIdx : bool) (p : PlaneArgs) :
  plane_call ms stVtxIdx stIdxIdx p ->
  SetPlane_with ms stVtxIdx stIdxIdx setNorm setTex setIdx p
  = Ok (SetPlane_closed ms stVtxIdx stIdxIdx setNorm setTex setIdx p).
Proof. apply plane_call_exact. Qed.

(** X6. The position of every vertex of the plane: the vertex [(ix,iy)]
    is the vector number [stVtxIdx + ix + (wsegs+1)*iy] of [Vtx], and when
    width and height are on two different axes its coordinates are
    [ix * (width/wsegs) * wdir + woff] along the width axis,
    [iy * (height/hsegs) * hdir + hoff] along the height axis (from
    [width + woff], [height + hoff] for a negative direction) and [zoff]
    along the third axis. *)
Theorem SetPlane_positions (ms : MeshBase) (stVtxIdx stIdxIdx : Z)
    (setNorm setTex setIdx : bool) (p : PlaneArgs) (ix iy : Z) :
  plane_call ms stVtxIdx stIdxIdx p ->
  0 <= ix <= Z.max (p_wsegs p) 1 -> 0 <= iy <= Z.max (p_hsegs p) 1 ->
  exists ms',
    SetPlane_with ms stVtxIdx stIdxIdx setNorm setTex setIdx p = Ok ms' /\
    slice (Vtx ms') (Z.to_nat (3 * vertex_id p stVtxIdx ix iy)) 3
    = Vec3_floats (plane_point p ix iy) /\
    (p_waxis p <> p_haxis p ->
     component (plane_point p ix iy) (p_waxis p)
     = axis_coord (p_wdir p) (p_width p) (p_woff p) (p_wsegs p) ix /\
     component (plane_point p ix iy) (p_haxis p)
     = axis_coord (p_hdir p) (p_height p) (p_hoff p) (p_hsegs p) iy /\
     component (plane_point p ix iy) (plane_w (p_waxis p) (p_haxis p))
     = p_zoff p).
Proof.
  intros Hcall Hix Hiy.
  rewrite (plane_call_exact _ _ _ _ _ _ _ Hcall).
  eexists. split; [reflexivity |]. split.
  - destruct (plane_sizes _ _ _ _ Hcall)
      as (Hw & Hh & Hcnt & _ & _ & _ & _ & _ & _ & _ & Hd & HV & _).
    destruct Hcall as ([? ?] & _).
    cbn [SetPlane_closed Vtx]. unfold vertex_id, plane_Vtx.
    apply (slice_splice_grid _
             (fun x y => Vec3_floats (plane_point p x y)) 3);
      try done; try lia.
    rewrite len_app, len_replicate by lia.
    change (Z.of_nat 3) with 3. lia.
  - intros Hne. unfold plane_point, vertex_at, axis_coord, plane_w.
    destruct (p_waxis p), (p_haxis p); try done; by cbn.
Qed.

(** X7. The texture coordinates of every vertex of the plane, when
    [setTex] is set: the vector number [stVtxIdx + ix + (wsegs+1)*iy] of
    [Tex] is [(ix/wsegs, 1 - iy/hsegs)] in [float32], on the clamped
    segment counts. *)
Theorem SetPlane_texcoords (ms : MeshBase) (stVtxIdx stIdxIdx : Z)
    (setNorm setIdx : bool) (p : PlaneArgs) (ix iy : Z) :
  plane_call ms stVtxIdx stIdxIdx p ->
  0 <= ix <= Z.max (p_wsegs p) 1 -> 0 <= iy <= Z.max (p_hsegs p) 1 ->
  exists ms',
    SetPlane_with ms stVtxIdx stIdxIdx setNorm true setIdx p = Ok ms' /\
    slice (Tex ms') (Z.to_nat (2 * vertex_id p stVtxIdx ix iy)) 2
    = [F32.div (F32.of_int ix) (F32.of_int (Z.max (p_wsegs p) 1));
       F32.sub (F32.of_int 1)
         (F32.div (F32.of_int iy) (F32.of_int (Z.max (p_hsegs p) 1)))].
Proof.
  intros Hcall Hix Hiy.
  rewrite (plane_call_exact _ _ _ _ _ _ _ Hcall).
  eexists. split; [reflexivity |].
  destruct (plane_sizes _ _ _ _ Hcall)
    as (Hw & Hh & Hcnt & _ & _ & _ & _ & _ & _ & _ & Hd & _ & _ & HT & _).
  destruct Hcall as ([? ?] & _).
  cbn [SetPlane_closed Tex]. unfold vertex_id, plane_Tex.
  apply (slice_splice_grid _ (fun x y => Vec2_floats (plane_uv p x y)) 2);
    try done; try lia.
  rewrite len_app, len_replicate by lia.
  change (Z.of_nat 2) with 2. lia.
Qed.

(** X8. The color of every vertex of the plane, when a color is given:
    the vector number [stVtxIdx + ix + (wsegs+1)*iy] of [Color] holds the
    four components of [ColorToVec4f(clr)]. *)
Theorem SetPlane_colors (ms : MeshBase) (stVtxIdx stIdxIdx : Z)
    (setNorm setTex setIdx : bool) (p : PlaneArgs) (ix iy : Z) :
  plane_call ms stVtxIdx stIdxIdx p ->
  IsNil (p_clr p) = false ->
  0 <= ix <= Z.max (p_wsegs p) 1 -> 0 <= iy <= Z.max (p_hsegs p) 1 ->
  exists ms',
    SetPlane_with ms stVtxIdx stIdxIdx setNorm setTex setIdx p = Ok ms' /\
    slice (Color ms') (Z.to_nat (4 * vertex_id p stVtxIdx ix iy)) 4
    = Vec4_floats (ColorToVec4f (p_clr p)).
Proof.
  intros Hcall Hclr Hix Hiy.
  rewrite (plane_call_exact _ _ _ _ _ _ _ Hcall).
  eexists. split; [reflexivity |].
  destruct (plane_sizes _ _ _ _ Hcall)
    as (Hw & Hh & Hcnt & _ & _ & _ & _ & _ & _ & _ & Hd & _ & _ & _ & HC).
  specialize (HC Hclr).
  destruct Hcall as ([? ?] & _).
  cbn [SetPlane_closed Color]. rewrite Hclr. unfold vertex_id, plane_Color.
  apply (slice_splice_grid _
           (fun _ _ => Vec4_floats (ColorToVec4f (p_clr p))) 4);
    try done; try lia.
  rewrite len_app, len_replicate by lia.
  change (Z.of_nat 4) with 4. lia.
Qed.

End PlaneTheorems.

Section PlaneUpdates.

Context `{Ext : External}.

(** X9. A call on vertexes and indexes that the mesh has ([stVtxIdx] plus
    the vertex count of the plane within the vertex count of the mesh,
    and likewise for the indexes when [setIdx] is set) grows nothing: each
    array keeps its length and its values before and after the range of
    the plane, [Norm], [Tex] and [Idx] are untouched when their flag is
    not set, and [Validate] answers as before the call. *)
Theorem SetPlane_in_place (ms : MeshBase) (stVtxIdx stIdxIdx : Z)
    (setNorm setTex setIdx : bool) (p : PlaneArgs) :
  plane_call ms stVtxIdx stIdxIdx p ->
  stVtxIdx + p_vtx_size p <= vtx_count ms ->
  (setIdx = true -> stIdxIdx + p_idx_size p <= len (Idx ms)) ->
  exists ms',
    SetPlane_with ms stVtxIdx stIdxIdx setNorm setTex setIdx p = Ok ms' /\
    same_outside (Z.to_nat (3 * stVtxIdx)) (Z.to_nat (3 * p_vtx_size p))
      (Vtx ms) (Vtx ms') /\
    same_outside (Z.to_nat (3 * stVtxIdx)) (Z.to_nat (3 * p_vtx_size p))
      (Norm ms) (Norm ms') /\
    same_outside (Z.to_nat (2 * stVtxIdx)) (Z.to_nat (2 * p_vtx_size p))
      (Tex ms) (Tex ms') /\
    same_outside (Z.to_nat (4 * stVtxIdx)) (Z.to_nat (4 * p_vtx_size p))
      (Color ms) (Color ms') /\
    same_outside (Z.to_nat stIdxIdx) (Z.to_nat (p_idx_size p))
      (Idx ms) (Idx ms') /\
    (setNorm = false -> Norm ms' = Norm ms) /\
    (setTex = false -> Tex ms' = Tex ms) /\
    (setIdx = false -> Idx ms' = Idx ms) /\
    same_header ms ms' /\
    Validate ms' = Validate ms.
Proof.
  intros Hcall Hin HinI.
  rewrite (plane_call_exact _ _ _ _ _ _ _ Hcall).
  eexists. split; [reflexivity |].
  destruct (plane_sizes _ _ _ _ Hcall)
    as (Hw & Hh & Hcnt & Hicnt & Hwh & LV & LN & LT & LC & LI & Hd
        & HV & HN & HT & HC).
  destruct Hcall as ([? ?] & [? ?] & _).
  unfold SetPlane_closed.
  replace (Z.max 0 (stVtxIdx + p_vtx_size p - vtx_count ms)) with 0 in *
    by lia.
  cbn [Z.mul Z.to_nat replicate]. rewrite !app_nil_r.
  cbn [Vtx Norm Tex Color Idx].
  assert (0 <= p_vtx_size p) by lia.
  assert (SV : same_outside (Z.to_nat (3 * stVtxIdx))
                 (Z.to_nat (3 * p_vtx_size p)) (Vtx ms)
                 (splice (Vtx ms) (Z.to_nat (3 * stVtxIdx)) (plane_Vtx p))).
  { replace (Z.to_nat (3 * p_vtx_size p)) with (length (plane_Vtx p))
      by (unfold len in LV; lia).
    apply splice_same_outside. unfold len in *. lia. }
  assert (SN : same_outside (Z.to_nat (3 * stVtxIdx))
                 (Z.to_nat (3 * p_vtx_size p)) (Norm ms)
                 (splice (Norm ms) (Z.to_nat (3 * stVtxIdx)) (plane_Norm p))).
  { replace (Z.to_nat (3 * p_vtx_size p)) with (length (plane_Norm p))
      by (unfold len in LN; lia).
    apply splice_same_outside. unfold len in *. lia. }
  assert (ST : same_outside (Z.to_nat (2 * stVtxIdx))
                 (Z.to_nat (2 * p_vtx_size p)) (Tex ms)
                 (splice (Tex ms) (Z.to_nat (2 * stVtxIdx)) (plane_Tex p))).
  { replace (Z.to_nat (2 * p_vtx_size p)) with (length (plane_Tex p))
      by (unfold len in LT; lia).
    apply splice_same_outside. unfold len in *. lia. }
  assert (SC : IsNil (p_clr p) = false ->
               same_outside (Z.to_nat (4 * stVtxIdx))
                 (Z.to_nat (4 * p_vtx_size p)) (Color ms)
                 (splice (Color ms) (Z.to_nat (4 * stVtxIdx))
                    (plane_Color p))).
  { intros E. specialize (HC E).
    replace (Z.to_nat (4 * p_vtx_size p)) with (length (plane_Color p))
      by (unfold len in LC; lia).
    apply splice_same_outside. unfold len in *. lia. }
  assert (SI : setIdx = true ->
               same_outside (Z.to_nat stIdxIdx) (Z.to_nat (p_idx_size p))
                 (Idx ms)
                 (splice
                    (Idx ms ++ replicate
                       (Z.to_nat (stIdxIdx + p_idx_size p - len (Idx ms))) 0)
                    (Z.to_nat stIdxIdx) (plane_Idx p stVtxIdx))).
  { intros E. specialize (HinI E).
    replace (Z.to_nat (stIdxIdx + p_idx_size p - len (Idx ms))) with O by lia.
    cbn [replicate]. rewrite app_nil_r.
    specialize (LI stVtxIdx).
    replace (Z.to_nat (p_idx_size p)) with (length (plane_Idx p stVtxIdx))
      by (unfold len in LI; lia).
    apply splice_same_outside. unfold len in *. lia. }
  split; [exact SV |].
  split; [destruct setNorm; [exact SN | apply same_outside_refl] |].
  split; [destruct setTex; [exact ST | apply same_outside_refl] |].
  split; [destruct (IsNil (p_clr p));
          [apply same_outside_refl | by apply SC] |].
  split; [destruct setIdx; [by apply SI | apply same_outside_refl] |].
  split; [by intros -> |]. split; [by intros -> |]. split; [by intros -> |].
  split; [done |].
  apply Validate_lengths; cbn [Vtx Norm Tex Color]; unfold len; f_equal.
  - apply SV.
  - destruct setNorm; [apply SN | done].
  - destruct setTex; [apply ST | done].
  - destruct (IsNil (p_clr p)); [done | by apply SC].
Qed.

End PlaneUpdates.

Section PlaneOverwrite.

Context `{Ext : External}.

Lemma count_grown (a : list float32) (c dif : Z) :
  0 < c -> 0 <= dif ->
  len (a ++ replicate (Z.to_nat (dif * c)) F32.zero) / c = len a / c + dif.
Proof.
  intros Hc Hd. rewrite len_app, len_replicate by lia.
  rewrite Z.div_add by lia. done.
Qed.

Lemma len_splice {A : Type} (a v : list A) (p : Z) :
  0 <= p -> p + len v <= len a -> len (splice a (Z.to_nat p) v) = len a.
Proof.
  intros Hp Hl. unfold len in *. rewrite splice_length; lia.
Qed.

(** The lengths of the arrays of the closed form. *)
Lemma closed_lengths (ms : MeshBase) (stVtxIdx stIdxIdx : Z)
    (setNorm setTex setIdx : bool) (p : PlaneArgs) :
  plane_call ms stVtxIdx stIdxIdx p ->
  let dif := Z.max 0 (stVtxIdx + p_vtx_size p - vtx_count ms) in
  let ms' := SetPlane_closed ms stVtxIdx stIdxIdx setNorm setTex setIdx p in
  len (Vtx ms') = len (Vtx ms) + dif * 3 /\
  len (Norm ms') = len (Norm ms) + dif * 3 /\
  len (Tex ms') = len (Tex ms) + dif * 2 /\
  len (Color ms')
  = len (Color ms) + (if IsNil (p_clr p) then 0 else dif * 4) /\
  len (Idx ms')
  = (if setIdx then Z.max (len (Idx ms)) (stIdxIdx + p_idx_size p)
     else len (Idx ms)).
Proof.
  intros Hcall dif ms'.
  destruct (plane_sizes _ _ _ _ Hcall)
    as (Hw & Hh & Hcnt & Hicnt & Hwh & LV & LN & LT & LC & LI & Hd
        & HV & HN & HT & HC).
  destruct Hcall as ([? ?] & [? ?] & _).
  fold dif in Hd, HV, HN, HT, HC.
  subst ms'. unfold SetPlane_closed. fold dif.
  cbn [Vtx Norm Tex Color Idx].
  assert (GV : len (Vtx ms ++ replicate (Z.to_nat (dif * 3)) F32.zero)
               = len (Vtx ms) + dif * 3)
    by (rewrite len_app, len_replicate; lia).
  assert (GN : len (Norm ms ++ replicate (Z.to_nat (dif * 3)) F32.zero)
               = len (Norm ms) + dif * 3)
    by (rewrite len_app, len_replicate; lia).
  assert (GT : len (Tex ms ++ replicate (Z.to_nat (dif * 2)) F32.zero)
               = len (Tex ms) + dif * 2)
    by (rewrite len_app, len_replicate; lia).
  assert (GC : len (Color ms ++ replicate (Z.to_nat (dif * 4)) F32.zero)
               = len (Color ms) + dif * 4)
    by (rewrite len_app, len_replicate; lia).
  split_and!.
  - rewrite len_splice; lia.
  - destruct setNorm; [rewrite len_splice |]; lia.
  - destruct setTex; [rewrite len_splice |]; lia.
  - destruct (IsNil (p_clr p)) eqn:E; [lia |].
    specialize (HC eq_refl). rewrite len_splice; lia.
  - destruct setIdx; [| done].
    pose proof (len_nonneg (Idx ms)).
    assert (len (Idx ms ++ replicate
                   (Z.to_nat (stIdxIdx + p_idx_size p - len (Idx ms))) 0)
            = Z.max (len (Idx ms)) (stIdxIdx + p_idx_size p)) as GI.
    { rewrite len_app.
      destruct (Z.le_gt_cases (stIdxIdx + p_idx_size p) (len (Idx ms))).
      - replace (Z.to_nat _) with O by lia. cbn. unfold len at 2. cbn. lia.
      - rewrite len_replicate by lia. lia. }
    rewrite len_splice; rewrite ?LI; lia.
Qed.

Lemma splice_twice {A : Type} (a v v' : list A) (p : Z) :
  0 <= p -> len v = len v' -> p + len v <= len a ->
  splice (splice a (Z.to_nat p) v) (Z.to_nat p) v'
  = splice a (Z.to_nat p) v'.
Proof.
  intros Hp Hv Hl. unfold len in *. apply splice_splice; lia.
Qed.

(** X10. The last call wins: after a call for the plane of [p], a call
    at the same start indexes and with the same flags for a plane [q] of
    as many segments, with a color exactly when [p] has one, returns the
    mesh that the call for [q] alone returns. *)
Theorem SetPlane_overwrites (ms ms1 : MeshBase) (stVtxIdx stIdxIdx : Z)
    (setNorm setTex setIdx : bool) (p q : PlaneArgs) :
  plane_call ms stVtxIdx stIdxIdx p ->
  Z.max (p_wsegs q) 1 = Z.max (p_wsegs p) 1 ->
  Z.max (p_hsegs q) 1 = Z.max (p_hsegs p) 1 ->
  IsNil (p_clr q) = IsNil (p_clr p) ->
  SetPlane_with ms stVtxIdx stIdxIdx setNorm setTex setIdx p = Ok ms1 ->
  moderate ms1 ->
  exists ms2,
    SetPlane_with ms1 stVtxIdx stIdxIdx setNorm setTex setIdx q = Ok ms2 /\
    SetPlane_with ms stVtxIdx stIdxIdx setNorm setTex setIdx q = Ok ms2.
Proof.
  intros Hcall Ew Eh Enil Hrun Hmod1.
  rewrite (plane_call_exact _ _ _ _ _ _ _ Hcall) in Hrun.
  injection Hrun as <-.
  assert (Esz : p_vtx_size q = p_vtx_size p)
    by (unfold p_vtx_size, plane_vtx_size; by rewrite Ew, Eh).
  assert (Eisz : p_idx_size q = p_idx_size p)
    by (unfold p_idx_size, plane_idx_size; by rewrite Ew, Eh).
  assert (Hcallq : plane_call ms stVtxIdx stIdxIdx q).
  { destruct Hcall as (? & ? & Hfit & ? & ?).
    split; [done |]. split; [done |]. split; [| split; [done |]].
    - unfold plane_fits, plane_vtx_size in *. by rewrite Ew, Eh.
    - by rewrite Enil. }
  destruct (plane_sizes _ _ _ _ Hcall)
    as (Hw & Hh & Hcnt & Hicnt & Hwh & LV & LN & LT & LC & LI & Hd
        & HV & HN & HT & HC).
  destruct (plane_sizes _ _ _ _ Hcallq)
    as (_ & _ & _ & _ & _ & LVq & LNq & LTq & LCq & LIq & _).
  destruct (closed_lengths ms stVtxIdx stIdxIdx setNorm setTex setIdx p Hcall)
    as (CV & CN & CT & CC & CI).
  set (dif := Z.max 0 (stVtxIdx + p_vtx_size p - vtx_count ms)) in *.
  set (ms1 := SetPlane_closed ms stVtxIdx stIdxIdx setNorm setTex setIdx p)
    in *.
  destruct (count_bounds (Vtx ms) 3) as [? ?]; [lia |].
  assert (Hcnt1 : vtx_count ms1 = vtx_count ms + dif).
  { unfold vtx_count. rewrite CV, Z.div_add by lia. done. }
  assert (Hcall1 : plane_call ms1 stVtxIdx stIdxIdx q).
  { destruct Hcallq as (? & ? & ? & ? & HaN & HaT & HaC).
    split; [done |]. split; [done |]. split; [done |]. split; [done |].
    split; [| split].
    - unfold norm_count. rewrite Hcnt1, CN, Z.div_add by lia.
      unfold norm_count in HaN. lia.
    - unfold tex_count. rewrite Hcnt1, CT, Z.div_add by lia.
      unfold tex_count in HaT. lia.
    - intros E. specialize (HaC E). rewrite Enil in E.
      unfold color_count in *. rewrite Hcnt1, CC.
      destruct (IsNil (p_clr p)); [done |].
      rewrite Z.div_add by lia. lia. }
  rewrite (plane_call_exact _ _ _ _ _ _ _ Hcall1).
  rewrite (plane_call_exact _ _ _ _ _ _ _ Hcallq).
  eexists. split; [reflexivity |]. f_equal. symmetry.
  destruct Hcall as ([? ?] & [? ?] & _).
  unfold SetPlane_closed.
  rewrite Esz, Eisz, Hcnt1. fold dif.
  replace (Z.max 0 (stVtxIdx + p_vtx_size p - (vtx_count ms + dif)))
    with 0 by lia.
  cbn [Z.mul Z.to_nat replicate]. rewrite !app_nil_r.
  rewrite Enil.
  assert (GV : len (Vtx ms ++ replicate (Z.to_nat (dif * 3)) F32.zero)
               = len (Vtx ms) + dif * 3)
    by (rewrite len_app, len_replicate; lia).
  assert (GN : len (Norm ms ++ replicate (Z.to_nat (dif * 3)) F32.zero)
               = len (Norm ms) + dif * 3)
    by (rewrite len_app, len_replicate; lia).
  assert (GT : len (Tex ms ++ replicate (Z.to_nat (dif * 2)) F32.zero)
               = len (Tex ms) + dif * 2)
    by (rewrite len_app, len_replicate; lia).
  assert (GC : len (Color ms ++ replicate (Z.to_nat (dif * 4)) F32.zero)
               = len (Color ms) + dif * 4)
    by (rewrite len_app, len_replicate; lia).
  subst ms1. unfold SetPlane_closed. fold dif.
  cbn [Nm Dynamic Trans Vtx Norm Tex Idx Color BBox Buff].
  f_equal.
  - apply splice_twice; lia.
  - destruct setNorm; [apply splice_twice; lia | done].
  - destruct setTex; [apply splice_twice; lia | done].
  - destruct setIdx; [| done].
    cbn [Idx SetPlane_closed] in CI. fold dif in CI.
    pose proof (len_nonneg (Idx ms)).
    set (idx0 := Idx ms ++ replicate
                   (Z.to_nat (stIdxIdx + p_idx_size p - len (Idx ms))) 0)
      in *.
    assert (GI : len idx0 = Z.max (len (Idx ms)) (stIdxIdx + p_idx_size p)).
    { subst idx0. rewrite len_app.
      destruct (Z.le_gt_cases (stIdxIdx + p_idx_size p) (len (Idx ms))).
      - replace (Z.to_nat _) with O by lia. cbn. unfold len at 2. cbn. lia.
      - rewrite len_replicate by lia. lia. }
    rewrite CI.
    replace (Z.to_nat (stIdxIdx + p_idx_size p
                       - Z.max (len (Idx ms)) (stIdxIdx + p_idx_size p)))
      with O by lia.
    cbn [replicate]. rewrite app_nil_r.
    apply splice_twice; rewrite ?LI, ?LIq; lia.
  - destruct (IsNil (p_clr p)) eqn:E; [done |].
    specialize (HC eq_refl). apply splice_twice; lia.
Qed.

End PlaneOverwrite.

(** ** [AddPlane] appends *)

Lemma splice_at_end {A : Type} (a v : list A) (z : A) (p n : Z) :
  p = len a -> n = len v ->
  splice (a ++ replicate (Z.to_nat n) z) (Z.to_nat p) v = a ++ v.
Proof.
  intros -> ->. unfold splice, len.
  rewrite !Nat2Z.id.
  rewrite take_app_length.
  rewrite drop_app_ge by lia.
  rewrite drop_ge by (rewrite length_replicate; lia).
  by rewrite app_nil_r.
Qed.

Lemma Forall_flat_map_seqZ {A : Type} (P : A -> Prop) (f : Z -> list A)
    (n : Z) :
  (forall i, 0 <= i < n -> Forall P (f i)) ->
  Forall P (flat_map f (seqZ 0 n)).
Proof.
  intros Hf.
  assert (Hall : Forall (fun i => Forall P (f i)) (seqZ 0 n))
    by (apply Forall_seqZ; intros i Hi; apply Hf; lia).
  induction Hall as [| i l Hi _ IH]; simpl; [done |].
  apply Forall_app. by split.
Qed.

Lemma Forall_grid {A : Type} (P : A -> Prop) (f : Z -> Z -> list A)
    (n m : Z) :
  (forall x y, 0 <= x < n -> 0 <= y < m -> Forall P (f x y)) ->
  Forall P (grid n m f).
Proof.
  intros Hf. unfold grid.
  apply Forall_flat_map_seqZ. intros y Hy.
  apply Forall_flat_map_seqZ. intros x Hx. by apply Hf.
Qed.

Section AddPlaneFacts.

Context `{Ext : External}.

Lemma well_formed_counts (ms : MeshBase) :
  well_formed ms ->
  0 <= vtx_count ms /\ norm_count ms = vtx_count ms /\
  tex_count ms = vtx_count ms /\
  (color_count ms = 0 \/ color_count ms = vtx_count ms).
Proof.
  intros (HV & HN & HT & HC).
  destruct (count_bounds (Vtx ms) 3) as [? ?]; [lia |].
  unfold norm_count, tex_count, color_count. rewrite HN, HT.
  split; [done |].
  rewrite !(Z.mul_comm _ (vtx_count ms)), !Z.div_mul by lia.
  split; [done |]. split; [done |].
  destruct HC as [-> | ->]; [by left | right].
  by rewrite (Z.mul_comm _ (vtx_count ms)), Z.div_mul by lia.
Qed.

Lemma AddPlane_exact (ms : MeshBase) (p : PlaneArgs) :
  moderate ms -> plane_fits (p_wsegs p) (p_hsegs p) -> well_formed ms ->
  (IsNil (p_clr p) = false -> len (Color ms) = 4 * vtx_count ms) ->
  AddPlane_with ms p = Ok (AddPlane_closed ms p).
Proof.
  intros Hmod Hfit Hwf Hclr.
  pose proof Hwf as (HV & HN & HT & HC).
  destruct (well_formed_counts ms Hwf) as (H0 & EN & ET & EC).
  pose proof Hmod as Hmod'.
  apply moderate_bounds in Hmod' as (MV & MN & MT & MC & MI).
  pose proof (len_nonneg (Idx ms)).
  unfold plane_fits in Hfit. change (2 ^ 56) with 72057594037927936 in Hfit.
  assert (Hal : aligned ms (negb (IsNil (p_clr p)))).
  { split; [lia |]. split; [lia |].
    intros E. apply negb_true_iff in E. specialize (Hclr E).
    unfold color_count. rewrite Hclr.
    rewrite (Z.mul_comm 4), Z.div_mul by lia. lia. }
  rewrite AddPlane_as_SetPlane.
  rewrite SetPlane_exact; try done; try lia; [| unfold p_vtx_size; lia].
  f_equal. unfold SetPlane_closed, AddPlane_closed.
  assert (Hn : 4 <= p_vtx_size p).
  { unfold p_vtx_size, plane_vtx_size.
    assert (2 * 2 <= (Z.max (p_wsegs p) 1 + 1) * (Z.max (p_hsegs p) 1 + 1))
      by (apply Z.mul_le_mono_nonneg; lia).
    lia. }
  replace (Z.max 0 (vtx_count ms + p_vtx_size p - vtx_count ms))
    with (p_vtx_size p) by lia.
  assert (Hcall : plane_call ms 0 0 p).
  { split; [done |]. split; [done |]. split; [done |]. done. }
  destruct (plane_sizes _ _ _ _ Hcall)
    as (Hw & Hh & Hcnt & Hicnt & Hwh & LV & LN & LT & LC & LI & _).
  f_equal.
  - apply splice_at_end; lia.
  - apply splice_at_end; lia.
  - apply splice_at_end; lia.
  - replace (len (Idx ms) + p_idx_size p - len (Idx ms))
      with (p_idx_size p) by lia.
    apply splice_at_end; [done |]. by rewrite LI.
  - destruct (IsNil (p_clr p)) eqn:E; [done |].
    specialize (Hclr eq_refl). apply splice_at_end; lia.
Qed.

Lemma cell_triangles_bound (stVtxIdx w h ix iy : Z) :
  0 <= stVtxIdx -> 0 <= ix < w -> 0 <= iy < h ->
  Forall (fun v => 0 <= v < stVtxIdx + (w + 1) * (h + 1))
    (cell_triangles stVtxIdx w ix iy).
Proof.
  intros Hst Hix Hiy.
  destruct (row_major_inside w h ix iy Hix Hiy) as [H0 Hwh].
  assert (Hexp : (w + 1) * (h + 1) = w * h + w + h + 1) by ring.
  assert (Ha : (w + 1) * iy = w * iy + iy) by ring.
  assert (Hb : (w + 1) * (iy + 1) = w * iy + w + iy + 1) by ring.
  unfold cell_triangles.
  repeat (apply Forall_cons; split); [.. | apply Forall_nil_2];
    match goal with
    | |- _ <= uint32 ?z < _ =>
        pose proof (uint32_le z ltac:(lia)); lia
    end.
Qed.

End AddPlaneFacts.

(** ** From [AddPlane] to the GPU buffers *)

Section Pipeline.

Context `{Ext : External}.

Lemma every_run_impl {R : Type} (p : Prog R)
    (Q Q' : list call -> R -> Prop) :
  (forall tr r, Q tr r -> Q' tr r) -> every_run p Q -> every_run p Q'.
Proof.
  revert Q Q'. induction p as [r | T e k IH]; intros Q Q' HQ; simpl.
  - apply HQ.
  - intros Hrun t. eapply IH; [| apply Hrun].
    intros tr r. apply HQ.
Qed.

(** Everything that a run of [MakeVectors] on a valid mesh does. *)
Lemma MakeVectors_compiles (ms : MeshBase) (sc : Scene) :
  Validate ms = Ret None ->
  every_run (MakeVectors ms sc) (fun tr r =>
    fst r = None /\ logged tr = [] /\
    (exists b, snd r = set_Buff ms (Some b) /\
       match Buff ms with
       | Some b0 => b = b0 /\ created tr = []
       | None => created tr = [b]
       end) /\
    vec_lens tr = [vtx_count ms] /\
    vec_data tr
    = [(Renders_Vectors sc InVtxPos, Vtx ms);
       (Renders_Vectors sc InVtxNorm, Norm ms);
       (Renders_Vectors sc InVtxTex, Tex ms)]
      ++ (if HasColor ms then [(Renders_Vectors sc InVtxColor, Color ms)]
          else []) /\
    idx_lens tr = [len (Idx ms)] /\
    idx_data tr = [Idx ms]).
Proof.
  intros Hv. unfold MakeVectors. rewrite Hv. cbn [bind].
  assert (Hq : Int.quo (len (Vtx ms)) 3 = vtx_count ms)
    by (apply quo_count; lia).
  destruct ms as [nm dy tr0 vt nr tx ix cl bb [b0 |]]; cbn in *;
    intros; destruct (HasColor _); cbn;
    repeat match goal with
           | |- context [if ?c then _ else _] => destruct c; cbn
           | |- forall _, _ => intros
           end;
    rewrite ?Hq; (split; [done |]); (split; [done |]);
    (split; [by eexists |]); done.
Qed.

Lemma AddPlane_closed_ok (ms : MeshBase) (p : PlaneArgs) :
  moderate ms -> plane_fits (p_wsegs p) (p_hsegs p) -> well_formed ms ->
  color_fits ms (p_clr p) ->
  let ms' := AddPlane_closed ms p in
  well_formed ms' /\
  vtx_count ms' = vtx_count ms + p_vtx_size p /\
  len (Idx ms') = len (Idx ms) + p_idx_size p /\
  HasColor ms' = negb (IsNil (p_clr p)) /\
  color_fits ms' (p_clr p) /\
  Validate ms' = Ret None /\
  (index_bound ms -> index_bound ms').
Proof.
  intros Hmod Hfit Hwf Hclr ms'.
  pose proof Hwf as (HV & HN & HT & HC).
  destruct (well_formed_counts ms Hwf) as (H0 & _).
  assert (Hcall : plane_call ms 0 0 p).
  { split; [done |]. split; [done |]. split; [done |]. split; [done |].
    destruct (well_formed_counts ms Hwf) as (_ & EN & ET & _).
    split; [lia |]. split; [lia |].
    intros E. apply negb_true_iff in E.
    unfold color_fits in Hclr. rewrite E in Hclr.
    unfold color_count. rewrite Hclr, (Z.mul_comm 4), Z.div_mul by lia. lia. }
  destruct (plane_sizes _ _ _ _ Hcall)
    as (Hw & Hh & Hcnt & Hicnt & Hwh & LV & LN & LT & LC & LI & _).
  assert (Hn : 4 <= p_vtx_size p).
  { rewrite Hcnt.
    assert (2 * 2 <= (Z.max (p_wsegs p) 1 + 1) * (Z.max (p_hsegs p) 1 + 1))
      by (apply Z.mul_le_mono_nonneg; lia).
    lia. }
  assert (EV : len (Vtx ms') = 3 * (vtx_count ms + p_vtx_size p))
    by (subst ms'; cbn [AddPlane_closed Vtx]; rewrite len_app; lia).
  assert (Hvc : vtx_count ms' = vtx_count ms + p_vtx_size p).
  { unfold vtx_count at 1. rewrite EV, Z.mul_comm, Z.div_mul by lia. done. }
  assert (EN : len (Norm ms') = 3 * (vtx_count ms + p_vtx_size p))
    by (subst ms'; cbn [AddPlane_closed Norm]; rewrite len_app; lia).
  assert (ET : len (Tex ms') = 2 * (vtx_count ms + p_vtx_size p))
    by (subst ms'; cbn [AddPlane_closed Tex]; rewrite len_app; lia).
  assert (EC : len (Color ms')
               = if IsNil (p_clr p) then 0
                 else 4 * (vtx_count ms + p_vtx_size p)).
  { subst ms'. cbn [AddPlane_closed Color].
    unfold color_fits in Hclr.
    destruct (IsNil (p_clr p)); [done |]. rewrite len_app. lia. }
  assert (Hwf' : well_formed ms').
  { unfold well_formed. rewrite Hvc, EV, EN, ET, EC.
    split; [done |]. split; [done |]. split; [done |].
    destruct (IsNil (p_clr p)); [by left | by right]. }
  split; [done |]. split; [done |].
  split; [subst ms'; cbn [AddPlane_closed Idx]; rewrite len_app, LI; lia |].
  split.
  { unfold HasColor. rewrite Z.gtb_ltb, EC.
    destruct (IsNil (p_clr p)); cbn [negb].
    - done.
    - apply Z.ltb_lt. lia. }
  split; [unfold color_fits; by rewrite EC, Hvc |].
  split.
  { destruct (Validate_cases ms') as [[Hok _] | (e & _ & Hbad)]; [done |].
    destruct (well_formed_counts ms' Hwf') as (_ & ? & ? & ?).
    exfalso. apply Hbad. split; [lia |]. done. }
  intros Hib. unfold index_bound. rewrite Hvc.
  subst ms'. cbn [AddPlane_closed Idx].
  apply Forall_app. split.
  - eapply Forall_impl; [exact Hib |]. cbn. intros v ?. lia.
  - unfold plane_Idx. apply Forall_grid. intros x y Hx Hy.
    rewrite Hcnt. by apply cell_triangles_bound.
Qed.

(** X11. On a mesh of whole vectors, [AddPlane] appends: within bounds,
    it returns the mesh with the positions, normals and texture
    coordinates of the plane after those that the mesh had, its colors
    after the colors when a color is given, and its triangles, on vertex
    numbers from the old vertex count on, after the indexes. *)
Theorem AddPlane_appends (ms : MeshBase) (p : PlaneArgs) :
  moderate ms -> plane_fits (p_wsegs p) (p_hsegs p) -> well_formed ms ->
  (IsNil (p_clr p) = false -> len (Color ms) = 4 * vtx_count ms) ->
  exists ms',
    AddPlane_with ms p = Ok ms' /\
    Vtx ms' = Vtx ms ++ plane_Vtx p /\
    Norm ms' = Norm ms ++ plane_Norm p /\
    Tex ms' = Tex ms ++ plane_Tex p /\
    Color ms'
    = (if IsNil (p_clr p) then Color ms else Color ms ++ plane_Color p) /\
    Idx ms' = Idx ms ++ plane_Idx p (vtx_count ms) /\
    same_header ms ms'.
Proof.
  intros Hmod Hfit Hwf Hclr.
  exists (AddPlane_closed ms p).
  split; [by apply AddPlane_exact |]. by repeat split.
Qed.

(** X12. [AddPlane] keeps a mesh fit for the GPU: on a mesh of whole
    vectors, with a color that goes with the mesh, it returns a mesh of
    whole vectors that has the vertexes and the indexes more that
    [PlaneSize] tells, on which [Validate] succeeds, that has color
    exactly when a color was given, is transparent when it has color and
    the [Trans] flag is set, and whose indexes all name vertexes of the
    mesh if they did before. *)
Theorem AddPlane_keeps_mesh_valid (ms : MeshBase) (p : PlaneArgs) :
  moderate ms -> plane_fits (p_wsegs p) (p_hsegs p) -> well_formed ms ->
  color_fits ms (p_clr p) ->
  exists ms',
    AddPlane_with ms p = Ok ms' /\
    well_formed ms' /\
    (vtx_count ms', len (Idx ms'))
    = (vtx_count ms + fst (PlaneSize ms (p_wsegs p) (p_hsegs p)),
       len (Idx ms) + snd (PlaneSize ms (p_wsegs p) (p_hsegs p))) /\
    HasColor ms' = negb (IsNil (p_clr p)) /\
    IsTransparent ms' = (if IsNil (p_clr p) then false else Trans ms) /\
    color_fits ms' (p_clr p) /\
    Validate ms' = Ret None /\
    (index_bound ms -> index_bound ms').
Proof.
  intros Hmod Hfit Hwf Hclr.
  exists (AddPlane_closed ms p). split.
  - apply AddPlane_exact; try done.
    intros E. unfold color_fits in Hclr. by rewrite E in Hclr.
  - destruct (AddPlane_closed_ok ms p Hmod Hfit Hwf Hclr)
      as (Hwf' & Hvc & HI & HHC & Hcf & Hval & Hib).
    assert (HPS : PlaneSize ms (p_wsegs p) (p_hsegs p)
                  = (p_vtx_size p, p_idx_size p)).
    { apply PlaneSize_clamped. unfold plane_fits in Hfit.
      change (2 ^ 56) with 72057594037927936 in Hfit. lia. }
    rewrite HPS. cbn [fst snd]. rewrite Hvc, HI.
    split; [done |]. split; [done |]. split; [done |].
    split; [| done].
    unfold IsTransparent. rewrite HHC.
    by destruct (IsNil (p_clr p)).
Qed.

(** X13. From the plane to the buffers: after [AddPlane] on a mesh of
    whole vectors, with a color that goes with the mesh, every run of
    [MakeVectors] returns no error, sets the length of the vectors buffer
    to the old vertex count plus that of the plane and the length of the
    indexes buffer to the old length plus the index count of the plane,
    and sends the old arrays followed by the blocks of the plane, the
    colors exactly when a color was given. *)
Theorem AddPlane_then_MakeVectors (ms : MeshBase) (p : PlaneArgs)
    (sc : Scene) :
  moderate ms -> plane_fits (p_wsegs p) (p_hsegs p) -> well_formed ms ->
  color_fits ms (p_clr p) ->
  exists ms',
    AddPlane_with ms p = Ok ms' /\
    every_run (MakeVectors ms' sc) (fun tr r =>
      fst r = None /\
      vec_lens tr = [vtx_count ms + p_vtx_size p] /\
      idx_lens tr = [len (Idx ms) + p_idx_size p] /\
      vec_data tr
      = [(Renders_Vectors sc InVtxPos, Vtx ms ++ plane_Vtx p);
         (Renders_Vectors sc InVtxNorm, Norm ms ++ plane_Norm p);
         (Renders_Vectors sc InVtxTex, Tex ms ++ plane_Tex p)]
        ++ (if IsNil (p_clr p) then []
            else [(Renders_Vectors sc InVtxColor,
                   Color ms ++ plane_Color p)]) /\
      idx_data tr = [Idx ms ++ plane_Idx p (vtx_count ms)]).
Proof.
  intros Hmod Hfit Hwf Hclr.
  exists (AddPlane_closed ms p). split.
  - apply AddPlane_exact; try done.
    intros E. unfold color_fits in Hclr. by rewrite E in Hclr.
  - destruct (AddPlane_closed_ok ms p Hmod Hfit Hwf Hclr)
      as (_ & Hvc & HI & HHC & _ & Hval & _).
    eapply every_run_impl; [| by apply MakeVectors_compiles].
    intros tr r (Hr & _ & _ & HVL & HVD & HIL & HID).
    rewrite Hvc in HVL. rewrite HI in HIL. rewrite HHC in HVD.
    split; [done |]. split; [done |]. split; [done |].
    split; [| done].
    rewrite HVD. cbn [AddPlane_closed Vtx Norm Tex Color].
    by destruct (IsNil (p_clr p)).
Qed.

End Pipeline.

(** ** [Set*Data], [Activate], the transfers and [Render3D] *)

Section Drawing.

Context `{Ext : External}.

Lemma every_outcome_impl {R : Type} (p : Run R)
    (Q Q' : list step -> option R -> Prop) :
  (forall tr r, Q tr r -> Q' tr r) -> every_outcome p Q -> every_outcome p Q'.
Proof.
  revert Q Q'.
  induction p as [r | | T e k IH | T e k IH]; intros Q Q' HQ; simpl.
  - apply HQ.
  - apply HQ.
  - intros Hrun t. eapply IH; [| apply Hrun]. intros tr r. apply HQ.
  - intros Hrun t. eapply IH; [| apply Hrun]. intros tr r. apply HQ.
Qed.

(** The runs of a buffer program followed by a run. *)
Lemma every_outcome_lift {R S : Type} (p : Prog R) (k : R -> Run S)
    (Q : list step -> option S -> Prop) :
  every_run p (fun tr r =>
    every_outcome (k r) (fun tr' o => Q (map Built tr ++ tr') o)) ->
  every_outcome (run_bind (lift p) k) Q.
Proof.
  revert Q. induction p as [r | T e h IH]; intros Q; simpl.
  - done.
  - intros Hrun t. apply IH. apply Hrun.
Qed.

Lemma every_outcome_bind {R S : Type} (p : Run R) (k : R -> Run S)
    (Q : list step -> option S -> Prop) :
  every_outcome p (fun tr o =>
    match o with
    | Some r => every_outcome (k r) (fun tr' o' => Q (tr ++ tr') o')
    | None => Q tr None
    end) ->
  every_outcome (run_bind p k) Q.
Proof.
  revert Q. induction p as [r | | T e h IH | T e h IH]; intros Q; simpl.
  - done.
  - done.
  - intros Hrun t. apply IH. apply Hrun.
  - intros Hrun t. apply IH. apply Hrun.
Qed.

Lemma built_lift (tr : list call) (tr' : list step) :
  built (map Built tr ++ tr') = tr ++ built tr'.
Proof. induction tr as [| c tr IH]; simpl; [done | by rewrite IH]. Qed.

Lemma activated_lift (tr : list call) (tr' : list step) :
  activated (map Built tr ++ tr') = activated tr'.
Proof. induction tr as [| c tr IH]; simpl; done. Qed.

Lemma drawn_lift (tr : list call) (tr' : list step) :
  drawn (map Built tr ++ tr') = drawn tr'.
Proof. induction tr as [| c tr IH]; simpl; done. Qed.

Lemma lengths_read_lift (tr : list call) (tr' : list step) :
  lengths_read (map Built tr ++ tr') = lengths_read tr'.
Proof. induction tr as [| c tr IH]; simpl; done. Qed.

Lemma logged_app (tr tr' : list call) :
  logged (tr ++ tr') = logged tr ++ logged tr'.
Proof.
  induction tr as [| [T e t] tr IH]; simpl; [done |].
  by rewrite IH, app_assoc.
Qed.

Lemma created_app (tr tr' : list call) :
  created (tr ++ tr') = created tr ++ created tr'.
Proof.
  induction tr as [| [T e t] tr IH]; simpl; [done |].
  by rewrite IH, app_assoc.
Qed.

Lemma vec_lens_app (tr tr' : list call) :
  vec_lens (tr ++ tr') = vec_lens tr ++ vec_lens tr'.
Proof.
  induction tr as [| [T e t] tr IH]; simpl; [done |].
  by rewrite IH, app_assoc.
Qed.

Lemma idx_lens_app (tr tr' : list call) :
  idx_lens (tr ++ tr') = idx_lens tr ++ idx_lens tr'.
Proof.
  induction tr as [| [T e t] tr IH]; simpl; [done |].
  by rewrite IH, app_assoc.
Qed.

Lemma idx_data_app (tr tr' : list call) :
  idx_data (tr ++ tr') = idx_data tr ++ idx_data tr'.
Proof.
  induction tr as [| [T e t] tr IH]; simpl; [done |].
  by rewrite IH, app_assoc.
Qed.

(** X14. The [Set*Data] methods need a compiled mesh: on a mesh without
    buffer manager they panic, before any call; on the mesh that a
    successful [MakeVectors] returns they do not panic, and every run
    sends the one array of the method on its slot of the given scene,
    without creating a buffer manager and without setting a length or the
    indexes. *)
Theorem SetData_after_MakeVectors (ms : MeshBase) (sc sc' : Scene) :
  Validate ms = Ret None ->
  (Buff ms = None ->
   SetVtxData ms sc' = Ret None /\ SetNormData ms sc' = Ret None /\
   SetColorData ms sc' = Ret None) /\
  every_run (MakeVectors ms sc) (fun _ r =>
    let sends (p : Prog (option unit)) (slot : InVtx) (data : ArrayF32) :=
      every_run p (fun tr o =>
        o = Some tt /\
        vec_data tr = [(Renders_Vectors sc' slot, data)] /\
        created tr = [] /\ vec_lens tr = [] /\ idx_lens tr = [] /\
        idx_data tr = []) in
    sends (SetVtxData (snd r) sc') InVtxPos (Vtx ms) /\
    sends (SetNormData (snd r) sc') InVtxNorm (Norm ms) /\
    sends (SetColorData (snd r) sc') InVtxColor (Color ms)).
Proof.
  intros Hv. split.
  - intros HB. unfold SetVtxData, SetNormData, SetColorData.
    by rewrite HB.
  - eapply every_run_impl; [| by apply MakeVectors_compiles].
    intros tr r (_ & _ & (b & -> & _) & _).
    unfold SetVtxData, SetNormData, SetColorData. cbn.
    split_and!; intros; done.
Qed.

(** X15. [Activate] and [Render3D] on a mesh without buffer manager that
    [Validate] rejects: the error of [MakeVectors] is dropped, and every
    run panics on the nil buffer manager right after the log line of
    [Validate], before any call on the GPU interfaces. *)
Theorem Activate_invalid_mesh_panics (ms : MeshBase) (sc : Scene)
    (err : error) :
  returns (Validate ms) (Some err) -> Buff ms = None ->
  every_outcome (Activate ms sc) (fun tr r =>
    r = None /\ tr = [Built (Call (LogPrintln err) tt)]) /\
  every_outcome (Render3D ms sc) (fun tr r =>
    r = None /\ tr = [Built (Call (LogPrintln err) tt)]).
Proof.
  intros Hret HB.
  destruct (Validate_cases ms) as [[Hv _] | (e & Hv & _)];
    rewrite Hv in Hret.
  - discriminate Hret.
  - specialize (Hret tt). simpl in Hret. inversion Hret; subst e.
    unfold Render3D, Activate, MakeVectors. rewrite HB, Hv.
    cbn. unfold on_Buff. rewrite HB. cbn.
    split; intros []; done.
Qed.

(** X16. [Render3D] on a mesh that has a buffer manager, or that
    [Validate] accepts: no run panics; the mesh comes back with a buffer
    manager [b] and its arrays as they were, [b] is activated once, the
    length of its indexes buffer is read once, and the one drawing call
    is [TrianglesIndexed(0, n)] for the length [n] read. A buffer manager
    that the mesh has is used as it is: nothing is validated, logged or
    sent. A mesh without one is compiled first, with the lengths of its
    vertex and index arrays. On the mesh that comes back no transfer
    method panics. *)
Theorem Render3D_draws (ms : MeshBase) (sc : Scene) :
  Buff ms <> None \/ Validate ms = Ret None ->
  every_outcome (Render3D ms sc) (fun tr r =>
    exists b n,
      r = Some (set_Buff ms (Some b)) /\
      activated tr = [b] /\ lengths_read tr = [n] /\ drawn tr = [(0, n)] /\
      logged (built tr) = [] /\
      match Buff ms with
      | Some b0 =>
          b = b0 /\ created (built tr) = [] /\ vec_data (built tr) = [] /\
          vec_lens (built tr) = [] /\ idx_data (built tr) = []
      | None =>
          created (built tr) = [b] /\
          vec_lens (built tr) = [vtx_count ms] /\
          idx_lens (built tr) = [len (Idx ms)] /\
          idx_data (built tr) = [Idx ms]
      end /\
      every_outcome (TransferAll (set_Buff ms (Some b)))
        (fun tr' r' => r' = Some tt /\ tr' = [Drew (Buff_TransferAll b) tt]) /\
      every_outcome (TransferVectors (set_Buff ms (Some b)))
        (fun tr' r' =>
           r' = Some tt /\ tr' = [Drew (Buff_TransferVectors b) tt]) /\
      every_outcome (TransferIndexes (set_Buff ms (Some b)))
        (fun tr' r' =>
           r' = Some tt /\ tr' = [Drew (Buff_TransferIndexes b) tt])).
Proof.
  intros Hok. unfold Render3D, Activate.
  destruct (Buff ms) as [b0 |] eqn:HB.
  - assert (Hms : set_Buff ms (Some b0) = ms)
      by (destruct ms; cbn in *; by subst).
    cbn. unfold on_Buff. rewrite HB. cbn. intros [].
    unfold on_Buff. rewrite HB. cbn. intros ibuf n [].
    exists b0, n. rewrite Hms.
    split_and!; try done; by intros [].
  - destruct Hok as [Hne | Hv]; [done |].
    apply every_outcome_bind, every_outcome_bind, every_outcome_lift.
    eapply every_run_impl; [| by apply MakeVectors_compiles].
    intros tr r (_ & Hlog & (b & -> & Hb) & HVL & _ & HIL & HID).
    rewrite HB in Hb.
    cbn. unfold on_Buff. cbn. intros [] ibuf n [].
    exists b, n.
    rewrite !app_nil_r, <- !app_assoc.
    rewrite activated_lift, lengths_read_lift, drawn_lift, !built_lift.
    rewrite logged_app, created_app, vec_lens_app, idx_lens_app,
      idx_data_app.
    rewrite Hlog, Hb, HVL, HIL, HID. cbn.
    split_and!; try done; by intros [].
Qed.

End Drawing.

(** ** How [SetPlane] fails *)

Lemma arr_set_panic {A : Type} (a : list A) (i : Z) (v : A) (e : panic) :
  arr_set a i v = Panic e -> e = IndexOutOfRange.
Proof.
  unfold arr_set. destruct (_ && _); [discriminate | by intros [= <-]].
Qed.

Lemma arr_write_panic {A : Type} (v a : list A) (pos : Z) (e : panic) :
  arr_write a pos v = Panic e -> e = IndexOutOfRange.
Proof.
  revert a pos. induction v as [| x v IH]; intros a pos; simpl.
  - discriminate.
  - destruct (arr_set a pos x) as [a' | e'] eqn:E; simpl.
    + apply IH.
    + intros [= <-]. by eapply arr_set_panic.
Qed.



Lemma for_from_panic {S : Type} (Q : panic -> Prop)
    (body : Z -> S -> result S) (count : nat) :
  (forall j s e, body j s = Panic e -> Q e) ->
  forall (i : Z) (s : S) (e : panic),
    for_from i count body s = Panic e -> Q e.
Proof.
  intros Hbody. induction count as [| c IH]; intros i s e; simpl.
  - discriminate.
  - destruct (body i s) as [s1 | e1] eqn:Hb; simpl.
    + apply IH.
    + intros [= <-]. by eapply Hbody.
Qed.

Lemma for_int_panic {S : Type} (Q : panic -> Prop)
    (body : Z -> S -> result S) (n : Z) (s : S) (e : panic) :
  (forall j s e, body j s = Panic e -> Q e) ->
  for_int n body s = Panic e -> Q e.
Proof. intros Hbody. unfold for_int. by apply for_from_panic. Qed.




Section Failures.

Context `{Ext : External}.

(** Takes apart a chain of [rbind]s that returned. *)
Ltac ok_inv H :=
  repeat match type of H with
         | rbind ?r _ = Ok _ =>
             let E := fresh "E" in
             destruct r eqn:E; cbn [rbind] in H; [| discriminate H]
         | match ?x with pair _ _ => _ end = Ok _ => destruct x
         end.

Lemma plane_vertex_panic (setNorm setTex hasColor : bool)
    (waxis haxis w : mat32.Dims)
    (fwdir fhdir segWidth segHeight woff hoff zoff : float32)
    (wsegs hsegs : Z) (norm : mat32.Vec3) (clrv : mat32.Vec4)
    (iy ix : Z) (s : PlaneLoop) (e : panic) :
  plane_vertex setNorm setTex hasColor waxis haxis w fwdir fhdir segWidth
    segHeight woff hoff zoff wsegs hsegs norm clrv iy ix s = Panic e ->
  e = IndexOutOfRange.
Proof.
  unfold plane_vertex, mat32.Vec3_ToArray, mat32.Vec2_ToArray,
    mat32.Vec4_ToArray.
  destruct (arr_write (Vtx (l_ms s)) _ _) eqn:E1; cbn [rbind];
    [| intros [= <-]; by eapply arr_write_panic].
  destruct setNorm; cbn [rbind];
    [destruct (arr_write (Norm _) _ _) eqn:E2; cbn [rbind];
     [| intros [= <-]; by eapply arr_write_panic] |];
    (destruct setTex; cbn [rbind];
     [destruct (arr_write (Tex _) _ _) eqn:E3; cbn [rbind];
      [| intros [= <-]; by eapply arr_write_panic] |]);
    (destruct hasColor; cbn [rbind];
     [destruct (arr_write (Color _) _ _) eqn:E4; cbn [rbind];
      [| intros [= <-]; by eapply arr_write_panic] |]);
    discriminate.
Qed.

Lemma plane_vertex_keeps_Idx (setNorm setTex hasColor : bool)
    (waxis haxis w : mat32.Dims)
    (fwdir fhdir segWidth segHeight woff hoff zoff : float32)
    (wsegs hsegs : Z) (norm : mat32.Vec3) (clrv : mat32.Vec4)
    (iy ix : Z) (s s' : PlaneLoop) :
  plane_vertex setNorm setTex hasColor waxis haxis w fwdir fhdir segWidth
    segHeight woff hoff zoff wsegs hsegs norm clrv iy ix s = Ok s' ->
  Idx (l_ms s') = Idx (l_ms s).
Proof.
  unfold plane_vertex. intros H.
  destruct setNorm, setTex, hasColor; ok_inv H;
    repeat match goal with
           | E : rbind _ _ = Ok _ |- _ => ok_inv E
           | E : Ok _ = Ok _ |- _ => inversion E; clear E; subst
           end;
    done.
Qed.



Lemma plane_cell_panic (stVtxIdx wsegs1 iy ix : Z) (s : ArrayU32 * int)
    (e : panic) :
  plane_cell stVtxIdx wsegs1 iy ix s = Panic e -> e = IndexOutOfRange.
Proof.
  unfold plane_cell, mat32.ArrayU32_Set. destruct s as [idx sidx].
  destruct (arr_write idx sidx _) eqn:E; cbn [rbind]; [discriminate |].
  intros [= <-]. by eapply arr_write_panic.
Qed.

Lemma vertex_loop_panic (setNorm setTex hasColor : bool)
    (waxis haxis w : mat32.Dims)
    (fwdir fhdir segWidth segHeight woff hoff zoff : float32)
    (wsegs hsegs n m : Z) (norm : mat32.Vec3) (clrv : mat32.Vec4)
    (s : PlaneLoop) (e : panic) :
  for_int m (fun iy s =>
    for_int n (fun ix s =>
      plane_vertex setNorm setTex hasColor waxis haxis w fwdir fhdir
        segWidth segHeight woff hoff zoff wsegs hsegs norm clrv iy ix s) s) s
  = Panic e ->
  e = IndexOutOfRange.
Proof.
  apply (for_int_panic (fun e => e = IndexOutOfRange)).
  intros iy s1 e1.
  apply (for_int_panic (fun e => e = IndexOutOfRange)).
  intros ix s2 e2. apply plane_vertex_panic.
Qed.

Lemma vertex_loop_keeps_Idx (setNorm setTex hasColor : bool)
    (waxis haxis w : mat32.Dims)
    (fwdir fhdir segWidth segHeight woff hoff zoff : float32)
    (wsegs hsegs n m : Z) (norm : mat32.Vec3) (clrv : mat32.Vec4)
    (s s' : PlaneLoop) :
  for_int m (fun iy s =>
    for_int n (fun ix s =>
      plane_vertex setNorm setTex hasColor waxis haxis w fwdir fhdir
        segWidth segHeight woff hoff zoff wsegs hsegs norm clrv iy ix s) s) s
  = Ok s' ->
  Idx (l_ms s') = Idx (l_ms s).
Proof.
  intros Hrun.
  apply (for_int_preserves (fun s1 => Idx (l_ms s1) = Idx (l_ms s))
           _ _ _ _) with (3 := eq_refl) in Hrun; [done |].
  intros iy s1 s2 Hin HI.
  apply (for_int_preserves (fun s3 => Idx (l_ms s3) = Idx (l_ms s))
           _ _ _ _) with (3 := HI) in Hin; [done |].
  intros ix s3 s4 Hv HI3. apply plane_vertex_keeps_Idx in Hv. congruence.
Qed.

Lemma plane_indexes_panic (ms : MeshBase) (stVtxIdx stIdxIdx wsegs hsegs : Z)
    (e : panic) :
  -1152921504606846976 <= stIdxIdx <= 1152921504606846976 ->
  0 <= wsegs * hsegs * 6 <= 2305843009213693952 ->
  len (Idx ms) <= 1152921504606846976 ->
  plane_indexes ms stVtxIdx stIdxIdx (wsegs * hsegs * 6) wsegs hsegs
    (Int.add wsegs 1) = Panic e ->
  e = IndexOutOfRange.
Proof.
  intros HstI Hsz Hlen. unfold plane_indexes.
  pose proof (len_nonneg (Idx ms)).
  replace (Int.add stIdxIdx (wsegs * hsegs * 6))
    with (stIdxIdx + wsegs * hsegs * 6)
    by (unfold Int.add; rewrite wrap_small; lia).
  rewrite Z.gtb_ltb.
  destruct (Z.ltb_spec (len (Idx ms)) (stIdxIdx + wsegs * hsegs * 6)).
  - unfold Int.sub. rewrite wrap_small by lia. rewrite Extend_ok by lia.
    cbn [rbind].
    destruct (for_int hsegs _ _) eqn:E; cbn [rbind]; [discriminate |].
    intros [= <-]. revert E.
    apply (for_int_panic (fun e => e = IndexOutOfRange)).
    intros iy s1 e1.
    apply (for_int_panic (fun e => e = IndexOutOfRange)).
    intros ix s2 e2. apply plane_cell_panic.
  - cbn [rbind].
    destruct (for_int hsegs _ _) eqn:E; cbn [rbind]; [discriminate |].
    intros [= <-]. revert E.
    apply (for_int_panic (fun e => e = IndexOutOfRange)).
    intros iy s1 e1.
    apply (for_int_panic (fun e => e = IndexOutOfRange)).
    intros ix s2 e2. apply plane_cell_panic.
Qed.

(** Within bounds, [SetPlane] fails in one way only. *)
Lemma SetPlane_panic_kind (ms : MeshBase) (stVtxIdx stIdxIdx : Z)
    (setNorm setTex setIdx : bool) (p : PlaneArgs) (e : panic) :
  0 <= stVtxIdx <= 288230376151711744 ->
  -1152921504606846976 <= stIdxIdx <= 1152921504606846976 ->
  p_vtx_size p <= 288230376151711744 ->
  moderate ms ->
  SetPlane_with ms stVtxIdx stIdxIdx setNorm setTex setIdx p = Panic e ->
  e = IndexOutOfRange.
Proof.
  destruct p as [waxis haxis wdir hdir width height woff hoff zoff
                   wsegs hsegs clr].
  unfold SetPlane_with, p_vtx_size.
  cbn [p_waxis p_haxis p_wdir p_hdir p_width p_height p_woff p_hoff p_zoff
       p_wsegs p_hsegs p_clr].
  intros HstV HstI Hsz Hmod.
  set (w := Z.max wsegs 1). set (h := Z.max hsegs 1).
  destruct (PlaneSize_clamped ms wsegs hsegs Hsz) as [HPS _].
  pose proof Hmod as Hmod'.
  apply moderate_bounds in Hmod' as (HV & HN & HT & HC & HI).
  assert (Hw : 1 <= w) by (subst w; lia).
  assert (Hh : 1 <= h) by (subst h; lia).
  assert (Hcnt : plane_vtx_size wsegs hsegs = (w + 1) * (h + 1)) by done.
  assert (Hicnt : plane_idx_size wsegs hsegs = w * h * 6) by done.
  assert (Hexp : (w + 1) * (h + 1) = w * h + w + h + 1) by ring.
  assert (0 < w * h) by (apply Z.mul_pos_pos; lia).
  unfold SetPlane. rewrite HPS.
  destruct (plane_extend_ok ms stVtxIdx (plane_vtx_size wsegs hsegs)
              (negb (IsNil clr)))
    as (ms0 & Hext & _ & _ & _ & _ & EI & _); try done; try lia.
  rewrite Hext. cbn [rbind]. unfold MaxInt. fold w h.
  match goal with
  | |- rbind ?loop _ = _ -> _ => destruct loop as [s1 | e1] eqn:EL
  end; cbn [rbind].
  - apply vertex_loop_keeps_Idx in EL. cbn [l_ms] in EL.
    destruct setIdx; [| discriminate].
    rewrite Hicnt.
    apply plane_indexes_panic; try lia.
    rewrite EL, EI. lia.
  - intros [= <-]. by apply vertex_loop_panic in EL.
Qed.

(** X17. Within bounds, whatever the arrays hold, the only panic of
    [SetPlane] is the index out of range of a write, and there is none
    when [Norm], [Tex] and, with a color, [Color] hold at least as many
    vectors as [Vtx]. *)
Theorem SetPlane_fails_only_out_of_range (ms : MeshBase)
    (stVtxIdx stIdxIdx : Z) (setNorm setTex setIdx : bool) (p : PlaneArgs) :
  0 <= stVtxIdx <= 2 ^ 56 -> 0 <= stIdxIdx <= 2 ^ 59 ->
  plane_fits (p_wsegs p) (p_hsegs p) -> moderate ms ->
  (forall e,
     SetPlane_with ms stVtxIdx stIdxIdx setNorm setTex setIdx p = Panic e ->
     e = IndexOutOfRange) /\
  (aligned ms (negb (IsNil (p_clr p))) ->
   exists ms',
     SetPlane_with ms stVtxIdx stIdxIdx setNorm setTex setIdx p = Ok ms').
Proof.
  intros HstV HstI Hfit Hmod.
  unfold plane_fits in Hfit.
  change (2 ^ 56) with 72057594037927936 in *.
  change (2 ^ 59) with 576460752303423488 in *.
  split.
  - intros e. apply SetPlane_panic_kind; try done; try lia.
    unfold p_vtx_size. lia.
  - intros Hal. eexists. apply SetPlane_exact; try done; try lia.
    unfold p_vtx_size. lia.
Qed.


End Failures.

Section NegativeStart.

Context `{Ext : External}.




End NegativeStart.

Section ValidateFacts.

Context `{Ext : External}.

(** X20. [Validate] looks at four counts only: it answers the same, with
    the same message, on two meshes whose arrays hold as many whole
    vectors. So it never looks at the indexes, and it ignores one or two
    floats after the last whole vector of an array. *)
Theorem Validate_counts_only (ms : MeshBase) :
  (forall ms',
     vtx_count ms' = vtx_count ms -> norm_count ms' = norm_count ms ->
     tex_count ms' = tex_count ms -> color_count ms' = color_count ms ->
     Validate ms' = Validate ms) /\
  (forall idx, Validate (set_Idx ms idx) = Validate ms) /\
  (forall x, len (Vtx ms) mod 3 < 2 ->
     Validate (set_Vtx ms (Vtx ms ++ [x])) = Validate ms).
Proof.
  assert (Hgen : forall a b : MeshBase,
    vtx_count a = vtx_count b -> norm_count a = norm_count b ->
    tex_count a = tex_count b -> color_count a = color_count b ->
    Validate a = Validate b).
  { intros a b. unfold vtx_count, norm_count, tex_count, color_count.
    intros EV EN ET EC. unfold Validate.
    rewrite !quo_count by lia. by rewrite EV, EN, ET, EC. }
  split; [intros ms'; by apply Hgen |]. split.
  - intros idx. by apply Hgen.
  - intros x Hmod. apply Hgen; try done.
    unfold vtx_count. cbn [set_Vtx Vtx]. rewrite len_app.
    change (len [x]) with 1.
    pose proof (len_nonneg (Vtx ms)).
    pose proof (Z.mod_pos_bound (len (Vtx ms)) 3 ltac:(lia)).
    rewrite (Z.div_mod (len (Vtx ms)) 3) at 1 by lia.
    rewrite <- Z.add_assoc, Z.mul_comm, Z.div_add_l by lia.
    rewrite (Z.div_small (_ + 1)) by lia. lia.
Qed.

(** X21. [Validate] and [HasColor] disagree on a [Color] array of one to
    three floats: [Validate] counts no color and, when the normals and the
    texture coordinates match the vertexes, accepts the mesh, while
    [HasColor] is true, so that every run of [MakeVectors] returns no
    error and sends [Color], which holds no whole color, on the color
    slot after the three other arrays. *)
Theorem ragged_Color_is_sent (ms : MeshBase) (sc : Scene) :
  vtx_count ms <> 0 -> norm_count ms = vtx_count ms ->
  tex_count ms = vtx_count ms -> 0 < len (Color ms) < 4 ->
  Validate ms = Ret None /\ HasColor ms = true /\
  color_count ms = 0 /\
  every_run (MakeVectors ms sc) (fun tr r =>
    fst r = None /\
    vec_lens tr = [vtx_count ms] /\
    vec_data tr
    = [(Renders_Vectors sc InVtxPos, Vtx ms);
       (Renders_Vectors sc InVtxNorm, Norm ms);
       (Renders_Vectors sc InVtxTex, Tex ms);
       (Renders_Vectors sc InVtxColor, Color ms)]).
Proof.
  intros HV HN HT HC.
  assert (Hcc : color_count ms = 0)
    by (unfold color_count; apply Z.div_small; lia).
  assert (Hval : Validate ms = Ret None).
  { destruct (Validate_cases ms) as [[Hok _] | (e & _ & Hbad)]; [done |].
    exfalso. apply Hbad. split_and!; try done. by left. }
  assert (Hhas : HasColor ms = true).
  { unfold HasColor. rewrite Z.gtb_ltb. apply Z.ltb_lt. lia. }
  split; [done |]. split; [done |]. split; [done |].
  eapply every_run_impl; [| by apply MakeVectors_compiles].
  intros tr r (Hr & _ & _ & HVL & HVD & _).
  rewrite Hhas in HVD. done.
Qed.

End ValidateFacts.

(** * The further facts on concrete meshes *)

(** Settles a bound or a shape of a concrete mesh by computation. *)
Ltac computed :=
  vm_compute; repeat split; try reflexivity; try (intros; discriminate).

Lemma MakeVectors_buffer_manager_witness :
  Validate bound_mesh = Ret None /\
  every_run (MakeVectors bound_mesh sample_scene) (fun tr r =>
    fst r = None /\ logged tr = [] /\
    exists b, snd r = set_Buff bound_mesh (Some b) /\
      match Buff bound_mesh with
      | Some b0 => b = b0 /\ created tr = [] /\ usages tr = []
      | None =>
          created tr = [b] /\
          usages tr
          = [(true, if Dynamic bound_mesh then DynamicDraw else StaticDraw);
             (false, StaticDraw)]
      end).
Proof.
  split; [reflexivity |].
  apply (MakeVectors_buffer_manager bound_mesh sample_scene). reflexivity.
Defined.

Lemma MakeVectors_uploads_witness :
  Validate red_mesh = Ret None /\
  every_run (MakeVectors red_mesh sample_scene) (fun tr r =>
    vec_lens tr = [vtx_count red_mesh] /\
    vec_data tr
    = [(Renders_Vectors sample_scene InVtxPos, Vtx red_mesh);
       (Renders_Vectors sample_scene InVtxNorm, Norm red_mesh);
       (Renders_Vectors sample_scene InVtxTex, Tex red_mesh)]
      ++ (if HasColor red_mesh
          then [(Renders_Vectors sample_scene InVtxColor, Color red_mesh)]
          else []) /\
    idx_lens tr = [len (Idx red_mesh)] /\
    idx_data tr = [Idx red_mesh]).
Proof.
  assert (Hv : Validate red_mesh = Ret None) by (vm_compute; reflexivity).
  split; [exact Hv |].
  exact (MakeVectors_uploads red_mesh sample_scene Hv).
Defined.

Lemma MakeVectors_rebuilds_vectors_witness :
  Validate red_mesh = Ret None /\
  every_run (MakeVectors red_mesh sample_scene) (fun tr r =>
    exists n, num_vectors tr = [n] /\
      if n =? (if HasColor red_mesh then 4 else 3)
      then deletions tr = O /\ added tr = []
      else deletions tr = 1%nat /\
           added tr
           = [(Renders_Vectors sample_scene InVtxPos, true);
              (Renders_Vectors sample_scene InVtxNorm, true);
              (Renders_Vectors sample_scene InVtxTex, true)]
             ++ (if HasColor red_mesh
                 then [(Renders_Vectors sample_scene InVtxColor, false)]
                 else [])).
Proof.
  assert (Hv : Validate red_mesh = Ret None) by (vm_compute; reflexivity).
  split; [exact Hv |].
  exact (MakeVectors_rebuilds_vectors red_mesh sample_scene Hv).
Defined.

Lemma SetPlane_closed_form_witness :
  plane_call plain_mesh 2 3 tall_quad /\
  SetPlane_with plain_mesh 2 3 true false true tall_quad
  = Ok (SetPlane_closed plain_mesh 2 3 true false true tall_quad).
Proof.
  assert (Hc : plane_call plain_mesh 2 3 tall_quad) by computed.
  split; [exact Hc |].
  exact (SetPlane_closed_form plain_mesh 2 3 true false true tall_quad Hc).
Defined.

Lemma SetPlane_positions_witness :
  plane_call the_empty 0 0 wide_red_quad /\
  0 <= 1 <= Z.max (p_wsegs wide_red_quad) 1 /\
  0 <= 0 <= Z.max (p_hsegs wide_red_quad) 1 /\
  exists ms',
    SetPlane_with the_empty 0 0 true true true wide_red_quad = Ok ms' /\
    slice (Vtx ms') (Z.to_nat (3 * vertex_id wide_red_quad 0 1 0)) 3
    = Vec3_floats (plane_point wide_red_quad 1 0) /\
    (p_waxis wide_red_quad <> p_haxis wide_red_quad ->
     component (plane_point wide_red_quad 1 0) (p_waxis wide_red_quad)
     = axis_coord (p_wdir wide_red_quad) (p_width wide_red_quad)
         (p_woff wide_red_quad) (p_wsegs wide_red_quad) 1 /\
     component (plane_point wide_red_quad 1 0) (p_haxis wide_red_quad)
     = axis_coord (p_hdir wide_red_quad) (p_height wide_red_quad)
         (p_hoff wide_red_quad) (p_hsegs wide_red_quad) 0 /\
     component (plane_point wide_red_quad 1 0)
       (plane_w (p_waxis wide_red_quad) (p_haxis wide_red_quad))
     = p_zoff wide_red_quad).
Proof.
  assert (Hc : plane_call the_empty 0 0 wide_red_quad) by computed.
  assert (Hx : 0 <= 1 <= Z.max (p_wsegs wide_red_quad) 1) by computed.
  assert (Hy : 0 <= 0 <= Z.max (p_hsegs wide_red_quad) 1) by computed.
  split; [exact Hc |]. split; [exact Hx |]. split; [exact Hy |].
  exact (SetPlane_positions the_empty 0 0 true true true wide_red_quad 1 0
           Hc Hx Hy).
Defined.

Lemma SetPlane_texcoords_witness :
  plane_call the_empty 0 0 grid_3x2 /\
  0 <= 2 <= Z.max (p_wsegs grid_3x2) 1 /\
  0 <= 1 <= Z.max (p_hsegs grid_3x2) 1 /\
  exists ms',
    SetPlane_with the_empty 0 0 false true false grid_3x2 = Ok ms' /\
    slice (Tex ms') (Z.to_nat (2 * vertex_id grid_3x2 0 2 1)) 2
    = [F32.div (F32.of_int 2) (F32.of_int (Z.max (p_wsegs grid_3x2) 1));
       F32.sub (F32.of_int 1)
         (F32.div (F32.of_int 1) (F32.of_int (Z.max (p_hsegs grid_3x2) 1)))].
Proof.
  assert (Hc : plane_call the_empty 0 0 grid_3x2) by computed.
  assert (Hx : 0 <= 2 <= Z.max (p_wsegs grid_3x2) 1) by computed.
  assert (Hy : 0 <= 1 <= Z.max (p_hsegs grid_3x2) 1) by computed.
  split; [exact Hc |]. split; [exact Hx |]. split; [exact Hy |].
  exact (SetPlane_texcoords the_empty 0 0 false false grid_3x2 2 1 Hc Hx Hy).
Defined.

Lemma SetPlane_colors_witness :
  plane_call red_mesh 4 6 wide_red_quad /\
  IsNil (p_clr wide_red_quad) = false /\
  0 <= 1 <= Z.max (p_wsegs wide_red_quad) 1 /\
  0 <= 1 <= Z.max (p_hsegs wide_red_quad) 1 /\
  exists ms',
    SetPlane_with red_mesh 4 6 true true true wide_red_quad = Ok ms' /\
    slice (Color ms') (Z.to_nat (4 * vertex_id wide_red_quad 4 1 1)) 4
    = Vec4_floats (ColorToVec4f (p_clr wide_red_quad)).
Proof.
  assert (Hc : plane_call red_mesh 4 6 wide_red_quad) by computed.
  assert (Hn : IsNil (p_clr wide_red_quad) = false) by reflexivity.
  assert (Hx : 0 <= 1 <= Z.max (p_wsegs wide_red_quad) 1) by computed.
  assert (Hy : 0 <= 1 <= Z.max (p_hsegs wide_red_quad) 1) by computed.
  split; [exact Hc |]. split; [exact Hn |].
  split; [exact Hx |]. split; [exact Hy |].
  exact (SetPlane_colors red_mesh 4 6 true true true wide_red_quad 1 1
           Hc Hn Hx Hy).
Defined.

Lemma SetPlane_in_place_witness :
  plane_call red_mesh 0 0 wide_red_quad /\
  0 + p_vtx_size wide_red_quad <= vtx_count red_mesh /\
  (true = true -> 0 + p_idx_size wide_red_quad <= len (Idx red_mesh)) /\
  exists ms',
    SetPlane_with red_mesh 0 0 false true true wide_red_quad = Ok ms' /\
    same_outside (Z.to_nat (3 * 0)) (Z.to_nat (3 * p_vtx_size wide_red_quad))
      (Vtx red_mesh) (Vtx ms') /\
    same_outside (Z.to_nat (3 * 0)) (Z.to_nat (3 * p_vtx_size wide_red_quad))
      (Norm red_mesh) (Norm ms') /\
    same_outside (Z.to_nat (2 * 0)) (Z.to_nat (2 * p_vtx_size wide_red_quad))
      (Tex red_mesh) (Tex ms') /\
    same_outside (Z.to_nat (4 * 0)) (Z.to_nat (4 * p_vtx_size wide_red_quad))
      (Color red_mesh) (Color ms') /\
    same_outside (Z.to_nat 0) (Z.to_nat (p_idx_size wide_red_quad))
      (Idx red_mesh) (Idx ms') /\
    (false = false -> Norm ms' = Norm red_mesh) /\
    (true = false -> Tex ms' = Tex red_mesh) /\
    (true = false -> Idx ms' = Idx red_mesh) /\
    same_header red_mesh ms' /\
    Validate ms' = Validate red_mesh.
Proof.
  assert (Hc : plane_call red_mesh 0 0 wide_red_quad) by computed.
  assert (Hv : 0 + p_vtx_size wide_red_quad <= vtx_count red_mesh)
    by computed.
  assert (Hi : true = true ->
               0 + p_idx_size wide_red_quad <= len (Idx red_mesh))
    by computed.
  split; [exact Hc |]. split; [exact Hv |]. split; [exact Hi |].
  exact (SetPlane_in_place red_mesh 0 0 false true true wide_red_quad
           Hc Hv Hi).
Defined.

Lemma SetPlane_overwrites_witness :
  plane_call the_empty 0 0 unit_quad /\
  Z.max (p_wsegs tall_quad) 1 = Z.max (p_wsegs unit_quad) 1 /\
  Z.max (p_hsegs tall_quad) 1 = Z.max (p_hsegs unit_quad) 1 /\
  IsNil (p_clr tall_quad) = IsNil (p_clr unit_quad) /\
  SetPlane_with the_empty 0 0 true true true unit_quad = Ok plain_mesh /\
  moderate plain_mesh /\
  exists ms2,
    SetPlane_with plain_mesh 0 0 true true true tall_quad = Ok ms2 /\
    SetPlane_with the_empty 0 0 true true true tall_quad = Ok ms2.
Proof.
  assert (Hc : plane_call the_empty 0 0 unit_quad) by computed.
  assert (Hr : SetPlane_with the_empty 0 0 true true true unit_quad
               = Ok plain_mesh) by (vm_compute; reflexivity).
  assert (Hm : moderate plain_mesh) by computed.
  split; [exact Hc |]. split; [reflexivity |]. split; [reflexivity |].
  split; [reflexivity |]. split; [exact Hr |]. split; [exact Hm |].
  exact (SetPlane_overwrites the_empty plain_mesh 0 0 true true true
           unit_quad tall_quad Hc eq_refl eq_refl eq_refl Hr Hm).
Defined.

Lemma AddPlane_appends_witness :
  moderate red_mesh /\
  plane_fits (p_wsegs wide_red_quad) (p_hsegs wide_red_quad) /\
  well_formed red_mesh /\
  (IsNil (p_clr wide_red_quad) = false ->
   len (Color red_mesh) = 4 * vtx_count red_mesh) /\
  exists ms',
    AddPlane_with red_mesh wide_red_quad = Ok ms' /\
    Vtx ms' = Vtx red_mesh ++ plane_Vtx wide_red_quad /\
    Norm ms' = Norm red_mesh ++ plane_Norm wide_red_quad /\
    Tex ms' = Tex red_mesh ++ plane_Tex wide_red_quad /\
    Color ms'
    = (if IsNil (p_clr wide_red_quad) then Color red_mesh
       else Color red_mesh ++ plane_Color wide_red_quad) /\
    Idx ms' = Idx red_mesh ++ plane_Idx wide_red_quad (vtx_count red_mesh) /\
    same_header red_mesh ms'.
Proof.
  assert (Hm : moderate red_mesh) by computed.
  assert (Hf : plane_fits (p_wsegs wide_red_quad) (p_hsegs wide_red_quad))
    by computed.
  assert (Hw : well_formed red_mesh)
    by (vm_compute; repeat split; right; reflexivity).
  assert (Hcl : IsNil (p_clr wide_red_quad) = false ->
                len (Color red_mesh) = 4 * vtx_count red_mesh)
    by (intros _; vm_compute; reflexivity).
  split; [exact Hm |]. split; [exact Hf |]. split; [exact Hw |].
  split; [exact Hcl |].
  exact (AddPlane_appends red_mesh wide_red_quad Hm Hf Hw Hcl).
Defined.

Lemma AddPlane_keeps_mesh_valid_witness :
  moderate red_mesh /\
  plane_fits (p_wsegs wide_red_quad) (p_hsegs wide_red_quad) /\
  well_formed red_mesh /\
  color_fits red_mesh (p_clr wide_red_quad) /\
  exists ms',
    AddPlane_with red_mesh wide_red_quad = Ok ms' /\
    well_formed ms' /\
    (vtx_count ms', len (Idx ms'))
    = (vtx_count red_mesh
       + fst (PlaneSize red_mesh (p_wsegs wide_red_quad)
                (p_hsegs wide_red_quad)),
       len (Idx red_mesh)
       + snd (PlaneSize red_mesh (p_wsegs wide_red_quad)
                (p_hsegs wide_red_quad))) /\
    HasColor ms' = negb (IsNil (p_clr wide_red_quad)) /\
    IsTransparent ms'
    = (if IsNil (p_clr wide_red_quad) then false else Trans red_mesh) /\
    color_fits ms' (p_clr wide_red_quad) /\
    Validate ms' = Ret None /\
    (index_bound red_mesh -> index_bound ms').
Proof.
  assert (Hm : moderate red_mesh) by computed.
  assert (Hf : plane_fits (p_wsegs wide_red_quad) (p_hsegs wide_red_quad))
    by computed.
  assert (Hw : well_formed red_mesh)
    by (vm_compute; repeat split; right; reflexivity).
  assert (Hcl : color_fits red_mesh (p_clr wide_red_quad))
    by (vm_compute; reflexivity).
  split; [exact Hm |]. split; [exact Hf |]. split; [exact Hw |].
  split; [exact Hcl |].
  exact (AddPlane_keeps_mesh_valid red_mesh wide_red_quad Hm Hf Hw Hcl).
Defined.

Lemma AddPlane_then_MakeVectors_witness :
  moderate the_empty /\
  plane_fits (p_wsegs unit_quad) (p_hsegs unit_quad) /\
  well_formed the_empty /\
  color_fits the_empty (p_clr unit_quad) /\
  exists ms',
    AddPlane_with the_empty unit_quad = Ok ms' /\
    every_run (MakeVectors ms' sample_scene) (fun tr r =>
      fst r = None /\
      vec_lens tr = [vtx_count the_empty + p_vtx_size unit_quad] /\
      idx_lens tr = [len (Idx the_empty) + p_idx_size unit_quad] /\
      vec_data tr
      = [(Renders_Vectors sample_scene InVtxPos,
          Vtx the_empty ++ plane_Vtx unit_quad);
         (Renders_Vectors sample_scene InVtxNorm,
          Norm the_empty ++ plane_Norm unit_quad);
         (Renders_Vectors sample_scene InVtxTex,
          Tex the_empty ++ plane_Tex unit_quad)]
        ++ (if IsNil (p_clr unit_quad) then []
            else [(Renders_Vectors sample_scene InVtxColor,
                   Color the_empty ++ plane_Color unit_quad)]) /\
      idx_data tr
      = [Idx the_empty ++ plane_Idx unit_quad (vtx_count the_empty)]).
Proof.
  assert (Hm : moderate the_empty) by computed.
  assert (Hf : plane_fits (p_wsegs unit_quad) (p_hsegs unit_quad))
    by computed.
  assert (Hw : well_formed the_empty)
    by (vm_compute; repeat split; left; reflexivity).
  assert (Hcl : color_fits the_empty (p_clr unit_quad))
    by (vm_compute; reflexivity).
  split; [exact Hm |]. split; [exact Hf |]. split; [exact Hw |].
  split; [exact Hcl |].
  exact (AddPlane_then_MakeVectors the_empty unit_quad sample_scene
           Hm Hf Hw Hcl).
Defined.

Lemma SetData_after_MakeVectors_witness :
  Validate plain_mesh = Ret None /\
  (Buff plain_mesh = None ->
   SetVtxData plain_mesh sample_scene = Ret None /\
   SetNormData plain_mesh sample_scene = Ret None /\
   SetColorData plain_mesh sample_scene = Ret None) /\
  every_run (MakeVectors plain_mesh sample_scene) (fun _ r =>
    let sends (p : Prog (option unit)) (slot : InVtx) (data : ArrayF32) :=
      every_run p (fun tr o =>
        o = Some tt /\
        vec_data tr = [(Renders_Vectors sample_scene slot, data)] /\
        created tr = [] /\ vec_lens tr = [] /\ idx_lens tr = [] /\
        idx_data tr = []) in
    sends (SetVtxData (snd r) sample_scene) InVtxPos (Vtx plain_mesh) /\
    sends (SetNormData (snd r) sample_scene) InVtxNorm (Norm plain_mesh) /\
    sends (SetColorData (snd r) sample_scene) InVtxColor (Color plain_mesh)).
Proof.
  assert (Hv : Validate plain_mesh = Ret None) by (vm_compute; reflexivity).
  split; [exact Hv |].
  exact (SetData_after_MakeVectors plain_mesh sample_scene sample_scene Hv).
Defined.

Lemma Activate_invalid_mesh_panics_witness :
  returns (Validate short_norm_mesh) (Some short_norm_error) /\
  Buff short_norm_mesh = None /\
  every_outcome (Activate short_norm_mesh sample_scene) (fun tr r =>
    r = None /\ tr = [Built (Call (LogPrintln short_norm_error) tt)]) /\
  every_outcome (Render3D short_norm_mesh sample_scene) (fun tr r =>
    r = None /\ tr = [Built (Call (LogPrintln short_norm_error) tt)]).
Proof.
  assert (Hret : returns (Validate short_norm_mesh) (Some short_norm_error))
    by (intros []; reflexivity).
  split; [exact Hret |]. split; [reflexivity |].
  exact (Activate_invalid_mesh_panics short_norm_mesh sample_scene
           short_norm_error Hret eq_refl).
Defined.

Lemma Render3D_draws_witness :
  (Buff plain_mesh <> None \/ Validate plain_mesh = Ret None) /\
  every_outcome (Render3D plain_mesh sample_scene) (fun tr r =>
    exists b n,
      r = Some (set_Buff plain_mesh (Some b)) /\
      activated tr = [b] /\ lengths_read tr = [n] /\ drawn tr = [(0, n)] /\
      logged (built tr) = [] /\
      match Buff plain_mesh with
      | Some b0 =>
          b = b0 /\ created (built tr) = [] /\ vec_data (built tr) = [] /\
          vec_lens (built tr) = [] /\ idx_data (built tr) = []
      | None =>
          created (built tr) = [b] /\
          vec_lens (built tr) = [vtx_count plain_mesh] /\
          idx_lens (built tr) = [len (Idx plain_mesh)] /\
          idx_data (built tr) = [Idx plain_mesh]
      end /\
      every_outcome (TransferAll (set_Buff plain_mesh (Some b)))
        (fun tr' r' => r' = Some tt /\ tr' = [Drew (Buff_TransferAll b) tt]) /\
      every_outcome (TransferVectors (set_Buff plain_mesh (Some b)))
        (fun tr' r' =>
           r' = Some tt /\ tr' = [Drew (Buff_TransferVectors b) tt]) /\
      every_outcome (TransferIndexes (set_Buff plain_mesh (Some b)))
        (fun tr' r' =>
           r' = Some tt /\ tr' = [Drew (Buff_TransferIndexes b) tt])).
Proof.
  assert (Hok : Buff plain_mesh <> None \/ Validate plain_mesh = Ret None)
    by (right; vm_compute; reflexivity).
  split; [exact Hok |].
  exact (Render3D_draws plain_mesh sample_scene Hok).
Defined.

Lemma SetPlane_fails_only_out_of_range_witness :
  0 <= 1 <= 2 ^ 56 /\ 0 <= 0 <= 2 ^ 59 /\
  plane_fits (p_wsegs red_quad) (p_hsegs red_quad) /\
  moderate plain_mesh /\
  (forall e,
     SetPlane_with plain_mesh 1 0 true true true red_quad = Panic e ->
     e = IndexOutOfRange) /\
  (aligned plain_mesh (negb (IsNil (p_clr red_quad))) ->
   exists ms',
     SetPlane_with plain_mesh 1 0 true true true red_quad = Ok ms').
Proof.
  assert (HV : 0 <= 1 <= 2 ^ 56) by computed.
  assert (HI : 0 <= 0 <= 2 ^ 59) by computed.
  assert (Hf : plane_fits (p_wsegs red_quad) (p_hsegs red_quad))
    by computed.
  assert (Hm : moderate plain_mesh) by computed.
  split; [exact HV |]. split; [exact HI |]. split; [exact Hf |].
  split; [exact Hm |].
  exact (SetPlane_fails_only_out_of_range plain_mesh 1 0 true true true
           red_quad HV HI Hf Hm).
Defined.



Lemma ragged_Color_is_sent_witness :
  vtx_count ragged_mesh <> 0 /\
  norm_count ragged_mesh = vtx_count ragged_mesh /\
  tex_count ragged_mesh = vtx_count ragged_mesh /\
  0 < len (Color ragged_mesh) < 4 /\
  Validate ragged_mesh = Ret None /\ HasColor ragged_mesh = true /\
  color_count ragged_mesh = 0 /\
  every_run (MakeVectors ragged_mesh sample_scene) (fun tr r =>
    fst r = None /\
    vec_lens tr = [vtx_count ragged_mesh] /\
    vec_data tr
    = [(Renders_Vectors sample_scene InVtxPos, Vtx ragged_mesh);
       (Renders_Vectors sample_scene InVtxNorm, Norm ragged_mesh);
       (Renders_Vectors sample_scene InVtxTex, Tex ragged_mesh);
       (Renders_Vectors sample_scene InVtxColor, Color ragged_mesh)]).
Proof.
  assert (HV : vtx_count ragged_mesh <> 0) by (vm_compute; discriminate).
  assert (HC : 0 < len (Color ragged_mesh) < 4) by computed.
  split; [exact HV |]. split; [reflexivity |]. split; [reflexivity |].
  split; [exact HC |].
  exact (ragged_Color_is_sent ragged_mesh sample_scene HV eq_refl eq_refl HC).
Defined.
